(** * automeet: meeting-transcript analyzers and research assistant

    A shallow embedding of [meet-01.py] (analyzer variant A), [meet-02.py]
    (analyzer variant B) and [research.py].

    Conventions of the embedding.
    - Text is [string]; every [ascii] stands for one code point below 256.
    - A coroutine of the source is a computation [M A]: a function from the
      state of the outside world to an outcome (a value or a raised
      exception) and the next state.  [await] is sequencing.
    - The world holds the console lines still to be typed, the scripted
      replies of the remote service, and the trace of observable events
      (console output, prompts, remote calls, file writes), newest first.
    - What the scripts use and do not define is a [Runtime]: whether rich
      renders a text or raises [MarkupError] on it, the text of an
      exception, the file system, and the version of the interpreter.
      Everything is stated for an arbitrary runtime.
    - [progress.add_task] / [progress.update] only animate a spinner and are
      left out.  A message into which the source interpolates the path of a
      stage file is recorded up to that path, and a message is recorded
      without its characters beyond code point 255 (a check mark). *)

From Stdlib Require Import List String Ascii Bool Arith ZArith Lia DecimalString.
Import ListNotations.
Local Open Scope string_scope.

Set Implicit Arguments.
Set Warnings "-register-all".
Set Warnings "-notation-overridden".
Set Warnings "-notation-incompatible-prefix".

(* ================================================================= *)
(** ** Text: the [str] operations the scripts use *)

Module Text.

Definition nl : string := String "010"%char EmptyString.
Definition dquote : string := String "034"%char EmptyString.

(** [str.isspace] for one code point below 256. *)
Definition isspace (c : ascii) : bool :=
  let n := nat_of_ascii c in
  (((9 <=? n) && (n <=? 13)) || ((28 <=? n) && (n <=? 32))
   || (n =? 133) || (n =? 160))%nat.

Fixpoint lstrip (s : string) : string :=
  match s with
  | EmptyString => EmptyString
  | String c s' => if isspace c then lstrip s' else s
  end.

Fixpoint rstrip (s : string) : string :=
  match s with
  | EmptyString => EmptyString
  | String c s' =>
      match rstrip s' with
      | EmptyString => if isspace c then EmptyString else String c EmptyString
      | r => String c r
      end
  end.

(** [s.strip()] *)
Definition strip (s : string) : string := rstrip (lstrip s).

(** [not s] for a [str]. *)
Definition is_empty (s : string) : bool :=
  match s with EmptyString => true | String _ _ => false end.

(** Every character is whitespace (the empty text included). *)
Fixpoint blank (s : string) : bool :=
  match s with
  | EmptyString => true
  | String c s' => isspace c && blank s'
  end.

Definition lower_char (c : ascii) : ascii :=
  let n := nat_of_ascii c in
  if (((65 <=? n) && (n <=? 90))
      || ((192 <=? n) && (n <=? 222) && negb (n =? 215)))%nat
  then ascii_of_nat (n + 32) else c.

(** [s.lower()] *)
Fixpoint lower (s : string) : string :=
  match s with
  | EmptyString => EmptyString
  | String c s' => String (lower_char c) (lower s')
  end.

(** [sep.join(parts)] *)
Definition join (sep : string) (parts : list string) : string :=
  String.concat sep parts.

(** [needle in hay] for two [str]. *)
Fixpoint contains (needle hay : string) : bool :=
  if String.prefix needle hay then true
  else match hay with
       | EmptyString => false
       | String _ hay' => contains needle hay'
       end.

(** [s.replace(a, b)] for single characters. *)
Fixpoint replace_char (a b : ascii) (s : string) : string :=
  match s with
  | EmptyString => EmptyString
  | String c s' =>
      String (if Ascii.eqb c a then b else c) (replace_char a b s')
  end.

(** [s[:n]] *)
Fixpoint take (n : nat) (s : string) : string :=
  match n, s with
  | S n', String c s' => String c (take n' s')
  | _, _ => EmptyString
  end.

(** [str(n)] for a non-negative [int]. *)
Definition of_nat (n : nat) : string := NilEmpty.string_of_uint (Nat.to_uint n).

(** [part] occurs verbatim inside [whole]. *)
Definition Substring (part whole : string) : Prop :=
  exists pre post, whole = pre ++ part ++ post.

(** Does [s] begin with a character that is not whitespace? *)
Definition starts_word (s : string) : bool :=
  match s with
  | String c _ => negb (isspace c)
  | EmptyString => false
  end.

(** [s.split()]: the maximal runs of characters that are not whitespace. *)
Fixpoint words (s : string) : list string :=
  match s with
  | EmptyString => []
  | String c s' =>
      if isspace c then words s'
      else if starts_word s' then
        match words s' with
        | w :: ws => String c w :: ws
        | [] => [String c EmptyString]
        end
      else String c EmptyString :: words s'
  end.

(** [s.split(sep)] for a separator of one character. *)
Fixpoint split_on (sep : ascii) (s : string) : list string :=
  match s with
  | EmptyString => [EmptyString]
  | String c s' =>
      if Ascii.eqb c sep then EmptyString :: split_on sep s'
      else match split_on sep s' with
           | piece :: pieces => String c piece :: pieces
           | [] => [String c EmptyString]
           end
  end.

(** No character of [s] is whitespace. *)
Fixpoint nospace (s : string) : bool :=
  match s with
  | EmptyString => true
  | String c s' => negb (isspace c) && nospace s'
  end.

(** A non-empty text without whitespace. *)
Definition is_word (s : string) : bool := negb (is_empty s) && nospace s.

(** The character [c] does not occur in [s]. *)
Fixpoint nochar (c : ascii) (s : string) : bool :=
  match s with
  | EmptyString => true
  | String c' s' => negb (Ascii.eqb c' c) && nochar c s'
  end.

End Text.
Import Text.

(* ================================================================= *)
(** ** JSON values, as [json.loads] returns them *)

Inductive json : Type :=
| JNull
| JBool (b : bool)
| JNum (literal : string)
| JStr (s : string)
| JArr (items : list json)
| JObj (fields : list (string * json)).

(** A [dict] with text keys, in insertion order. *)
Definition dict := list (string * json).

(** [d.get(k)] *)
Fixpoint dict_get (k : string) (d : dict) : option json :=
  match d with
  | [] => None
  | (k', v) :: d' => if String.eqb k k' then Some v else dict_get k d'
  end.

(** [k in d] *)
Definition dict_has (k : string) (d : dict) : bool :=
  match dict_get k d with Some _ => true | None => false end.

(** [d[k] = v]: overwrite in place, or append a new key. *)
Fixpoint dict_set (k : string) (v : json) (d : dict) : dict :=
  match d with
  | [] => [(k, v)]
  | (k', v') :: d' =>
      if String.eqb k k' then (k', v) :: d' else (k', v') :: dict_set k v d'
  end.

(** All-or-nothing traversal: the first failure aborts. *)
Fixpoint traverse {A B : Type} (f : A -> option B) (l : list A) : option (list B) :=
  match l with
  | [] => Some []
  | x :: l' =>
      match f x with
      | None => None
      | Some y =>
          match traverse f l' with
          | None => None
          | Some ys => Some (y :: ys)
          end
      end
  end.

(* ================================================================= *)
(** ** The outside world and the computations over it *)

(** The [Exception] subclasses that can arise; [except Exception] catches
    every one of them. *)
Inductive exn : Type :=
| BackendError (reason : string)      (* the remote call itself failed *)
| JSONDecodeError (reason : string)   (* [json.loads] on text that is not JSON *)
| ValidationError (input : json)      (* [input] does not fit the declared schema *)
| TypeError (input : json)            (* an operation that [input] does not support *)
| EOFError                            (* [console.input] at the end of the input *)
| MarkupError (markup : string)       (* [console.print] of [markup]: a closing tag
                                         that matches no open tag *)
| OSError (dir file : string).        (* [Path.write_text]: the file cannot be created *)

Inductive outcome (A : Type) : Type :=
| Ok (a : A)
| Raise (e : exn).
Arguments Raise {A} e.

(** What the scripts use and do not define.
    - [renders text]: rich shows [text] when [console.print] is given it;
      otherwise [console.print] raises [MarkupError], which rich does when
      the text holds a closing tag that matches no open tag.
    - [describe e]: [str(e)], the text an f-string shows for the exception.
    - [joined dir file]: [str(Path(dir) / file)].
    - [writable dir file]: [(Path(dir) / file).write_text] can create or
      overwrite the file; otherwise it raises (a parent directory is
      missing).
    - [python311]: the interpreter is Python 3.11 or later, where the
      f-string of a member of a [(str, Enum)] class shows [Class.MEMBER];
      up to Python 3.10 it shows the member's value. *)
Class Runtime : Type := {
  renders : string -> bool;
  describe : exn -> string;
  joined : string -> string -> string;
  writable : string -> string -> bool;
  python311 : bool
}.

Section Console.

(** [Req]: what is sent to the remote service; [Rep]: what it answers;
    [Val]: what [console.print_json] is given. *)
Context {Req Rep Val : Type} {runtime : Runtime}.

Inductive event : Type :=
| Say (text : string)                      (* console.print / print *)
| Banner (text : string)                   (* console.print(Panel.fit(text)) *)
| ShowJson (data : Val)                    (* console.print_json(data=...) *)
| Ask (prompt : string)                    (* console.input(prompt) *)
| Call (request : Req)                     (* one call to the remote service *)
| Save (dir file content : string).        (* Path.write_text *)

Record World : Type := mkWorld {
  stdin : list string;
  replies : list Rep;
  trace : list event
}.

Definition M (A : Type) : Type := World -> outcome A * World.

Definition ret {A} (a : A) : M A := fun w => (Ok a, w).

Definition raise {A} (e : exn) : M A := fun w => (Raise e, w).

Definition bind {A B} (m : M A) (k : A -> M B) : M B :=
  fun w =>
    match m w with
    | (Ok a, w') => k a w'
    | (Raise e, w') => (Raise e, w')
    end.

(** [try: body  except Exception as e: handler] *)
Definition try_except {A} (body : M A) (handler : exn -> M A) : M A :=
  fun w =>
    match body w with
    | (Ok a, w') => (Ok a, w')
    | (Raise e, w') => handler e w'
    end.

(** The world once the event [e] has happened. *)
Definition record (e : event) (w : World) : World :=
  mkWorld (stdin w) (replies w) (e :: trace w).

Definition log (e : event) : M unit := fun w => (Ok tt, record e w).

(** [console.print] of a text written in the source, whose tags are
    balanced; a file name, a stage path or a field name may be interpolated
    (none of them holds a closing tag). *)
Definition say (text : string) : M unit := log (Say text).

(** [console.print] of a text into which the source interpolates an
    exception, a line typed by the user or an answer of the model: rich
    parses the whole of it as markup. *)
Definition print (text : string) : M unit :=
  fun w =>
    if renders text then (Ok tt, record (Say text) w)
    else (Raise (MarkupError text), w).

(** The text of [f"{head}{e}[/red]"], the report every handler prints. *)
Definition error_report (head : string) (e : exn) : string :=
  head ++ describe e ++ "[/red]".

(** A handler that prints the report of [e] and then raises [e] again:
    the exception that leaves it. *)
Definition reraised (head : string) (e : exn) : exn :=
  if renders (error_report head e) then e else MarkupError (error_report head e).
Definition banner (text : string) : M unit := log (Banner text).
Definition show_json (v : Val) : M unit := log (ShowJson v).

(** [console.input(prompt)]: shows the prompt, then reads one line. *)
Definition ask (prompt : string) : M string :=
  fun w =>
    match stdin w with
    | [] => (Raise EOFError, mkWorld [] (replies w) (Ask prompt :: trace w))
    | line :: rest => (Ok line, mkWorld rest (replies w) (Ask prompt :: trace w))
    end.

(** The exception of a call to a service that cannot be reached. *)
Definition unreachable : exn := BackendError "Connection error.".

(** One round trip to the remote service.  A service with no scripted
    reply left is unreachable. *)
Definition call (request : Req) : M Rep :=
  fun w =>
    match replies w with
    | [] => (Raise unreachable, mkWorld (stdin w) [] (Call request :: trace w))
    | r :: rest => (Ok r, mkWorld (stdin w) rest (Call request :: trace w))
    end.

(** [Path.write_text] on a stage file of [OutputManager], whose directory
    [mkdir(parents=True, exist_ok=True)] has just created and whose name is
    written in the source; [dir] is the directory without the timestamp. *)
Definition write_text (dir file content : string) : M unit :=
  log (Save dir file content).

(** [Path.write_text] on a file whose name comes from the data. *)
Definition write_file (dir file content : string) : M unit :=
  fun w =>
    if writable dir file then (Ok tt, record (Save dir file content) w)
    else (Raise (OSError dir file), w).

(** The world once a handler has printed, or failed to print, the report
    of [e]. *)
Definition reported (head : string) (e : exn) (w : World) : World :=
  if renders (error_report head e) then record (Say (error_report head e)) w else w.

(** The events of a trace that are remote calls. *)
Definition is_call (e : event) : bool :=
  match e with Call _ => true | _ => false end.

Definition is_save (e : event) : bool :=
  match e with Save _ _ _ => true | _ => false end.

Definition is_ask (e : event) : bool :=
  match e with Ask _ => true | _ => false end.

Definition calls (w : World) : list event := filter is_call (trace w).
Definition saves (w : World) : list event := filter is_save (trace w).
Definition asks (w : World) : list event := filter is_ask (trace w).

(** [w'] comes after [w]: the trace has only grown, and no line has been
    added to those still to be typed. *)
Definition extends (w w' : World) : Prop :=
  (exists later, trace w' = (later ++ trace w)%list)
  /\ List.length (stdin w') <= List.length (stdin w).

(** A computation that only moves the world forward. *)
Definition steady {A} (c : M A) : Prop :=
  forall w r w', c w = (r, w') -> extends w w'.

(** A computation that, started with lines of [lines] still to be typed,
    leaves lines of [lines] to be typed and only adds events satisfying [P]
    to the trace. *)
Definition grows (lines : list string) (P : event -> Prop) {A} (c : M A) : Prop :=
  forall w r w',
    incl (stdin w) lines ->
    c w = (r, w') ->
    incl (stdin w') lines
    /\ exists later, trace w' = (later ++ trace w)%list /\ Forall P later.

(** An event that is neither a prompt, nor a remote call, nor a file
    write: console output only. *)
Definition output_only (e : event) : Prop :=
  is_ask e = false /\ is_call e = false /\ is_save e = false.

End Console.

Arguments event : clear implicits.
Arguments World : clear implicits.
Arguments M : clear implicits.

Declare Scope comp_scope.
Delimit Scope comp_scope with comp.
Notation "x <- m ;; k" := (bind m (fun x => k))
  (at level 100, m at next level, right associativity) : comp_scope.
Notation "m ;; k" := (bind m (fun _ => k))
  (at level 100, right associativity) : comp_scope.
Local Open Scope comp_scope.

(* ================================================================= *)
(** ** The schema both analyzers declare *)

(** The seven fields of [MeetingInsight], in declaration order. *)
Inductive Category : Type :=
| Tasks | Decisions | Questions | Attendees | Deadlines | FollowUps | Risks.

Definition field_name (c : Category) : string :=
  match c with
  | Tasks => "tasks"
  | Decisions => "decisions"
  | Questions => "questions"
  | Attendees => "attendees"
  | Deadlines => "deadlines"
  | FollowUps => "follow_ups"
  | Risks => "risks"
  end.

Scheme Equality for Category.

(** [insight.model_fields] *)
Definition model_fields : list Category :=
  [Tasks; Decisions; Questions; Attendees; Deadlines; FollowUps; Risks].

(** What a [class SubCategory(str, Enum)] provides.  [value] is the text of
    a member, by which validation finds it, and [member_name] the name it
    is declared under.  [tags_for] gives the members listed under each
    category's comment in the declaration. *)
Class SubCategoryEnum (T : Type) : Type := {
  members : list T;
  value : T -> string;
  member_name : T -> string;
  proposed : T;
  tags_for : Category -> list T;
  tag_eqb : T -> T -> bool
}.

(** What the analyzers send to the completion service: which prompt, and
    the texts interpolated into it. *)
Inductive request (I : Type) : Type :=
| AnalyzeRequest (transcript : string)
| ImproveRequest (previous : I) (feedback transcript : string).
Arguments AnalyzeRequest {I} transcript.

Section Schema.

Context {SubCategory : Type} `{SubCategoryEnum SubCategory} {runtime : Runtime}.

Record InsightItem : Type := mkItem {
  point : string;
  quote : string;
  speaker : string;
  subcategory : SubCategory
}.

Record MeetingInsight : Type := mkInsight {
  tasks : list InsightItem;
  decisions : list InsightItem;
  questions : list InsightItem;
  attendees : list InsightItem;
  deadlines : list InsightItem;
  follow_ups : list InsightItem;
  risks : list InsightItem
}.

(** [MeetingInsight()] *)
Definition empty_insight : MeetingInsight := mkInsight [] [] [] [] [] [] [].

Definition getattr (m : MeetingInsight) (c : Category) : list InsightItem :=
  match c with
  | Tasks => tasks m
  | Decisions => decisions m
  | Questions => questions m
  | Attendees => attendees m
  | Deadlines => deadlines m
  | FollowUps => follow_ups m
  | Risks => risks m
  end.

Definition setattr (m : MeetingInsight) (c : Category) (l : list InsightItem)
  : MeetingInsight :=
  match c with
  | Tasks => mkInsight l (decisions m) (questions m) (attendees m) (deadlines m) (follow_ups m) (risks m)
  | Decisions => mkInsight (tasks m) l (questions m) (attendees m) (deadlines m) (follow_ups m) (risks m)
  | Questions => mkInsight (tasks m) (decisions m) l (attendees m) (deadlines m) (follow_ups m) (risks m)
  | Attendees => mkInsight (tasks m) (decisions m) (questions m) l (deadlines m) (follow_ups m) (risks m)
  | Deadlines => mkInsight (tasks m) (decisions m) (questions m) (attendees m) l (follow_ups m) (risks m)
  | FollowUps => mkInsight (tasks m) (decisions m) (questions m) (attendees m) (deadlines m) l (risks m)
  | Risks => mkInsight (tasks m) (decisions m) (questions m) (attendees m) (deadlines m) (follow_ups m) l
  end.

(** [all(len(getattr(insight, field)) == 0 for field in insight.model_fields)] *)
Definition no_insights (m : MeetingInsight) : bool :=
  forallb (fun field => Nat.eqb (List.length (getattr m field)) 0) model_fields.

(** *** [MeetingInsight.to_markdown] *)

(** [f"{item.subcategory}"]: the class is named [SubCategory] in both
    files. *)
Definition render (t : SubCategory) : string :=
  if python311 then "SubCategory." ++ member_name t else value t.

(** The four lines appended for one item. *)
Definition item_lines (item : InsightItem) : list string :=
  [ "- **" ++ point item ++ "**";
    "  - Quote: " ++ dquote ++ quote item ++ dquote;
    "  - Speaker: " ++ speaker item;
    "  - Category: " ++ render (subcategory item) ++ nl ].

(** The lines appended in one turn of the loop over [sections]. *)
Definition section_lines (title : string) (items : list InsightItem) : list string :=
  ["## " ++ title]
  ++ match items with
     | [] => ["No items found." ++ nl]
     | _ :: _ => flat_map item_lines items
     end
  ++ [EmptyString].

Definition sections (m : MeetingInsight) : list (string * list InsightItem) :=
  [ ("Tasks", tasks m);
    ("Decisions", decisions m);
    ("Questions", questions m);
    ("Attendees", attendees m);
    ("Deadlines", deadlines m);
    ("Follow-ups", follow_ups m);
    ("Risks", risks m) ].

Definition to_markdown (m : MeetingInsight) : string :=
  join nl (["# Meeting Analysis Results" ++ nl]
           ++ flat_map (fun s => section_lines (fst s) (snd s)) (sections m)).

(** The text one item contributes, and the text of one section. *)
Definition item_block (item : InsightItem) : string := join nl (item_lines item).

Definition section_text (title : string) (items : list InsightItem) : string :=
  join nl (section_lines title items).

(** *** Validation against the declared schema ([model_validate])

    [InsightItem] requires four fields: three of type [str] and one whose
    text is the value of a [SubCategory] member.  Each field of
    [MeetingInsight] is a list of items and defaults to the empty list.
    Keys the schema does not name are ignored. *)

(** [SubCategory(text)] *)
Definition member_of_value (text : string) : option SubCategory :=
  find (fun t => String.eqb (value t) text) members.

Definition validate_item (j : json) : option InsightItem :=
  match j with
  | JObj d =>
      match dict_get "point" d, dict_get "quote" d,
            dict_get "speaker" d, dict_get "subcategory" d with
      | Some (JStr p), Some (JStr q), Some (JStr s), Some (JStr t) =>
          match member_of_value t with
          | Some tag => Some (mkItem p q s tag)
          | None => None
          end
      | _, _, _, _ => None
      end
  | _ => None
  end.

Definition validate_items (v : json) : option (list InsightItem) :=
  match v with
  | JArr items => traverse validate_item items
  | _ => None
  end.

Definition validate_field (d : dict) (c : Category) : option (list InsightItem) :=
  match dict_get (field_name c) d with
  | None => Some []
  | Some v => validate_items v
  end.

Definition validate (j : json) : option MeetingInsight :=
  match j with
  | JObj d =>
      match validate_field d Tasks, validate_field d Decisions,
            validate_field d Questions, validate_field d Attendees,
            validate_field d Deadlines, validate_field d FollowUps,
            validate_field d Risks with
      | Some t, Some dc, Some q, Some a, Some dl, Some f, Some r =>
          Some (mkInsight t dc q a dl f r)
      | _, _, _, _, _, _, _ => None
      end
  | _ => None
  end.

(** *** The soft invariant of the data model *)

Definition tag_valid_for (c : Category) (item : InsightItem) : bool :=
  existsb (tag_eqb (subcategory item)) (tags_for c).

(** Every item carries a sub-tag listed for the sequence that holds it. *)
Definition well_tagged (m : MeetingInsight) : bool :=
  forallb (fun c => forallb (tag_valid_for c) (getattr m c)) model_fields.

(** Every item carries the sub-tag [t]. *)
Definition all_tagged (t : SubCategory) (m : MeetingInsight) : bool :=
  forallb (fun c => forallb (fun item => tag_eqb (subcategory item) t) (getattr m c))
          model_fields.

End Schema.

Arguments no_insights : simpl never.
Arguments validate : simpl never.
Arguments to_markdown : simpl never.
Arguments InsightItem SubCategory : clear implicits.
Arguments MeetingInsight SubCategory : clear implicits.

(* ================================================================= *)
(** ** The interactive review, common to both analyzers

    The four handlers of [TranscriptProcessor] are the same code in both
    files up to the wording of some messages, gathered in [Wording]. *)

Record Wording : Type := mkWording {
  empty_heading : string;
  empty_option3 : string;
  empty_feedback : string;
  iteration_saved : string;
  manual_intro : string;
  manual_field : string -> string
}.

Section Review.

Context {SubCategory : Type} `{SubCategoryEnum SubCategory} {Rep : Type}.
Context {runtime : Runtime}.

#[local] Abbreviation Insight := (MeetingInsight SubCategory).
#[local] Abbreviation Item := (InsightItem SubCategory).
#[local] Abbreviation Comp := (M (request Insight) Rep Insight).

Variable wording : Wording.

(** [self.improve_insights], which differs between the variants. *)
Variable improve_insights : Insight -> string -> string -> Comp Insight.

(** [OutputManager(transcript_name).save_output(content, stage)] *)
Definition save_output (transcript_name content stage : string) : Comp unit :=
  write_text ("output/" ++ transcript_name) (stage ++ ".md") content.

Definition _handle_iteration
    (insight : Insight) (feedback transcript transcript_name : string)
  : Comp Insight :=
  banner "[bold red]Iteration Based on Feedback[/bold red]" ;;
  try_except
    (new_insight <- improve_insights insight feedback transcript ;;
     save_output transcript_name (to_markdown new_insight) "3_iteration" ;;
     say (iteration_saved wording) ;;
     ret new_insight)
    (fun e =>
       print (error_report "[red]Error during iteration: " e) ;;
       ret insight).

Definition manual_item (line : string) : Item :=
  mkItem line "Manually entered" "Manual Entry" proposed.

(** The [while True] loop of manual entry.  Every turn reads one line, so
    the loop is a recursion over the lines still to be typed. *)
Fixpoint read_items (lines : list string) (tr : list (event (request Insight) Insight))
    (items : list Item)
  : outcome (list Item) * list string * list (event (request Insight) Insight) :=
  match lines with
  | [] => (Raise EOFError, [], Ask EmptyString :: tr)
  | item :: rest =>
      if is_empty item then (Ok items, rest, Ask EmptyString :: tr)
      else read_items rest (Ask EmptyString :: tr) (items ++ [manual_item item])
  end.

Definition enter_items : Comp (list Item) :=
  fun w =>
    match read_items (stdin w) (trace w) [] with
    | (r, rest, tr) => (r, mkWorld rest (replies w) tr)
    end.

(** The [for field in insight.model_fields] loop of manual entry. *)
Fixpoint enter_fields (fields : list Category) (insight : Insight) : Comp Insight :=
  match fields with
  | [] => ret insight
  | field :: more =>
      say (manual_field wording (field_name field)) ;;
      items <- enter_items ;;
      enter_fields more (setattr insight field items)
  end.

Definition _handle_manual_entry : Comp Insight :=
  say (manual_intro wording) ;;
  enter_fields model_fields empty_insight.

(** What is typed for manual entry when [groups c] are the lines meant for
    category [c]: each group in turn, closed by an empty line. *)
Definition typed (groups : Category -> list string) : list string :=
  flat_map (fun c => (groups c ++ [EmptyString])%list) model_fields.

(** How many of the lines are empty. *)
Definition empty_line_count (lines : list string) : nat :=
  List.length (filter is_empty lines).

Definition nonempty_lines (lines : list string) : bool :=
  forallb (fun line => negb (is_empty line)) lines.

Definition _handle_empty_insights
    (insight : Insight) (transcript transcript_name : string) : Comp Insight :=
  say (empty_heading wording) ;;
  say "1. Provide feedback for another attempt" ;;
  say "2. Enter insights manually" ;;
  say (empty_option3 wording) ;;
  choice <- ask (nl ++ "[bold yellow]Enter choice (1-3): [/bold yellow]") ;;
  if String.eqb choice "1" then
    say (empty_feedback wording) ;;
    feedback <- ask EmptyString ;;
    _handle_iteration insight feedback transcript transcript_name
  else if String.eqb choice "2" then
    _handle_manual_entry
  else
    ret insight.

Definition approve_prompt : string :=
  nl ++ "[bold yellow]Approve these insights? (y/n): [/bold yellow]".

Definition _handle_human_review
    (insight : Insight) (transcript transcript_name : string) : Comp Insight :=
  banner "[bold yellow]Human Review[/bold yellow]" ;;
  say (nl ++ "[bold]Current Insights:[/bold]") ;;
  show_json insight ;;
  if no_insights insight then
    _handle_empty_insights insight transcript transcript_name
  else
    approval <- ask approve_prompt ;;
    if String.eqb (lower approval) "y" then
      ret insight
    else
      say "[yellow]Please provide feedback for improvement:[/yellow]" ;;
      feedback <- ask EmptyString ;;
      _handle_iteration insight feedback transcript transcript_name.

(** The world in which the review of [insight] has shown it. *)
Definition shown (insight : Insight) (w : World (request Insight) Rep Insight)
  : World (request Insight) Rep Insight :=
  record (ShowJson insight)
    (record (Say (nl ++ "[bold]Current Insights:[/bold]"))
       (record (Banner "[bold yellow]Human Review[/bold yellow]") w)).

(** The world in which the menu for an empty insight has been answered. *)
Definition chosen (insight : Insight) (rest : list string)
    (w : World (request Insight) Rep Insight) : World (request Insight) Rep Insight :=
  mkWorld rest (replies w)
    (Ask (nl ++ "[bold yellow]Enter choice (1-3): [/bold yellow]")
     :: Say (empty_option3 wording)
     :: Say "2. Enter insights manually"
     :: Say "1. Provide feedback for another attempt"
     :: Say (empty_heading wording)
     :: trace (shown insight w)).

(** The three ways the review ends without a refinement, as conditions on
    the insight under review and on the lines typed. *)
Inductive review_end : Type := EndApproved | EndAcceptEmpty | EndManual.

Definition ends_in (e : review_end) (insight : Insight) (lines : list string) : Prop :=
  match e with
  | EndApproved =>
      no_insights insight = false
      /\ exists approval rest, lines = approval :: rest /\ lower approval = "y"
  | EndAcceptEmpty =>
      no_insights insight = true
      /\ exists choice rest, lines = choice :: rest /\ choice <> "1" /\ choice <> "2"
  | EndManual =>
      no_insights insight = true
      /\ exists groups rest,
           lines = ("2" :: typed groups ++ rest)%list
           /\ forall c, nonempty_lines (groups c) = true
  end.

End Review.

(** A transcript found by [transcript_dir.glob("*.md")]: the [name] and
    [stem] of its path and what [read_text] returns for it. *)
Record transcript_file : Type := mkFile {
  file_name : string;
  file_stem : string;
  file_text : string
}.

Definition processed_message : string :=
  nl ++ "[bold green] Transcript processed successfully![/bold green]".

Definition no_transcripts_message : string :=
  "[yellow]No transcripts found in /transcripts/ directory. Please add a .md file.[/yellow]".

(* ================================================================= *)
(** ** Analyzer variant A ([meet-01.py]) *)

Module A.

Inductive SubCategory : Type :=
(* Tasks *)
| ASSIGNED | PROPOSED | BLOCKED | COMPLETED
(* Decisions *)
| CONFIRMED | REJECTED | DEFERRED
(* Questions *)
| ASKED | ANSWERED | UNRESOLVED | IMPLIED
(* Attendees *)
| NAMED | ROLES | TEAMS | MENTIONED
(* Deadlines *)
| IMMEDIATE | SHORT_TERM | MEDIUM_TERM | LONG_TERM
(* Follow-ups *)
| MEETINGS | REVIEWS | DEPENDENCIES | DECISIONS
(* Risks *)
| TECHNICAL | TIMELINE | STAKEHOLDER | RESOURCE.

Scheme Equality for SubCategory.

Definition SubCategory_value (t : SubCategory) : string :=
  match t with
  | ASSIGNED => "assigned" | PROPOSED => "proposed"
  | BLOCKED => "blocked" | COMPLETED => "completed"
  | CONFIRMED => "confirmed" | REJECTED => "rejected" | DEFERRED => "deferred"
  | ASKED => "asked" | ANSWERED => "answered"
  | UNRESOLVED => "unresolved" | IMPLIED => "implied"
  | NAMED => "named" | ROLES => "roles" | TEAMS => "teams" | MENTIONED => "mentioned"
  | IMMEDIATE => "immediate" | SHORT_TERM => "short_term"
  | MEDIUM_TERM => "medium_term" | LONG_TERM => "long_term"
  | MEETINGS => "meetings" | REVIEWS => "reviews"
  | DEPENDENCIES => "dependencies" | DECISIONS => "decisions"
  | TECHNICAL => "technical" | TIMELINE => "timeline"
  | STAKEHOLDER => "stakeholder" | RESOURCE => "resource"
  end.

Definition SubCategory_tags (c : Category) : list SubCategory :=
  match c with
  | Tasks => [ASSIGNED; PROPOSED; BLOCKED; COMPLETED]
  | Decisions => [CONFIRMED; REJECTED; DEFERRED]
  | Questions => [ASKED; ANSWERED; UNRESOLVED; IMPLIED]
  | Attendees => [NAMED; ROLES; TEAMS; MENTIONED]
  | Deadlines => [IMMEDIATE; SHORT_TERM; MEDIUM_TERM; LONG_TERM]
  | FollowUps => [MEETINGS; REVIEWS; DEPENDENCIES; DECISIONS]
  | Risks => [TECHNICAL; TIMELINE; STAKEHOLDER; RESOURCE]
  end.

Definition SubCategory_name (t : SubCategory) : string :=
  match t with
  | ASSIGNED => "ASSIGNED" | PROPOSED => "PROPOSED"
  | BLOCKED => "BLOCKED" | COMPLETED => "COMPLETED"
  | CONFIRMED => "CONFIRMED" | REJECTED => "REJECTED" | DEFERRED => "DEFERRED"
  | ASKED => "ASKED" | ANSWERED => "ANSWERED"
  | UNRESOLVED => "UNRESOLVED" | IMPLIED => "IMPLIED"
  | NAMED => "NAMED" | ROLES => "ROLES" | TEAMS => "TEAMS" | MENTIONED => "MENTIONED"
  | IMMEDIATE => "IMMEDIATE" | SHORT_TERM => "SHORT_TERM"
  | MEDIUM_TERM => "MEDIUM_TERM" | LONG_TERM => "LONG_TERM"
  | MEETINGS => "MEETINGS" | REVIEWS => "REVIEWS"
  | DEPENDENCIES => "DEPENDENCIES" | DECISIONS => "DECISIONS"
  | TECHNICAL => "TECHNICAL" | TIMELINE => "TIMELINE"
  | STAKEHOLDER => "STAKEHOLDER" | RESOURCE => "RESOURCE"
  end.

#[global] Instance SubCategory_enum : SubCategoryEnum SubCategory := {|
  members := flat_map SubCategory_tags model_fields;
  value := SubCategory_value;
  member_name := SubCategory_name;
  proposed := PROPOSED;
  tags_for := SubCategory_tags;
  tag_eqb := SubCategory_beq
|}.

Definition Insight : Type := MeetingInsight SubCategory.

(** What [client.chat.completions.create(response_model=MeetingInsight)]
    of the wrapped client gives back: an instance of the schema, or an
    exception (the service failed, or its text never fitted the schema). *)
Inductive structured : Type :=
| Structured (insight : Insight)
| Refused (e : exn).

Definition Comp : Type -> Type := M (request Insight) structured Insight.

(** What the refiner's call yields with the replies [rs] still to come:
    the replacement insight, or nothing when the call raises. *)
Definition refinement (rs : list structured) : option Insight :=
  match rs with
  | Structured insight :: _ => Some insight
  | Refused _ :: _ | [] => None
  end.

(** What the first analysis yields with the replies [rs] still to come; the
    same call, hence the same cases. *)
Definition extraction (rs : list structured) : option Insight := refinement rs.

(** The exception the call raises when it yields nothing. *)
Definition failure (rs : list structured) : exn :=
  match rs with
  | Refused e :: _ => e
  | _ => unreachable
  end.

Section Flow.

Context {runtime : Runtime}.

Definition create (r : request Insight) : Comp Insight :=
  reply <- call r ;;
  match reply with
  | Structured insight => ret insight
  | Refused e => raise e
  end.

Definition analyze_transcript (transcript : string) : Comp Insight :=
  say "[cyan]Starting analysis...[/cyan]" ;;
  try_except
    (insight <- create (AnalyzeRequest transcript) ;;
     say "[green]Analysis complete.[/green]" ;;
     ret insight)
    (fun e =>
       print (error_report "[red]Error in analyze_transcript: " e) ;;
       raise e).

Definition improve_insights (previous : Insight) (feedback transcript : string)
  : Comp Insight :=
  say "[cyan]Improving insights based on feedback...[/cyan]" ;;
  try_except
    (new_insight <- create (ImproveRequest previous feedback transcript) ;;
     say "[green]Improvement complete.[/green]" ;;
     ret new_insight)
    (fun e =>
       print (error_report "[red]Error in improve_insights: " e) ;;
       raise e).

Definition wording : Wording := {|
  empty_heading := nl ++ "[red]No insights extracted. Options:[/red]";
  empty_option3 := "3. Accept empty insights";
  empty_feedback := "[yellow]Please provide feedback:[/yellow]";
  iteration_saved := "[green] Iteration saved to:[/green] [bold blue]";
  manual_intro :=
    "[yellow]Enter insights manually (one per line, empty line to move to next category):[/yellow]";
  manual_field := fun field =>
    nl ++ "[bold]Enter " ++ field ++ " (Press Enter on empty line to skip):[/bold]"
|}.

Definition _handle_iteration := _handle_iteration wording improve_insights.
Definition _handle_manual_entry : Comp Insight := _handle_manual_entry wording.
Definition _handle_empty_insights := _handle_empty_insights wording improve_insights.
Definition _handle_human_review := _handle_human_review wording improve_insights.

(** [process_transcript]; [transcript_name] is the stem of the path and
    [text] what [transcript_path.read_text()] returns. *)
Definition process_transcript (auto_mode : bool) (transcript_name text : string)
  : Comp Insight :=
  let transcript := strip text in
  if is_empty transcript then
    say "[red]Error: Transcript is empty![/red]" ;;
    ret empty_insight
  else
    banner "[bold blue]Stage 1: Analysis[/bold blue]" ;;
    insight <- analyze_transcript transcript ;;
    save_output transcript_name (to_markdown insight) "1_analysis" ;;
    say "[green] Analysis saved to:[/green] [bold blue]" ;;
    insight <- (if negb auto_mode
                then _handle_human_review insight transcript transcript_name
                else ret insight) ;;
    save_output transcript_name (to_markdown insight) "2_final_output" ;;
    say "[green] Final output saved to:[/green] [bold blue]" ;;
    ret insight.

(** [main]; [found] is what [transcript_dir.glob("*.md")] yields, in order. *)
Definition main (found : list transcript_file) : Comp unit :=
  banner "[bold green]Meeting Transcript Processor[/bold green]" ;;
  match found with
  | [] => say no_transcripts_message
  | transcript_path :: _ =>
      say (nl ++ "[bold blue]Processing: " ++ file_name transcript_path ++ "[/bold blue]") ;;
      process_transcript false (file_stem transcript_path) (file_text transcript_path) ;;
      say processed_message
  end.

End Flow.

End A.

(* ================================================================= *)
(** ** Analyzer variant B ([meet-02.py]) *)

Module B.

Inductive SubCategory : Type :=
(* Tasks *)
| PROPOSED | CONFIRMED | BLOCKED | COMPLETED
(* Decisions *)
| APPROVED | REJECTED | DEFERRED
(* Questions *)
| ASKED | ANSWERED | UNRESOLVED
(* Attendees *)
| NAMED | ROLES | TEAMS
(* Deadlines *)
| IMMEDIATE | SHORT_TERM | MEDIUM_TERM
(* Follow-ups *)
| MEETINGS | REVIEWS | DEPENDENCIES
(* Risks *)
| TECHNICAL | TIMELINE | STAKEHOLDER.

Scheme Equality for SubCategory.

Definition SubCategory_value (t : SubCategory) : string :=
  match t with
  | PROPOSED => "proposed" | CONFIRMED => "confirmed"
  | BLOCKED => "blocked" | COMPLETED => "completed"
  | APPROVED => "approved" | REJECTED => "rejected" | DEFERRED => "deferred"
  | ASKED => "asked" | ANSWERED => "answered" | UNRESOLVED => "unresolved"
  | NAMED => "named" | ROLES => "roles" | TEAMS => "teams"
  | IMMEDIATE => "immediate" | SHORT_TERM => "short_term"
  | MEDIUM_TERM => "medium_term"
  | MEETINGS => "meetings" | REVIEWS => "reviews" | DEPENDENCIES => "dependencies"
  | TECHNICAL => "technical" | TIMELINE => "timeline" | STAKEHOLDER => "stakeholder"
  end.

Definition SubCategory_tags (c : Category) : list SubCategory :=
  match c with
  | Tasks => [PROPOSED; CONFIRMED; BLOCKED; COMPLETED]
  | Decisions => [APPROVED; REJECTED; DEFERRED]
  | Questions => [ASKED; ANSWERED; UNRESOLVED]
  | Attendees => [NAMED; ROLES; TEAMS]
  | Deadlines => [IMMEDIATE; SHORT_TERM; MEDIUM_TERM]
  | FollowUps => [MEETINGS; REVIEWS; DEPENDENCIES]
  | Risks => [TECHNICAL; TIMELINE; STAKEHOLDER]
  end.

Definition SubCategory_name (t : SubCategory) : string :=
  match t with
  | PROPOSED => "PROPOSED" | CONFIRMED => "CONFIRMED"
  | BLOCKED => "BLOCKED" | COMPLETED => "COMPLETED"
  | APPROVED => "APPROVED" | REJECTED => "REJECTED" | DEFERRED => "DEFERRED"
  | ASKED => "ASKED" | ANSWERED => "ANSWERED" | UNRESOLVED => "UNRESOLVED"
  | NAMED => "NAMED" | ROLES => "ROLES" | TEAMS => "TEAMS"
  | IMMEDIATE => "IMMEDIATE" | SHORT_TERM => "SHORT_TERM"
  | MEDIUM_TERM => "MEDIUM_TERM"
  | MEETINGS => "MEETINGS" | REVIEWS => "REVIEWS" | DEPENDENCIES => "DEPENDENCIES"
  | TECHNICAL => "TECHNICAL" | TIMELINE => "TIMELINE" | STAKEHOLDER => "STAKEHOLDER"
  end.

#[global] Instance SubCategory_enum : SubCategoryEnum SubCategory := {|
  members := flat_map SubCategory_tags model_fields;
  value := SubCategory_value;
  member_name := SubCategory_name;
  proposed := PROPOSED;
  tags_for := SubCategory_tags;
  tag_eqb := SubCategory_beq
|}.

Definition Insight : Type := MeetingInsight SubCategory.

(** What the plain client gives back: nothing (the call failed, for the
    [reason] given), or a message whose content is text, here already
    through [json.loads]: [Garbled] when that text is not JSON, with the
    [reason] of the decoder. *)
Inductive completion : Type :=
| Unreachable (reason : string)
| Garbled (reason : string)
| Content (result : json).

Definition Comp : Type -> Type := M (request Insight) completion Insight.

(** [await self.client.chat.completions.create(...)] followed by
    [json.loads(response.choices[0].message.content)] *)
Definition create_and_load (r : request Insight) : Comp json :=
  reply <- call r ;;
  match reply with
  | Unreachable reason => raise (BackendError reason)
  | Garbled reason => raise (JSONDecodeError reason)
  | Content result => ret result
  end.

(** [MeetingInsight.model_validate(result)] *)
Definition model_validate (result : json) : Comp Insight :=
  match validate result with
  | Some insight => ret insight
  | None => raise (ValidationError result)
  end.

(** The [dict] literal of default sub-tags, indexed by category. *)
Definition default_subcategory (c : Category) : string :=
  match c with
  | Tasks => "proposed"
  | Decisions => "approved"
  | Questions => "asked"
  | Attendees => "named"
  | Deadlines => "immediate"
  | FollowUps => "meetings"
  | Risks => "technical"
  end.

(** One turn of [for item in result[category]].  [None] is a [TypeError]:
    the membership test or the item assignment does not apply. *)
Definition fill_subcategory (c : Category) (item : json) : option json :=
  match item with
  | JObj d =>
      if dict_has "subcategory" d then Some item
      else Some (JObj (dict_set "subcategory" (JStr (default_subcategory c)) d))
  | JStr s => if contains "subcategory" s then Some item else None
  | JArr l =>
      if existsb (fun x => match x with
                           | JStr s => String.eqb s "subcategory"
                           | _ => false
                           end) l
      then Some item else None
  | JNull | JBool _ | JNum _ => None
  end.

(** The loop [for item in result[category]], by the kind of value found:
    a list yields its items, a text its characters (none of which holds
    the key), a dict its keys; the rest cannot be iterated. *)
Definition fill_category (c : Category) (v : json) : option json :=
  match v with
  | JArr items => option_map JArr (traverse (fill_subcategory c) items)
  | JStr s => if is_empty s then Some v else None
  | JObj d => if forallb (fun kv => contains "subcategory" (fst kv)) d
              then Some v else None
  | JNull | JBool _ | JNum _ => None
  end.

(** One turn of the loop over the seven category names. *)
Definition add_default (result : dict) (c : Category) : option dict :=
  let result := if dict_has (field_name c) result then result
                else dict_set (field_name c) (JArr []) result in
  match dict_get (field_name c) result with
  | Some v =>
      match fill_category c v with
      | Some v' => Some (dict_set (field_name c) v' result)
      | None => None
      end
  | None => None
  end.

Fixpoint add_defaults (cs : list Category) (result : dict) : option dict :=
  match cs with
  | [] => Some result
  | c :: cs' =>
      match add_default result c with
      | Some result' => add_defaults cs' result'
      | None => None
      end
  end.

Arguments add_defaults : simpl never.

(** "Add default subcategories if missing".  A reply that is not an
    object supports neither [category not in result] followed by
    [result[category] = []] nor [result[category]]. *)
Definition add_default_subcategories (result : json) : Comp json :=
  match result with
  | JObj d =>
      match add_defaults model_fields d with
      | Some d' => ret (JObj d')
      | None => raise (TypeError result)
      end
  | _ => raise (TypeError result)
  end.

(** What the guarded block of [analyze_transcript] yields with the
    replies [rs] still to come; nothing when it raises. *)
Definition extraction (rs : list completion) : option Insight :=
  match rs with
  | Content (JObj d) :: _ =>
      match add_defaults model_fields d with
      | Some d' => validate (JObj d')
      | None => None
      end
  | _ => None
  end.

(** The exception the guarded block of [analyze_transcript] raises when it
    yields nothing. *)
Definition extraction_failure (rs : list completion) : exn :=
  match rs with
  | [] => unreachable
  | Unreachable reason :: _ => BackendError reason
  | Garbled reason :: _ => JSONDecodeError reason
  | Content (JObj d) :: _ =>
      match add_defaults model_fields d with
      | Some d' => ValidationError (JObj d')
      | None => TypeError (JObj d)
      end
  | Content result :: _ => TypeError result
  end.

(** What the refiner's call yields with the replies [rs] still to come:
    the replacement insight, or nothing when the guarded block of
    [improve_insights] raises; and the exception it raises then. *)
Definition refinement (rs : list completion) : option Insight :=
  match rs with
  | Content result :: _ => validate result
  | Garbled _ :: _ | Unreachable _ :: _ | [] => None
  end.

Definition failure (rs : list completion) : exn :=
  match rs with
  | [] => unreachable
  | Unreachable reason :: _ => BackendError reason
  | Garbled reason :: _ => JSONDecodeError reason
  | Content result :: _ => ValidationError result
  end.

(** *** The extraction as the specification words it

    "Substitute default sub-tags for missing fields and retry validation
    once before giving up": the reply is validated; when that fails, every
    item that lacks its sub-tag is given the default sub-tag of its
    category, every missing category is given the empty list, and the
    result is validated once more; when that fails too the extractor gives
    up.  The default of a category is a sub-tag of that category: the first
    one listed for it, but for the tasks, whose default is [PROPOSED]. *)

Definition default_tag (c : Category) : SubCategory :=
  match c with
  | Tasks => PROPOSED
  | Decisions => APPROVED
  | Questions => ASKED
  | Attendees => NAMED
  | Deadlines => IMMEDIATE
  | FollowUps => MEETINGS
  | Risks => TECHNICAL
  end.

Definition with_default_subtag (c : Category) (item : json) : json :=
  match item with
  | JObj d =>
      if dict_has "subcategory" d then item
      else JObj (dict_set "subcategory" (JStr (SubCategory_value (default_tag c))) d)
  | _ => item
  end.

Definition with_default_subtags (c : Category) (v : json) : json :=
  match v with
  | JArr items => JArr (map (with_default_subtag c) items)
  | _ => v
  end.

Definition substitute_in (d : dict) (c : Category) : dict :=
  dict_set (field_name c)
    (with_default_subtags c
       match dict_get (field_name c) d with
       | Some v => v
       | None => JArr []
       end)
    d.

Definition substitute_defaults (reply : json) : json :=
  match reply with
  | JObj d => JObj (fold_left substitute_in model_fields d)
  | _ => reply
  end.

Definition validate_retrying_once (reply : json) : option Insight :=
  match validate reply with
  | Some insight => Some insight
  | None => validate (substitute_defaults reply)
  end.

(** [None]: the extractor gives up. *)
Definition extraction_per_spec (reply : option completion) : option Insight :=
  match reply with
  | Some (Content result) => validate_retrying_once result
  | _ => None
  end.

Section Flow.

Context {runtime : Runtime}.

Definition analyze_transcript (transcript : string) : Comp Insight :=
  try_except
    (result <- create_and_load (AnalyzeRequest transcript) ;;
     result <- add_default_subcategories result ;;
     model_validate result)
    (fun e =>
       print (error_report "[red]Error in analyze_transcript: " e) ;;
       ret empty_insight).

Definition improve_insights (previous : Insight) (feedback transcript : string)
  : Comp Insight :=
  try_except
    (result <- create_and_load (ImproveRequest previous feedback transcript) ;;
     model_validate result)
    (fun e =>
       print (error_report "[red]Error in improve_insights: " e) ;;
       raise e).

Definition wording : Wording := {|
  empty_heading :=
    nl ++ "[red]Warning: No insights were extracted. Would you like to:[/red]";
  empty_option3 := "3. Skip and continue with empty insights";
  empty_feedback := "[yellow]Please provide feedback for improvement:[/yellow]";
  iteration_saved := "[green][/green] Iteration saved to: [bold blue]";
  manual_intro :=
    "[yellow]Enter insights manually (one per line, empty line to finish):[/yellow]";
  manual_field := fun field => nl ++ "[bold]Enter " ++ field ++ ":[/bold]"
|}.

Definition _handle_iteration := _handle_iteration wording improve_insights.
Definition _handle_manual_entry : Comp Insight := _handle_manual_entry wording.
Definition _handle_empty_insights := _handle_empty_insights wording improve_insights.
Definition _handle_human_review := _handle_human_review wording improve_insights.

(** [process_transcript]; [text] is what
    [transcript_path.read_text(encoding='utf-8')] returns. *)
Definition process_transcript (transcript_name text : string) : Comp Insight :=
  let transcript := text in
  try_except
    (insight <- analyze_transcript transcript ;;
     ret insight)
    (fun e =>
       print (error_report "[red]Error during analysis: " e) ;;
       raise e).

End Flow.

(** *** [_preprocess_transcript] *)

(** [' '.join(text.split())] *)
Definition collapse_whitespace (text : string) : string := join " " (words text).

(** The test that makes the loop skip a line as "likely a timestamp". *)
Definition is_timestamp_line (line : string) : bool :=
  existsb (fun time_indicator => contains time_indicator (lower line)) ["am"; "pm"; ":"]
  && (String.length line <? 20)%nat.

(** What one turn of [for line in lines] appends to [formatted_lines]. *)
Definition format_line (line : string) : list string :=
  if is_timestamp_line line then []
  else if String.prefix "Speaker" (strip line) || contains "Today" line
       then [nl ++ strip line]
       else [strip line].

Definition _preprocess_transcript (transcript : string) : string :=
  let transcript := collapse_whitespace transcript in
  let lines := split_on "010"%char transcript in
  let formatted_lines := flat_map format_line lines in
  let processed_transcript := join " " formatted_lines in
  collapse_whitespace processed_transcript.

(** *** [main] *)

Section Main.

Context {runtime : Runtime}.

(** [int(selection)]; [None] is a [ValueError]. *)
Variable int : string -> option Z.

Definition selection_prompt : string :=
  nl ++ "[bold yellow]Enter transcript number to analyze (or 'q' to quit): [/bold yellow]".

(** [0 <= idx < len(transcripts)] *)
Definition in_range (idx : Z) (transcripts : list transcript_file) : bool :=
  ((0 <=? idx) && (idx <? Z.of_nat (List.length transcripts)))%Z.

(** The [while True] loop that asks for a transcript number.  Every turn
    reads one line, so the loop is a recursion over the lines still to be
    typed.  [None] is the [return] on "q".  [transcripts[idx]] is read
    under the guard that keeps [idx] within bounds, so the default of
    [nth] is never returned. *)
Fixpoint select (transcripts : list transcript_file) (lines : list string)
    (tr : list (event (request Insight) Insight))
  : outcome (option transcript_file) * list string
    * list (event (request Insight) Insight) :=
  match lines with
  | [] => (Raise EOFError, [], Ask selection_prompt :: tr)
  | selection :: rest =>
      if String.eqb (lower selection) "q" then
        (Ok None, rest, Ask selection_prompt :: tr)
      else
        match int selection with
        | Some n =>
            let idx := (n - 1)%Z in
            if in_range idx transcripts then
              (Ok (Some (nth (Z.to_nat idx) transcripts
                             (mkFile EmptyString EmptyString EmptyString))),
               rest, Ask selection_prompt :: tr)
            else
              select transcripts rest
                (Say "[red]Invalid selection. Please try again.[/red]"
                 :: Ask selection_prompt :: tr)
        | None =>
            select transcripts rest
              (Say "[red]Please enter a valid number.[/red]"
               :: Ask selection_prompt :: tr)
        end
  end.

Definition select_transcript (transcripts : list transcript_file)
  : Comp (option transcript_file) :=
  fun w =>
    match select transcripts (stdin w) (trace w) with
    | (r, rest, tr) => (r, mkWorld rest (replies w) tr)
    end.

(** [for i, transcript in enumerate(transcripts, 1)] *)
Fixpoint list_transcripts (i : nat) (transcripts : list transcript_file) : Comp unit :=
  match transcripts with
  | [] => ret tt
  | transcript :: more =>
      say (of_nat i ++ ". " ++ file_name transcript) ;;
      list_transcripts (S i) more
  end.

(** [main]; [found] is [list(transcript_dir.glob("*.md"))]. *)
Definition main (found : list transcript_file) : Comp unit :=
  banner "[bold green]Meeting Transcript Processor[/bold green]" ;;
  match found with
  | [] => say no_transcripts_message
  | _ :: _ =>
      say (nl ++ "[bold cyan]Available transcripts:[/bold cyan]") ;;
      list_transcripts 1 found ;;
      choice <- select_transcript found ;;
      match choice with
      | None => ret tt
      | Some transcript_path =>
          say (nl ++ "[bold blue]Processing: " ++ file_name transcript_path
               ++ "[/bold blue]") ;;
          process_transcript (file_stem transcript_path) (file_text transcript_path) ;;
          say processed_message
      end
  end.

(** A line the selection loop refuses and answers with a message. *)
Definition refused_selection (transcripts : list transcript_file) (line : string) : bool :=
  negb (String.eqb (lower line) "q")
  && match int line with
     | Some n => negb ((1 <=? n) && (n <=? Z.of_nat (List.length transcripts)))%Z
     | None => true
     end.

End Main.

End B.

(* ================================================================= *)
(** ** The research assistant ([research.py]) *)

Module Research.

Record SearchDataclass : Type := mkDeps {
  max_results : nat;
  todays_date : string
}.

Record ResearchResult : Type := mkResult {
  research_title : string;
  research_main : string;
  research_bullets : string
}.

(** Validation against the declared schema: three required fields of type
    [str]; [Field(description=...)] adds no constraint on their text. *)
Definition validate_result (j : json) : option ResearchResult :=
  match j with
  | JObj d =>
      match dict_get "research_title" d, dict_get "research_main" d,
            dict_get "research_bullets" d with
      | Some (JStr t), Some (JStr m), Some (JStr b) => Some (mkResult t m b)
      | _, _, _ => None
      end
  | _ => None
  end.

(** The two remote services: the agent's model and the search provider. *)
Inductive remote : Type :=
| Run (query : string) (deps : SearchDataclass)
| Search (query : string) (max_results : nat).

(** One invocation of the [get_search] tool as the model decides it, with
    what the search provider answers ([None]: the provider fails, for the
    reason [search_failure]). *)
Record tool_call : Type := mkToolCall {
  keywords : string;
  query_number : nat;
  context : option string;
  search_failure : string
}.

(** What the model does during one [search_agent.run]: the tool calls it
    asks for, in order, then its structured answer ([None]: it fails to
    give one, for the reason [model_failure]). *)
Record agent_script : Type := mkScript {
  tool_calls : list tool_call;
  answer : option json;
  model_failure : string
}.

Definition Comp : Type -> Type := M remote agent_script unit.

(** What a run yields when the model follows [script]: the validated
    answer, or nothing when a search fails, when the model gives no answer
    or when the answer does not fit the schema (the run raises). *)
Definition run_result (script : agent_script) : option ResearchResult :=
  if forallb (fun tc => match context tc with Some _ => true | None => false end)
             (tool_calls script)
  then match answer script with
       | Some j => validate_result j
       | None => None
       end
  else None.

(** What the next run yields with the scripts [rs] still to come. *)
Definition next_result (rs : list agent_script) : option ResearchResult :=
  match rs with
  | script :: _ => run_result script
  | [] => None
  end.

(** The exception of the first search that fails, if one does. *)
Fixpoint search_error (tcs : list tool_call) : option exn :=
  match tcs with
  | [] => None
  | tc :: tcs' =>
      match context tc with
      | Some _ => search_error tcs'
      | None => Some (BackendError (search_failure tc))
      end
  end.

(** The exception a run raises when it yields nothing. *)
Definition run_failure (script : agent_script) : exn :=
  match search_error (tool_calls script) with
  | Some e => e
  | None =>
      match answer script with
      | Some j => ValidationError j
      | None => BackendError (model_failure script)
      end
  end.

Definition next_failure (rs : list agent_script) : exn :=
  match rs with
  | script :: _ => run_failure script
  | [] => unreachable
  end.

Section Flow.

Context {runtime : Runtime}.

(** The [get_search] tool; its [print] is the builtin. *)
Definition get_search (search_data : SearchDataclass) (tc : tool_call) : Comp string :=
  say ("Search query " ++ of_nat (query_number tc) ++ ": " ++ keywords tc) ;;
  log (Call (Search (keywords tc) (max_results search_data))) ;;
  match context tc with
  | Some results => ret results
  | None => raise (BackendError (search_failure tc))
  end.

Fixpoint run_tools (deps : SearchDataclass) (tcs : list tool_call) : Comp unit :=
  match tcs with
  | [] => ret tt
  | tc :: tcs' => get_search deps tc ;; run_tools deps tcs'
  end.

(** [await search_agent.run(query, deps=deps)], then [.data]. *)
Definition agent_run (query : string) (deps : SearchDataclass) : Comp ResearchResult :=
  script <- call (Run query deps) ;;
  run_tools deps (tool_calls script) ;;
  match answer script with
  | None => raise (BackendError (model_failure script))
  | Some j =>
      match validate_result j with
      | Some data => ret data
      | None => raise (ValidationError j)
      end
  end.

Definition query_prompt : string :=
  nl ++ "[bold yellow]Enter your research query (or 'q' to quit): [/bold yellow]".

Definition invalid_query : string := "[red]Please enter a valid query.[/red]".

Definition filename_of (title : string) : string :=
  take 50 (replace_char " "%char "_"%char (lower title)) ++ ".md".

Definition markdown_of (data : ResearchResult) : string :=
  join (nl ++ nl)
    [ "# " ++ research_title data;
      research_main data;
      "## Key Points";
      research_bullets data ].

(** One turn of [while True] in [main]; [true] goes round again ([continue]
    or the end of the body), [false] is [break].  [today] is
    [datetime.date.today().strftime("%Y-%m-%d")]. *)
Definition turn (today : string) : Comp bool :=
  query <- ask query_prompt ;;
  if String.eqb (lower query) "q" then
    say "[green]Goodbye![/green]" ;;
    ret false
  else if is_empty (strip query) then
    say invalid_query ;;
    ret true
  else
    try_except
      (let deps := mkDeps 3 today in
       print (nl ++ "[cyan]Researching: " ++ query ++ "[/cyan]") ;;
       data <- agent_run query deps ;;
       say (nl ++ "[bold green]Research Results:[/bold green]") ;;
       print ("[bold blue]# " ++ research_title data ++ "[/bold blue]") ;;
       print (nl ++ research_main data) ;;
       say (nl ++ "[bold cyan]Key Points:[/bold cyan]") ;;
       print (research_bullets data) ;;
       save <- ask (nl ++ "[yellow]Save results to file? (y/n): [/yellow]") ;;
       (if String.eqb (lower save) "y" then
          let filename := filename_of (research_title data) in
          write_file "research_output" filename (markdown_of data) ;;
          print ("[green]Results saved to: " ++ joined "research_output" filename
                 ++ "[/green]")
        else ret tt) ;;
       continue_research <- ask (nl ++ "[yellow]Research another topic? (y/n): [/yellow]") ;;
       if negb (String.eqb (lower continue_research) "y") then
         say "[green]Goodbye![/green]" ;;
         ret false
       else ret true)
      (fun e =>
         print (error_report "[red]Error during research: " e) ;;
         say "[yellow]Would you like to try again? (y/n): [/yellow]" ;;
         again <- ask EmptyString ;;
         if negb (String.eqb (lower again) "y") then ret false else ret true).

(** The [while True] loop, with a bound on the number of turns; [None]
    when the bound is reached. *)
Fixpoint loop (today : string) (turns : nat) (w : World remote agent_script unit)
  : option (outcome unit * World remote agent_script unit) :=
  match turns with
  | 0 => None
  | S turns' =>
      match turn today w with
      | (Ok true, w') => loop today turns' w'
      | (Ok false, w') => Some (Ok tt, w')
      | (Raise e, w') => Some (Raise e, w')
      end
  end.

(** [main].  Every turn reads at least one line, so one turn more than
    there are lines to type is enough. *)
Definition main (today : string) (w : World remote agent_script unit)
  : option (outcome unit * World remote agent_script unit) :=
  match banner "[bold green]Research Assistant[/bold green]" w with
  | (_, w0) => loop today (S (List.length (stdin w0))) w0
  end.

End Flow.

(** The remote calls [main] may make on the day [today] when the lines
    [lines] are typed: an agent run on one of these lines, which is neither
    blank nor the quit command, with at most three results per search asked
    for, and searches for three results. *)
Definition expected_event (today : string) (lines : list string)
    (e : event remote unit) : Prop :=
  match e with
  | Call (Run query deps) =>
      In query lines /\ blank query = false /\ lower query <> "q"
      /\ deps = mkDeps 3 today
  | Call (Search _ n) => n = 3
  | _ => True
  end.

End Research.

(* ================================================================= *)
(** ** Sample data: the stand-up scenario *)

Module Sample.

(** *** A runtime for the examples *)

(** A stand-in for rich's markup parser on the texts of the examples.  A
    tag is a bracketed name that begins with a lower-case letter, [#], [@]
    or [/] and holds no opening bracket.  A closing tag must name a tag
    that is open, and the bare closing tag closes the last one opened. *)
Definition tag_start (c : ascii) : bool :=
  let n := nat_of_ascii c in
  (((97 <=? n) && (n <=? 122))%nat
   || Ascii.eqb c "#" || Ascii.eqb c "/" || Ascii.eqb c "@")%char.

Fixpoint close_tag (name : string) (open : list string) : option (list string) :=
  match open with
  | [] => None
  | t :: rest =>
      if String.eqb t name then Some rest
      else option_map (cons t) (close_tag name rest)
  end.

(** [tag]: the text read since the last opening bracket, if any is
    pending; [open]: the tags open so far, the last one first. *)
Fixpoint scan (s : string) (tag : option string) (open : list string) : bool :=
  match s with
  | EmptyString => true
  | String c s' =>
      match tag with
      | None =>
          if Ascii.eqb c "["%char then scan s' (Some EmptyString) open
          else scan s' None open
      | Some name =>
          if Ascii.eqb c "["%char then scan s' (Some EmptyString) open
          else if Ascii.eqb c "]"%char then
            match name with
            | EmptyString => scan s' None open
            | String c0 name' =>
                if negb (tag_start c0) then scan s' None open
                else if Ascii.eqb c0 "/"%char then
                  match name', open with
                  | EmptyString, [] => false
                  | EmptyString, _ :: rest => scan s' None rest
                  | _, _ =>
                      match close_tag name' open with
                      | Some rest => scan s' None rest
                      | None => false
                      end
                  end
                else scan s' None (name :: open)
            end
          else scan s' (Some (name ++ String c EmptyString)) open
      end
  end.

Definition balanced (text : string) : bool := scan text None [].

(** The texts a JSON value holds, each between single quotes. *)
Fixpoint quoted (j : json) : string :=
  match j with
  | JStr s => "'" ++ s ++ "' "
  | JArr items =>
      (fix go (l : list json) : string :=
         match l with
         | [] => EmptyString
         | x :: l' => quoted x ++ go l'
         end) items
  | JObj fields =>
      (fix go (l : list (string * json)) : string :=
         match l with
         | [] => EmptyString
         | (_, v) :: l' => quoted v ++ go l'
         end) fields
  | JNull | JBool _ | JNum _ => EmptyString
  end.

(** A stand-in for [str] on the exceptions of the examples.  Like
    pydantic, the text of a validation error quotes the input; like rich,
    the text of a markup error quotes the markup. *)
Definition text_of (e : exn) : string :=
  match e with
  | BackendError reason => reason
  | JSONDecodeError reason => reason
  | ValidationError input =>
      "1 validation error for MeetingInsight, input_value=" ++ quoted input
  | TypeError _ => "argument is not iterable"
  | EOFError => "EOF when reading a line"
  | MarkupError markup => "closing tag in '" ++ markup ++ "' doesn't match any open tag"
  | OSError dir file =>
      "[Errno 2] No such file or directory: '" ++ dir ++ "/" ++ file ++ "'"
  end.

(** A file system in which [research_output] has no subdirectory. *)
Definition plain_name (dir file : string) : bool := nochar "/"%char file.

Definition runtime_of (from_311 : bool) : Runtime := {|
  renders := balanced;
  describe := text_of;
  joined := fun dir file => dir ++ "/" ++ file;
  writable := plain_name;
  python311 := from_311
|}.

Definition python_3_10 : Runtime := runtime_of false.
Definition python_3_11 : Runtime := runtime_of true.

(** *** The scenario *)

Definition transcript : string := "Alice: I will finish the API by Friday.".

Definition finish_api : InsightItem A.SubCategory :=
  mkItem "Finish API" "I will finish the API by Friday." "Alice" A.ASSIGNED.

Definition bob : InsightItem A.SubCategory :=
  mkItem "Bob attends" "Alice: I will finish the API by Friday." "Alice" A.NAMED.

Definition standup : A.Insight := mkInsight [finish_api] [] [] [] [] [] [].

Definition standup_with_bob : A.Insight := mkInsight [finish_api] [] [] [bob] [] [] [].

Definition world_A (lines : list string) (rs : list A.structured)
  : World (request A.Insight) A.structured A.Insight := mkWorld lines rs [].

Definition standup_B : B.Insight :=
  mkInsight [mkItem "Finish API" "I will finish the API by Friday." "Alice" B.CONFIRMED]
            [] [] [] [] [] [].

Definition world_B (lines : list string) (rs : list B.completion)
  : World (request B.Insight) B.completion B.Insight := mkWorld lines rs [].

(** A reply with one complete task. *)
Definition task_json : json :=
  JObj [ ("point", JStr "Finish API");
         ("quote", JStr "I will finish the API by Friday.");
         ("speaker", JStr "Alice");
         ("subcategory", JStr "confirmed") ].

Definition reply_json : json := JObj [ ("tasks", JArr [task_json]) ].

(** A reply whose only item, a decision, lacks its sub-tag. *)
Definition untagged_json : json :=
  JObj [ ("decisions",
          JArr [ JObj [ ("point", JStr "Use Postgres");
                        ("quote", JStr "Let us use Postgres.");
                        ("speaker", JStr "Bob") ] ]) ].

(** A reply whose only item, a decision, carries a sub-tag of the tasks. *)
Definition mistagged_json : json :=
  JObj [ ("decisions",
          JArr [ JObj [ ("point", JStr "Use Postgres");
                        ("quote", JStr "Let us use Postgres.");
                        ("speaker", JStr "Bob");
                        ("subcategory", JStr "blocked") ] ]) ].

(** A reply whose only item, a task, carries as its sub-tag the end marker
    of an instruction block, which reads as a closing tag. *)
Definition stray_tag_json : json :=
  JObj [ ("tasks",
          JArr [ JObj [ ("point", JStr "Finish API");
                        ("quote", JStr "I will finish the API by Friday.");
                        ("speaker", JStr "Alice");
                        ("subcategory", JStr "[/INST]") ] ]) ].

(** A structured answer of the research agent whose title is empty. *)
Definition untitled_json : json :=
  JObj [ ("research_title", JStr EmptyString);
         ("research_main", JStr "Cats sleep most of the day.");
         ("research_bullets", JStr "- sleep") ].

Definition world_R (lines : list string) (scripts : list Research.agent_script)
  : World Research.remote Research.agent_script unit := mkWorld lines scripts [].

Definition cats_script : Research.agent_script :=
  Research.mkScript
    [Research.mkToolCall "cat sleep hours" 1 (Some "context") EmptyString]
    (Some untitled_json) EmptyString.

(** A structured answer with a title that holds a slash. *)
Definition trends_json : json :=
  JObj [ ("research_title", JStr "AI/ML trends");
         ("research_main", JStr "Models grow.");
         ("research_bullets", JStr "- growth") ].

Definition trends_script : Research.agent_script :=
  Research.mkScript [] (Some trends_json) EmptyString.

(** A run whose only search fails. *)
Definition offline_script : Research.agent_script :=
  Research.mkScript
    [Research.mkToolCall "cat sleep hours" 1 None "Search is unavailable."]
    (Some untitled_json) EmptyString.

(** Lines typed for manual entry: two tasks and one decision. *)
Definition groups (c : Category) : list string :=
  match c with
  | Tasks => ["Finish API"; "Write tests"]
  | Decisions => ["Use Postgres"]
  | _ => []
  end.

(** Two transcripts found in the directory. *)
Definition standup_file : transcript_file := mkFile "standup.md" "standup" transcript.
Definition blank_file : transcript_file := mkFile "blank.md" "blank" (" " ++ nl).

(** A stand-in for [int] on the few texts typed in the examples. *)
Definition small_int (text : string) : option Z :=
  if String.eqb text "0" then Some 0%Z
  else if String.eqb text "1" then Some 1%Z
  else if String.eqb text "2" then Some 2%Z
  else if String.eqb text "3" then Some 3%Z
  else None.

End Sample.

(* ================================================================= *)
(** * Properties

    Everything in this part holds for every runtime: the section variable
    [runtime] stands for rich, for the texts of the exceptions, for the file
    system and for the interpreter the scripts run on. *)

Section Properties.

Context {runtime : Runtime}.

(** ** Text *)

Lemma append_assoc (a b c : string) : (a ++ b) ++ c = a ++ b ++ c.
Proof. induction a as [|x a IH]; simpl; [reflexivity | now rewrite IH]. Qed.

Lemma append_empty_r (s : string) : s ++ EmptyString = s.
Proof. induction s as [|x s IH]; simpl; [reflexivity | now rewrite IH]. Qed.

Lemma Substring_refl (s : string) : Substring s s.
Proof. exists EmptyString, EmptyString. simpl. now rewrite append_empty_r. Qed.

Lemma Substring_middle (pre part post : string) : Substring part (pre ++ part ++ post).
Proof. now exists pre, post. Qed.

Lemma Substring_trans (a b c : string) :
  Substring a b -> Substring b c -> Substring a c.
Proof.
  intros (p1 & q1 & ->) (p2 & q2 & ->).
  exists (p2 ++ p1), (q1 ++ q2).
  now rewrite !append_assoc.
Qed.

Lemma Substring_app_l (part a b : string) : Substring part a -> Substring part (a ++ b).
Proof.
  intros (p & q & ->). exists p, (q ++ b). now rewrite !append_assoc.
Qed.

Lemma Substring_app_r (part a b : string) : Substring part b -> Substring part (a ++ b).
Proof.
  intros (p & q & ->). exists (a ++ p), q. now rewrite !append_assoc.
Qed.

Lemma join_cons (sep x y : string) (l : list string) :
  join sep (x :: y :: l) = x ++ sep ++ join sep (y :: l).
Proof. reflexivity. Qed.

Lemma join_app (sep : string) (l1 l2 : list string) :
  l1 <> [] -> l2 <> [] ->
  join sep (l1 ++ l2) = join sep l1 ++ sep ++ join sep l2.
Proof.
  intros H1 H2. induction l1 as [|x l1 IH]; [contradiction|].
  destruct l1 as [|y l1].
  - destruct l2 as [|z l2]; [contradiction | reflexivity].
  - change ((x :: y :: l1) ++ l2)%list with (x :: y :: (l1 ++ l2))%list.
    rewrite !join_cons.
    change (y :: (l1 ++ l2))%list with ((y :: l1) ++ l2)%list.
    rewrite IH by discriminate. now rewrite !append_assoc.
Qed.

Lemma rstrip_blank (s : string) : blank s = true -> rstrip s = EmptyString.
Proof.
  induction s as [|c s IH]; simpl; [reflexivity|].
  intros H. apply andb_prop in H as [Hc Hs]. now rewrite (IH Hs), Hc.
Qed.

Lemma lstrip_blank (s : string) : blank s = true -> lstrip s = EmptyString.
Proof.
  induction s as [|c s IH]; simpl; [reflexivity|].
  intros H. apply andb_prop in H as [Hc Hs]. rewrite Hc. auto.
Qed.

Lemma rstrip_empty_blank (s : string) : rstrip s = EmptyString -> blank s = true.
Proof.
  induction s as [|c s IH]; simpl; [reflexivity|].
  destruct (rstrip s) eqn:E; [|discriminate].
  destruct (isspace c); [|discriminate].
  intros _. now rewrite IH.
Qed.

Lemma lstrip_keeps_blankness (s : string) : blank (lstrip s) = blank s.
Proof.
  induction s as [|c s IH]; simpl; [reflexivity|].
  destruct (isspace c) eqn:E; simpl; [exact IH | now rewrite E].
Qed.

(** [not s.strip()] holds exactly of the texts made of whitespace only. *)
Lemma strip_empty_iff_blank (s : string) :
  is_empty (strip s) = true <-> blank s = true.
Proof.
  unfold strip. split.
  - intros H. rewrite <- lstrip_keeps_blankness. apply rstrip_empty_blank.
    destruct (rstrip (lstrip s)); [reflexivity | discriminate].
  - intros H. now rewrite (lstrip_blank _ H).
Qed.

Lemma prefix_append (part post : string) : String.prefix part (part ++ post) = true.
Proof.
  induction part as [|c part IH]; [now destruct post|].
  simpl. destruct (ascii_dec c c); [exact IH | congruence].
Qed.

Lemma contains_middle (pre part post : string) : contains part (pre ++ part ++ post) = true.
Proof.
  induction pre as [|c pre IH].
  - cbn [append]. destruct (part ++ post) eqn:E; cbn [contains];
      rewrite <- E, prefix_append; reflexivity.
  - cbn [append contains]. rewrite IH. now destruct (String.prefix _ _).
Qed.

(** [contains] decides [Substring] in one direction: what it does not find
    does not occur. *)
Lemma not_contains_not_Substring (part whole : string) :
  contains part whole = false -> ~ Substring part whole.
Proof.
  intros Hno (pre & post & ->). now rewrite contains_middle in Hno.
Qed.

Lemma prefix_split (part whole : string) :
  String.prefix part whole = true -> exists post, whole = part ++ post.
Proof.
  revert whole. induction part as [|c part IH]; intros whole.
  - intros _. now exists whole.
  - destruct whole as [|c' whole]; [discriminate|]. simpl.
    destruct (ascii_dec c c') as [<-|]; [|discriminate].
    intros Hp. destruct (IH _ Hp) as (post & ->). now exists post.
Qed.

(** And what it finds occurs. *)
Lemma contains_Substring (part whole : string) :
  contains part whole = true -> Substring part whole.
Proof.
  induction whole as [|c whole IH]; cbn [contains].
  - destruct (String.prefix part EmptyString) eqn:Hp; [|discriminate].
    intros _. destruct (prefix_split _ _ Hp) as (post & E).
    exists EmptyString, post. exact E.
  - destruct (String.prefix part (String c whole)) eqn:Hp.
    + intros _. destruct (prefix_split _ _ Hp) as (post & E).
      exists EmptyString, post. exact E.
    + intros Hc. destruct (IH Hc) as (pre & post & ->).
      now exists (String c pre), post.
Qed.

(** ** Rendering to markdown *)

Section Markdown.

Context {SubCategory : Type} `{SubCategoryEnum SubCategory}.

#[local] Abbreviation Item := (InsightItem SubCategory).
#[local] Abbreviation Insight := (MeetingInsight SubCategory).

Lemma section_lines_not_nil (title : string) (items : list Item) :
  section_lines title items <> [].
Proof. discriminate. Qed.

Lemma join_sections (pre : list string) (ss : list (string * list Item)) :
  pre <> [] ->
  join nl (pre ++ flat_map (fun s => section_lines (fst s) (snd s)) ss)
  = join nl pre
    ++ fold_right (fun s acc => nl ++ section_text (fst s) (snd s) ++ acc)
                  EmptyString ss.
Proof.
  revert pre. induction ss as [|s ss IH]; intros pre Hpre.
  - simpl. now rewrite app_nil_r, append_empty_r.
  - cbn [flat_map]. rewrite List.app_assoc, IH.
    + rewrite join_app by (auto using section_lines_not_nil).
      simpl fold_right. unfold section_text. now rewrite !append_assoc.
    + destruct pre; [contradiction | discriminate].
Qed.

Lemma item_block_eq (item : Item) :
  item_block item
  = ("- **" ++ point item ++ "**") ++ nl
    ++ ("  - Quote: " ++ dquote ++ quote item ++ dquote) ++ nl
    ++ ("  - Speaker: " ++ speaker item) ++ nl
    ++ ("  - Category: " ++ render (subcategory item) ++ nl).
Proof. reflexivity. Qed.

Lemma item_block_fields (item : Item) :
  Substring (point item) (item_block item)
  /\ Substring (quote item) (item_block item)
  /\ Substring (speaker item) (item_block item)
  /\ Substring (render (subcategory item)) (item_block item).
Proof.
  rewrite item_block_eq. repeat split.
  - apply Substring_app_l, Substring_middle.
  - apply Substring_app_r, Substring_app_r, Substring_app_l.
    apply Substring_app_r, Substring_middle.
  - do 4 apply Substring_app_r. apply Substring_app_l.
    apply Substring_app_r, Substring_refl.
  - do 6 apply Substring_app_r. apply Substring_middle.
Qed.

Lemma item_lines_not_nil (item : Item) : item_lines item <> [].
Proof. discriminate. Qed.

Lemma item_block_in_body (items : list Item) (item : Item) :
  In item items ->
  Substring (item_block item) (join nl (flat_map item_lines items ++ [EmptyString])).
Proof.
  induction items as [|it items IH]; intros Hin; [destruct Hin|].
  cbn [flat_map]. rewrite <- List.app_assoc.
  rewrite join_app by (try apply item_lines_not_nil; destruct items; discriminate).
  fold (item_block it).
  destruct Hin as [-> | Hin].
  - apply Substring_app_l, Substring_refl.
  - apply Substring_app_r, Substring_app_r, IH, Hin.
Qed.

Lemma section_text_eq (title : string) (items : list Item) :
  section_text title items
  = "## " ++ title ++ nl
    ++ match items with
       | [] => "No items found." ++ nl ++ nl
       | _ :: _ => join nl (flat_map item_lines items ++ [EmptyString])
       end.
Proof.
  unfold section_text, section_lines.
  rewrite join_app; [|discriminate|].
  - cbn [join String.concat]. rewrite !append_assoc. do 3 f_equal.
    destruct items as [|i l]; reflexivity.
  - destruct items; discriminate.
Qed.

(** C5, as amended.  The markdown of an insight is the title line followed
    by the seven sections in order.  Each section is its heading line
    followed by a body; the body of an empty sequence is the line "No
    items found.", and the body of a non-empty one contains the block of
    every item of that sequence.  The block of an item is four lines that
    hold its point, its quote and its speaker verbatim, and its sub-tag as
    the interpreter formats a member of the enumeration: the qualified
    name of the member from Python 3.11 on, its value before. *)
Theorem to_markdown_renders_every_item (m : Insight) :
  to_markdown m
  = ("# Meeting Analysis Results" ++ nl)
    ++ nl ++ section_text "Tasks" (tasks m)
    ++ nl ++ section_text "Decisions" (decisions m)
    ++ nl ++ section_text "Questions" (questions m)
    ++ nl ++ section_text "Attendees" (attendees m)
    ++ nl ++ section_text "Deadlines" (deadlines m)
    ++ nl ++ section_text "Follow-ups" (follow_ups m)
    ++ nl ++ section_text "Risks" (risks m)
  /\ forall title items,
       In (title, items) (sections m) ->
       exists body,
         section_text title items = "## " ++ title ++ nl ++ body
         /\ (items = [] -> body = "No items found." ++ nl ++ nl)
         /\ (forall item, In item items ->
               Substring (item_block item) body
               /\ item_block item
                  = "- **" ++ point item ++ "**" ++ nl
                    ++ "  - Quote: " ++ dquote ++ quote item ++ dquote ++ nl
                    ++ "  - Speaker: " ++ speaker item ++ nl
                    ++ "  - Category: "
                    ++ (if python311
                        then "SubCategory." ++ member_name (subcategory item)
                        else value (subcategory item))
                    ++ nl
               /\ Substring (point item) (item_block item)
               /\ Substring (quote item) (item_block item)
               /\ Substring (speaker item) (item_block item)
               /\ (python311 = true ->
                   Substring ("SubCategory." ++ member_name (subcategory item))
                             (item_block item))
               /\ (python311 = false ->
                   Substring (value (subcategory item)) (item_block item))).
Proof.
  split.
  - unfold to_markdown. rewrite join_sections by discriminate.
    cbn [sections fold_right fst snd join String.concat].
    now rewrite !append_assoc, append_empty_r.
  - intros title items _.
    eexists. split; [apply section_text_eq|]. split.
    + now intros ->.
    + intros item Hin. split.
      { destruct items as [|i l]; [destruct Hin|]. now apply item_block_in_body. }
      destruct (item_block_fields item) as (Hp & Hq & Hs & Ht).
      split; [|split; [exact Hp | split; [exact Hq | split; [exact Hs|]]]].
      * rewrite item_block_eq. unfold render. now rewrite !append_assoc.
      * unfold render in Ht. split; intros E; rewrite E in Ht; exact Ht.
Qed.

End Markdown.

(** ** Manual entry *)

Section ManualEntry.

Context {SubCategory : Type} `{SubCategoryEnum SubCategory} {Rep : Type}.

#[local] Abbreviation Item := (InsightItem SubCategory).
#[local] Abbreviation Insight := (MeetingInsight SubCategory).

Variable wording : Wording.

Lemma read_items_group (group rest : list string)
    (tr : list (event (request Insight) Insight)) (items : list Item) :
  nonempty_lines group = true ->
  read_items (group ++ EmptyString :: rest)%list tr items
  = (Ok (items ++ map manual_item group)%list, rest,
     (repeat (Ask EmptyString) (S (List.length group)) ++ tr)%list).
Proof.
  revert tr items. induction group as [|line group IH]; intros tr items Hne.
  - simpl. now rewrite app_nil_r.
  - simpl in Hne. apply andb_prop in Hne as [Hline Hgroup].
    cbn [app read_items]. destruct (is_empty line); [discriminate|].
    rewrite IH by assumption. cbn [map List.length].
    f_equal; [f_equal; f_equal; now rewrite <- List.app_assoc|].
    change (Ask EmptyString :: tr)
      with ([Ask (Req := request Insight) (Val := Insight) EmptyString] ++ tr)%list.
    rewrite List.app_assoc, <- repeat_cons. reflexivity.
Qed.

Lemma enter_items_group (group rest : list string) (w : World (request Insight) Rep Insight) :
  nonempty_lines group = true ->
  stdin w = (group ++ EmptyString :: rest)%list ->
  enter_items w
  = (Ok (map manual_item group),
     mkWorld rest (replies w)
             (repeat (Ask EmptyString) (S (List.length group)) ++ trace w)%list).
Proof.
  intros Hne Hin. unfold enter_items. rewrite Hin, read_items_group by assumption.
  reflexivity.
Qed.

Lemma enter_fields_groups (groups : Category -> list string) (fields : list Category) :
  (forall c, nonempty_lines (groups c) = true) ->
  forall (insight : Insight) (rest : list string) (w : World (request Insight) Rep Insight),
    stdin w = (flat_map (fun c => (groups c ++ [EmptyString])%list) fields ++ rest)%list ->
    exists w',
      enter_fields wording fields insight w
      = (Ok (fold_left (fun m c => setattr m c (map manual_item (groups c))) fields insight),
         w')
      /\ stdin w' = rest /\ replies w' = replies w.
Proof.
  intros Hne. induction fields as [|c fields IH]; intros insight rest w Hin.
  - exists w. simpl in *. auto.
  - cbn [flat_map] in Hin. rewrite <- !List.app_assoc in Hin. cbn [app] in Hin.
    cbn [enter_fields fold_left]. unfold bind at 1. unfold say, log. unfold bind at 1.
    erewrite enter_items_group; [|apply Hne|exact Hin].
    match goal with |- context [enter_fields _ _ _ ?w1] =>
      destruct (IH (setattr insight c (map manual_item (groups c))) rest w1 eq_refl)
        as (w' & E & Hs & Hr)
    end.
    exists w'. rewrite E. auto.
Qed.

(** C6.  When the lines typed for every category are non-empty and each
    group is closed by an empty line, manual entry returns an insight
    whose every sequence holds exactly one item per line of its group, in
    order: the item's point is the line, its quote "Manually entered" and
    its speaker "Manual Entry".  Nothing beyond the groups is read. *)
Theorem manual_entry_one_item_per_line
    (groups : Category -> list string) (rest : list string)
    (w : World (request Insight) Rep Insight) :
  (forall c, nonempty_lines (groups c) = true) ->
  stdin w = (typed groups ++ rest)%list ->
  exists (m : Insight) w',
    _handle_manual_entry wording w = (Ok m, w')
    /\ stdin w' = rest
    /\ forall c,
         getattr m c = map manual_item (groups c)
         /\ List.length (getattr m c) = List.length (groups c)
         /\ map point (getattr m c) = groups c
         /\ Forall (fun item => quote item = "Manually entered"
                                /\ speaker item = "Manual Entry")
                    (getattr m c).
Proof.
  intros Hne Hin. unfold _handle_manual_entry, bind, say, log.
  match goal with |- context [enter_fields _ _ _ ?w1] =>
    destruct (enter_fields_groups groups model_fields Hne empty_insight rest w1 Hin)
      as (w' & E & Hs & _)
  end.
  eexists _, w'. split; [exact E|]. split; [exact Hs|].
  intros c.
  assert (G : getattr (fold_left (fun m c0 => setattr m c0 (map manual_item (groups c0)))
                                 model_fields empty_insight) c
              = map manual_item (groups c)) by (destruct c; reflexivity).
  rewrite G. repeat split.
  - now rewrite length_map.
  - rewrite map_map. cbn [manual_item point]. apply map_id.
  - apply Forall_forall. intros item Hitem. apply in_map_iff in Hitem as (line & <- & _).
    now split.
Qed.

End ManualEntry.

(** ** Reports of exceptions *)

Ltac run := unfold bind, try_except, say, banner, show_json, write_text, log, ret, raise.

Section Reports.

Context {Req Rep Val : Type}.

#[local] Abbreviation State := (World Req Rep Val).

Lemma reraised_rendered (head : string) (e : exn) :
  renders (head ++ describe e ++ "[/red]") = true -> reraised head e = e.
Proof. intros E. unfold reraised, error_report. now rewrite E. Qed.

Lemma reported_rendered (head : string) (e : exn) (w : State) :
  renders (head ++ describe e ++ "[/red]") = true ->
  reported head e w = record (Say (head ++ describe e ++ "[/red]")) w.
Proof. intros E. unfold reported, error_report. now rewrite E. Qed.

Lemma reported_stdin (head : string) (e : exn) (w : State) :
  stdin (reported head e w) = stdin w.
Proof. unfold reported. now destruct (renders _). Qed.

Lemma reported_replies (head : string) (e : exn) (w : State) :
  replies (reported head e w) = replies w.
Proof. unfold reported. now destruct (renders _). Qed.

Lemma reported_calls (head : string) (e : exn) (w : State) :
  calls (reported head e w) = calls w.
Proof. unfold reported. now destruct (renders _). Qed.

Lemma reported_saves (head : string) (e : exn) (w : State) :
  saves (reported head e w) = saves w.
Proof. unfold reported. now destruct (renders _). Qed.

Lemma reported_asks (head : string) (e : exn) (w : State) :
  asks (reported head e w) = asks w.
Proof. unfold reported. now destruct (renders _). Qed.

(** A report adds console output only, and never a message that is not
    the report. *)
Lemma reported_trace (head : string) (e : exn) (w : State) :
  exists later,
    trace (reported head e w) = (later ++ trace w)%list
    /\ Forall (fun ev => ev = Say (error_report head e)) later.
Proof.
  unfold reported. destruct (renders _).
  - exists [Say (error_report head e)]. split; [reflexivity | now constructor].
  - exists []. split; [reflexivity | constructor].
Qed.

(** A handler that prints its report and raises again. *)
Lemma report_then_raise {A : Type} (head : string) (e : exn) (w : State) :
  bind (print (error_report head e)) (fun _ => raise e : M Req Rep Val A) w
  = (Raise (reraised head e), reported head e w).
Proof. unfold bind, print, raise, reraised, reported. now destruct (renders _). Qed.

(** A handler that prints its report and returns. *)
Lemma report_then_ret {A : Type} (head : string) (e : exn) (a : A) (w : State) :
  bind (print (error_report head e)) (fun _ => ret a : M Req Rep Val A) w
  = (if renders (error_report head e) then Ok a
     else Raise (MarkupError (error_report head e)),
     reported head e w).
Proof. unfold bind, print, ret, reported. now destruct (renders _). Qed.

End Reports.

(** ** Refinement on feedback *)

Lemma A_improve_insights_eq (previous : A.Insight) (feedback transcript : string)
    (w : World (request A.Insight) A.structured A.Insight) :
  let w1 := mkWorld (stdin w) (tl (replies w))
              (Call (ImproveRequest previous feedback transcript)
               :: Say "[cyan]Improving insights based on feedback...[/cyan]" :: trace w) in
  A.improve_insights previous feedback transcript w
  = match A.refinement (replies w) with
    | Some insight => (Ok insight, record (Say "[green]Improvement complete.[/green]") w1)
    | None =>
        (Raise (reraised "[red]Error in improve_insights: " (A.failure (replies w))),
         reported "[red]Error in improve_insights: " (A.failure (replies w)) w1)
    end.
Proof.
  unfold A.improve_insights, A.create, call. unfold try_except, bind at 1 2 3.
  unfold say at 1, log. cbn [replies record stdin trace].
  destruct (replies w) as [|[insight|e] rs]; cbn [A.refinement A.failure tl];
    try apply report_then_raise.
  reflexivity.
Qed.

Lemma B_improve_insights_eq (previous : B.Insight) (feedback transcript : string)
    (w : World (request B.Insight) B.completion B.Insight) :
  let w1 := mkWorld (stdin w) (tl (replies w))
              (Call (ImproveRequest previous feedback transcript) :: trace w) in
  B.improve_insights previous feedback transcript w
  = match B.refinement (replies w) with
    | Some insight => (Ok insight, w1)
    | None =>
        (Raise (reraised "[red]Error in improve_insights: " (B.failure (replies w))),
         reported "[red]Error in improve_insights: " (B.failure (replies w)) w1)
    end.
Proof.
  unfold B.improve_insights, B.create_and_load, B.model_validate, call.
  unfold try_except, bind at 1 2.
  destruct (replies w) as [|[reason|reason|result] rs];
    cbn [B.refinement B.failure tl]; try apply report_then_raise.
  unfold ret at 1. cbn beta iota.
  destruct (validate result); [reflexivity | apply report_then_raise].
Qed.

Section ReviewFacts.

Context {SubCategory : Type} `{SubCategoryEnum SubCategory} {Rep : Type}.

#[local] Abbreviation Insight := (MeetingInsight SubCategory).
#[local] Abbreviation Comp := (M (request Insight) Rep Insight).
#[local] Abbreviation State := (World (request Insight) Rep Insight).

Variable wording : Wording.
Variable improve_insights : Insight -> string -> string -> Comp Insight.

Lemma handle_iteration_eq (insight : Insight) (feedback transcript name : string)
    (w : State) :
  _handle_iteration wording improve_insights insight feedback transcript name w
  = match improve_insights insight feedback transcript
            (record (Banner "[bold red]Iteration Based on Feedback[/bold red]") w) with
    | (Ok new_insight, w1) =>
        (Ok new_insight,
         record (Say (iteration_saved wording))
           (record (Save ("output/" ++ name) "3_iteration.md" (to_markdown new_insight))
                   w1))
    | (Raise e, w1) =>
        (if renders (error_report "[red]Error during iteration: " e) then Ok insight
         else Raise (MarkupError (error_report "[red]Error during iteration: " e)),
         reported "[red]Error during iteration: " e w1)
    end.
Proof.
  unfold _handle_iteration, save_output. unfold bind at 1. unfold banner, log.
  unfold try_except.
  unfold bind at 1.
  destruct (improve_insights _ _ _ _) as [[new_insight|e] w1];
    [reflexivity | apply report_then_ret].
Qed.

Lemma human_review_approved (insight : Insight) (transcript name approval : string)
    (rest : list string) (w : State) :
  no_insights insight = false ->
  stdin w = approval :: rest ->
  lower approval = "y" ->
  _handle_human_review wording improve_insights insight transcript name w
  = (Ok insight,
     mkWorld rest (replies w) (Ask approve_prompt :: trace (shown insight w))).
Proof.
  intros Hne Hin Hy. unfold _handle_human_review, ask. run. cbn.
  rewrite Hne. cbn. rewrite Hin, Hy. reflexivity.
Qed.

Lemma human_review_rejected (insight : Insight) (transcript name approval feedback : string)
    (rest : list string) (w : State) :
  no_insights insight = false ->
  stdin w = approval :: feedback :: rest ->
  lower approval <> "y" ->
  _handle_human_review wording improve_insights insight transcript name w
  = _handle_iteration wording improve_insights insight feedback transcript name
      (mkWorld rest (replies w)
         (Ask EmptyString
          :: Say "[yellow]Please provide feedback for improvement:[/yellow]"
          :: Ask approve_prompt :: trace (shown insight w))).
Proof.
  intros Hne Hin Hn. unfold _handle_human_review, ask. run. cbn.
  rewrite Hne. cbn. rewrite Hin. apply String.eqb_neq in Hn. rewrite Hn. reflexivity.
Qed.

Lemma human_review_accept_empty (insight : Insight) (transcript name choice : string)
    (rest : list string) (w : State) :
  no_insights insight = true ->
  stdin w = choice :: rest ->
  choice <> "1" -> choice <> "2" ->
  _handle_human_review wording improve_insights insight transcript name w
  = (Ok insight, chosen wording insight rest w).
Proof.
  intros He Hin H1 H2.
  unfold _handle_human_review, _handle_empty_insights, ask. run. cbn.
  rewrite He. cbn. rewrite Hin. apply String.eqb_neq in H1, H2. rewrite H1, H2.
  reflexivity.
Qed.

Lemma human_review_manual (insight : Insight) (transcript name : string)
    (lines : list string) (w : State) :
  no_insights insight = true ->
  stdin w = "2" :: lines ->
  _handle_human_review wording improve_insights insight transcript name w
  = _handle_manual_entry wording (chosen wording insight lines w).
Proof.
  intros He Hin.
  unfold _handle_human_review, _handle_empty_insights, ask. run. cbn.
  rewrite He. cbn. rewrite Hin. reflexivity.
Qed.

Lemma manual_entry_returns (groups : Category -> list string) (rest : list string)
    (w : State) :
  (forall c, nonempty_lines (groups c) = true) ->
  stdin w = (typed groups ++ rest)%list ->
  exists (m : Insight) w',
    _handle_manual_entry wording w = (Ok m, w')
    /\ stdin w' = rest /\ replies w' = replies w
    /\ forall c, getattr m c = map manual_item (groups c).
Proof.
  intros Hne Hin. unfold _handle_manual_entry, bind, say, log.
  match goal with |- context [enter_fields _ _ _ ?w1] =>
    destruct (enter_fields_groups wording groups model_fields Hne empty_insight rest w1 Hin)
      as (w' & E & Hs & Hr)
  end.
  eexists _, w'. repeat split; [exact E | exact Hs | exact Hr |].
  intros c. destruct c; reflexivity.
Qed.

End ReviewFacts.

(** ** The iteration step of the two variants *)

Lemma A_handle_iteration_eq (insight : A.Insight) (feedback transcript name : string)
    (w : World (request A.Insight) A.structured A.Insight) :
  let w1 := mkWorld (stdin w) (tl (replies w))
              (Call (ImproveRequest insight feedback transcript)
               :: Say "[cyan]Improving insights based on feedback...[/cyan]"
               :: Banner "[bold red]Iteration Based on Feedback[/bold red]" :: trace w) in
  A._handle_iteration insight feedback transcript name w
  = match A.refinement (replies w) with
    | Some replacement =>
        (Ok replacement,
         record (Say "[green] Iteration saved to:[/green] [bold blue]")
           (record (Save ("output/" ++ name) "3_iteration.md" (to_markdown replacement))
              (record (Say "[green]Improvement complete.[/green]") w1)))
    | None =>
        let e := reraised "[red]Error in improve_insights: " (A.failure (replies w)) in
        (if renders (error_report "[red]Error during iteration: " e) then Ok insight
         else Raise (MarkupError (error_report "[red]Error during iteration: " e)),
         reported "[red]Error during iteration: " e
           (reported "[red]Error in improve_insights: " (A.failure (replies w)) w1))
    end.
Proof.
  unfold A._handle_iteration. rewrite handle_iteration_eq, A_improve_insights_eq.
  cbn [replies record stdin trace]. unfold A.Insight in *.
  destruct (A.refinement (replies w)); reflexivity.
Qed.

Lemma B_handle_iteration_eq (insight : B.Insight) (feedback transcript name : string)
    (w : World (request B.Insight) B.completion B.Insight) :
  let w1 := mkWorld (stdin w) (tl (replies w))
              (Call (ImproveRequest insight feedback transcript)
               :: Banner "[bold red]Iteration Based on Feedback[/bold red]" :: trace w) in
  B._handle_iteration insight feedback transcript name w
  = match B.refinement (replies w) with
    | Some replacement =>
        (Ok replacement,
         record (Say "[green][/green] Iteration saved to: [bold blue]")
           (record (Save ("output/" ++ name) "3_iteration.md" (to_markdown replacement))
                   w1))
    | None =>
        let e := reraised "[red]Error in improve_insights: " (B.failure (replies w)) in
        (if renders (error_report "[red]Error during iteration: " e) then Ok insight
         else Raise (MarkupError (error_report "[red]Error during iteration: " e)),
         reported "[red]Error during iteration: " e
           (reported "[red]Error in improve_insights: " (B.failure (replies w)) w1))
    end.
Proof.
  unfold B._handle_iteration. rewrite handle_iteration_eq, B_improve_insights_eq.
  cbn [replies record stdin trace]. unfold B.Insight in *.
  destruct (B.refinement (replies w)); reflexivity.
Qed.

(** What the iteration step leaves of the world, whatever the refiner
    does: one call, no line read, and no file but the iteration stage of a
    replacement. *)
Lemma A_handle_iteration_frame (insight : A.Insight) (feedback transcript name : string)
    (w : World (request A.Insight) A.structured A.Insight) :
  exists r w',
    A._handle_iteration insight feedback transcript name w = (r, w')
    /\ stdin w' = stdin w
    /\ replies w' = tl (replies w)
    /\ asks w' = asks w
    /\ calls w' = Call (ImproveRequest insight feedback transcript) :: calls w
    /\ (forall replacement, A.refinement (replies w) = Some replacement ->
          r = Ok replacement
          /\ saves w'
             = Save ("output/" ++ name) "3_iteration.md" (to_markdown replacement)
               :: saves w)
    /\ (A.refinement (replies w) = None ->
        saves w' = saves w
        /\ (r = Ok insight \/ exists markup, r = Raise (MarkupError markup))
        /\ (renders ("[red]Error in improve_insights: "
                     ++ describe (A.failure (replies w)) ++ "[/red]") = true ->
            renders ("[red]Error during iteration: "
                     ++ describe (A.failure (replies w)) ++ "[/red]") = true ->
            r = Ok insight)).
Proof.
  rewrite A_handle_iteration_eq. cbv zeta. unfold A.Insight in *.
  destruct (A.refinement (replies w)) as [replacement|] eqn:E.
  - eexists _, _. split; [reflexivity|].
    do 4 (split; [reflexivity|]). split; [|discriminate].
    intros ? [= <-]. split; reflexivity.
  - eexists _, _. split; [reflexivity|].
    rewrite !reported_stdin, !reported_replies, !reported_asks, !reported_calls,
      !reported_saves.
    do 4 (split; [reflexivity|]). split; [discriminate|]. intros _.
    split; [reflexivity|]. split.
    + destruct (renders _); eauto.
    + intros E1 E2. rewrite (reraised_rendered _ _ E1). unfold error_report.
      now rewrite E2.
Qed.

Lemma B_handle_iteration_frame (insight : B.Insight) (feedback transcript name : string)
    (w : World (request B.Insight) B.completion B.Insight) :
  exists r w',
    B._handle_iteration insight feedback transcript name w = (r, w')
    /\ stdin w' = stdin w
    /\ replies w' = tl (replies w)
    /\ asks w' = asks w
    /\ calls w' = Call (ImproveRequest insight feedback transcript) :: calls w
    /\ (forall replacement, B.refinement (replies w) = Some replacement ->
          r = Ok replacement
          /\ saves w'
             = Save ("output/" ++ name) "3_iteration.md" (to_markdown replacement)
               :: saves w)
    /\ (B.refinement (replies w) = None ->
        saves w' = saves w
        /\ (r = Ok insight \/ exists markup, r = Raise (MarkupError markup))
        /\ (renders ("[red]Error in improve_insights: "
                     ++ describe (B.failure (replies w)) ++ "[/red]") = true ->
            renders ("[red]Error during iteration: "
                     ++ describe (B.failure (replies w)) ++ "[/red]") = true ->
            r = Ok insight)).
Proof.
  rewrite B_handle_iteration_eq. cbv zeta. unfold B.Insight in *.
  destruct (B.refinement (replies w)) as [replacement|] eqn:E.
  - eexists _, _. split; [reflexivity|].
    do 4 (split; [reflexivity|]). split; [|discriminate].
    intros ? [= <-]. split; reflexivity.
  - eexists _, _. split; [reflexivity|].
    rewrite !reported_stdin, !reported_replies, !reported_asks, !reported_calls,
      !reported_saves.
    do 4 (split; [reflexivity|]). split; [discriminate|]. intros _.
    split; [reflexivity|]. split.
    + destruct (renders _); eauto.
    + intros E1 E2. rewrite (reraised_rendered _ _ E1). unfold error_report.
      now rewrite E2.
Qed.

(** ** The two flows, step by step *)

Lemma B_analyze_transcript_eq (transcript : string)
    (w : World (request B.Insight) B.completion B.Insight) :
  let w1 := mkWorld (stdin w) (tl (replies w))
              (Call (AnalyzeRequest transcript) :: trace w) in
  B.analyze_transcript transcript w
  = match B.extraction (replies w) with
    | Some insight => (Ok insight, w1)
    | None =>
        (if renders (error_report "[red]Error in analyze_transcript: "
                       (B.extraction_failure (replies w)))
         then Ok empty_insight
         else Raise (MarkupError (error_report "[red]Error in analyze_transcript: "
                                    (B.extraction_failure (replies w)))),
         reported "[red]Error in analyze_transcript: "
           (B.extraction_failure (replies w)) w1)
    end.
Proof.
  unfold B.analyze_transcript, B.create_and_load, B.add_default_subcategories,
    B.model_validate, call.
  unfold try_except, bind at 1 2 3.
  destruct (replies w) as [|[reason|reason|result] rs];
    cbn [B.extraction B.extraction_failure tl]; try apply report_then_ret.
  unfold ret at 1. cbn beta iota.
  destruct result; try apply report_then_ret.
  destruct (B.add_defaults model_fields fields) as [d'|];
    [|apply report_then_ret].
  unfold ret at 1. cbn beta iota.
  destruct (validate (JObj d')); [reflexivity | apply report_then_ret].
Qed.

Lemma B_process_transcript_eq (name text : string)
    (w : World (request B.Insight) B.completion B.Insight) :
  B.process_transcript name text w
  = match B.analyze_transcript text w with
    | (Ok insight, w') => (Ok insight, w')
    | (Raise e, w') =>
        (Raise (reraised "[red]Error during analysis: " e),
         reported "[red]Error during analysis: " e w')
    end.
Proof.
  unfold B.process_transcript. unfold try_except, bind at 1.
  destruct (B.analyze_transcript text w) as [[insight|e] w'];
    [reflexivity | apply report_then_raise].
Qed.

(** What the flow of variant B leaves of the world, whatever the service
    answers: one call, no line read, no file. *)
Lemma B_process_transcript_frame (name text : string)
    (w : World (request B.Insight) B.completion B.Insight) :
  exists r w',
    B.process_transcript name text w = (r, w')
    /\ stdin w' = stdin w
    /\ replies w' = tl (replies w)
    /\ asks w' = asks w
    /\ saves w' = saves w
    /\ calls w' = Call (AnalyzeRequest text) :: calls w
    /\ (forall insight, B.extraction (replies w) = Some insight ->
          r = Ok insight
          /\ w' = mkWorld (stdin w) (tl (replies w))
                          (Call (AnalyzeRequest text) :: trace w))
    /\ (B.extraction (replies w) = None ->
        (r = Ok empty_insight \/ exists markup, r = Raise (MarkupError markup))
        /\ (renders ("[red]Error in analyze_transcript: "
                     ++ describe (B.extraction_failure (replies w)) ++ "[/red]") = true ->
            r = Ok empty_insight
            /\ w' = mkWorld (stdin w) (tl (replies w))
                      (Say ("[red]Error in analyze_transcript: "
                            ++ describe (B.extraction_failure (replies w)) ++ "[/red]")
                       :: Call (AnalyzeRequest text) :: trace w))).
Proof.
  rewrite B_process_transcript_eq, B_analyze_transcript_eq. cbv zeta.
  unfold B.Insight in *.
  destruct (B.extraction (replies w)) as [insight|] eqn:E.
  - eexists _, _. split; [reflexivity|].
    do 5 (split; [reflexivity|]). split; [|discriminate].
    intros ? [= <-]. split; reflexivity.
  - destruct (renders (error_report "[red]Error in analyze_transcript: "
                         (B.extraction_failure (replies w)))) eqn:R.
    + eexists _, _. split; [reflexivity|].
      rewrite !reported_stdin, !reported_replies, !reported_asks, !reported_calls,
        !reported_saves.
      do 5 (split; [reflexivity|]). split; [discriminate|]. intros _.
      split; [now left|]. intros R'. split; [reflexivity|].
      now rewrite (reported_rendered _ _ _ R').
    + eexists _, _. split; [reflexivity|].
      rewrite !reported_stdin, !reported_replies, !reported_asks, !reported_calls,
        !reported_saves.
      do 5 (split; [reflexivity|]). split; [discriminate|]. intros _.
      split.
      * right. unfold reraised.
        destruct (renders (error_report "[red]Error during analysis: " _)); eauto.
      * unfold error_report in R. intros R'. congruence.
Qed.

Lemma A_analyze_transcript_eq (transcript : string)
    (w : World (request A.Insight) A.structured A.Insight) :
  let w1 := mkWorld (stdin w) (tl (replies w))
              (Call (AnalyzeRequest transcript)
               :: Say "[cyan]Starting analysis...[/cyan]" :: trace w) in
  A.analyze_transcript transcript w
  = match A.extraction (replies w) with
    | Some insight => (Ok insight, record (Say "[green]Analysis complete.[/green]") w1)
    | None =>
        (Raise (reraised "[red]Error in analyze_transcript: " (A.failure (replies w))),
         reported "[red]Error in analyze_transcript: " (A.failure (replies w)) w1)
    end.
Proof.
  unfold A.analyze_transcript, A.create, call. unfold try_except, bind at 1 2 3.
  unfold say at 1, log. cbn [replies record stdin trace].
  destruct (replies w) as [|[insight|e] rs];
    cbn [A.extraction A.refinement A.failure tl]; try apply report_then_raise.
  reflexivity.
Qed.

(** The world of variant A once the first analysis is saved. *)
Lemma A_process_transcript_eq (auto_mode : bool) (name text : string) (insight : A.Insight)
    (rs : list A.structured) (w : World (request A.Insight) A.structured A.Insight) :
  is_empty (strip text) = false ->
  replies w = A.Structured insight :: rs ->
  let w1 :=
    mkWorld (stdin w) rs
      (Say "[green] Analysis saved to:[/green] [bold blue]"
       :: Save ("output/" ++ name) "1_analysis.md" (to_markdown insight)
       :: Say "[green]Analysis complete.[/green]"
       :: Call (AnalyzeRequest (strip text))
       :: Say "[cyan]Starting analysis...[/cyan]"
       :: Banner "[bold blue]Stage 1: Analysis[/bold blue]"
       :: trace w) in
  A.process_transcript auto_mode name text w
  = match (if negb auto_mode
           then A._handle_human_review insight (strip text) name w1
           else (Ok insight, w1)) with
    | (Ok final, w2) =>
        (Ok final,
         record (Say "[green] Final output saved to:[/green] [bold blue]")
           (record (Save ("output/" ++ name) "2_final_output.md" (to_markdown final)) w2))
    | (Raise e, w2) => (Raise e, w2)
    end.
Proof.
  intros Hne Hrs. unfold A.process_transcript. rewrite Hne.
  unfold bind at 1. unfold banner, log. unfold bind at 1.
  rewrite A_analyze_transcript_eq. cbn [replies record]. rewrite Hrs.
  cbn [A.extraction A.refinement tl].
  unfold save_output. run. cbn [stdin replies trace record].
  destruct (negb auto_mode); [|reflexivity].
  destruct (A._handle_human_review _ _ _ _) as [[final|e] w2]; reflexivity.
Qed.

(** The flow of variant A when the first analysis raises. *)
Lemma A_process_transcript_failure (auto_mode : bool) (name text : string)
    (w : World (request A.Insight) A.structured A.Insight) :
  is_empty (strip text) = false ->
  A.extraction (replies w) = None ->
  A.process_transcript auto_mode name text w
  = (Raise (reraised "[red]Error in analyze_transcript: " (A.failure (replies w))),
     reported "[red]Error in analyze_transcript: " (A.failure (replies w))
       (mkWorld (stdin w) (tl (replies w))
          (Call (AnalyzeRequest (strip text))
           :: Say "[cyan]Starting analysis...[/cyan]"
           :: Banner "[bold blue]Stage 1: Analysis[/bold blue]"
           :: trace w))).
Proof.
  intros Hne Hnone. unfold A.process_transcript. rewrite Hne.
  unfold bind at 1. unfold banner, log. unfold bind at 1.
  rewrite A_analyze_transcript_eq. cbn [replies record stdin trace].
  unfold A.Insight in *. now rewrite Hnone.
Qed.

(** ** Blank transcripts *)

(** C1, as amended.  Variant A returns the empty insight for a transcript
    made of whitespace only, without calling the completion service,
    without reading the console and without writing a file.  Variant B has
    no such guard: it sends every transcript, blank or not, to the
    completion service, once. *)
Theorem blank_transcript_short_circuits_in_A :
  (forall (auto_mode : bool) (name text : string)
          (w : World (request A.Insight) A.structured A.Insight),
      blank text = true ->
      A.process_transcript auto_mode name text w
      = (Ok (mkInsight [] [] [] [] [] [] []),
         record (Say "[red]Error: Transcript is empty![/red]") w)
      /\ calls (snd (A.process_transcript auto_mode name text w)) = calls w
      /\ replies (snd (A.process_transcript auto_mode name text w)) = replies w)
  /\ (forall (name text : string) (w : World (request B.Insight) B.completion B.Insight),
        exists r w',
          B.process_transcript name text w = (r, w')
          /\ calls w' = Call (AnalyzeRequest text) :: calls w
          /\ replies w' = tl (replies w)).
Proof.
  split.
  - intros auto_mode name text w Hblank.
    apply strip_empty_iff_blank in Hblank.
    unfold A.process_transcript. rewrite Hblank. auto.
  - intros name text w.
    destruct (B_process_transcript_frame name text w)
      as (r & w' & E & _ & Hr & _ & _ & Hc & _).
    exists r, w'. auto.
Qed.

(** ** Refinement that fails *)

(** X20.  In both variants, when the refiner's call raises (the service
    fails or refuses, or, in variant B, its reply is not JSON or does not
    fit the schema), the iteration step writes no file and reads no line,
    and it either returns the insight it was given or raises [MarkupError];
    it returns the insight it was given whenever rich renders the two
    reports of the exception. *)
Theorem refinement_failure_keeps_previous_when_reported :
  (forall (previous : A.Insight) (feedback transcript name : string)
          (w : World (request A.Insight) A.structured A.Insight),
      A.refinement (replies w) = None ->
      exists r w',
        A._handle_iteration previous feedback transcript name w = (r, w')
        /\ saves w' = saves w /\ stdin w' = stdin w
        /\ (r = Ok previous \/ exists markup, r = Raise (MarkupError markup))
        /\ (renders ("[red]Error in improve_insights: "
                     ++ describe (A.failure (replies w)) ++ "[/red]") = true ->
            renders ("[red]Error during iteration: "
                     ++ describe (A.failure (replies w)) ++ "[/red]") = true ->
            r = Ok previous))
  /\ (forall (previous : B.Insight) (feedback transcript name : string)
             (w : World (request B.Insight) B.completion B.Insight),
        B.refinement (replies w) = None ->
        exists r w',
          B._handle_iteration previous feedback transcript name w = (r, w')
          /\ saves w' = saves w /\ stdin w' = stdin w
          /\ (r = Ok previous \/ exists markup, r = Raise (MarkupError markup))
          /\ (renders ("[red]Error in improve_insights: "
                       ++ describe (B.failure (replies w)) ++ "[/red]") = true ->
              renders ("[red]Error during iteration: "
                       ++ describe (B.failure (replies w)) ++ "[/red]") = true ->
              r = Ok previous)).
Proof.
  split; intros previous feedback transcript name w Hfail.
  - destruct (A_handle_iteration_frame previous feedback transcript name w)
      as (r & w' & E & Hs & _ & _ & _ & _ & Hnone).
    destruct (Hnone Hfail) as (Hsaves & Hr & Hok).
    exists r, w'. auto.
  - destruct (B_handle_iteration_frame previous feedback transcript name w)
      as (r & w' & E & Hs & _ & _ & _ & _ & Hnone).
    destruct (Hnone Hfail) as (Hsaves & Hr & Hok).
    exists r, w'. auto.
Qed.

(** ** Rejection with feedback *)

(** C4, as amended.  In both variants, when the human does not approve a
    non-empty insight and gives feedback, the review asks for approval
    once, reads the feedback, calls the refiner once and returns what the
    iteration step returns: the replacement when the refiner produces one,
    the rejected insight when the refiner raises and rich renders the
    reports of the exception.  No further line is read: the replacement is
    not put to the human again. *)
Theorem rejection_refines_once_then_returns :
  (forall (insight : A.Insight) (transcript name approval feedback : string)
          (rest : list string) (w : World (request A.Insight) A.structured A.Insight),
      no_insights insight = false ->
      lower approval <> "y" ->
      stdin w = approval :: feedback :: rest ->
      exists r w',
        A._handle_human_review insight transcript name w = (r, w')
        /\ stdin w' = rest
        /\ asks w'
           = Ask EmptyString
             :: Ask (nl ++ "[bold yellow]Approve these insights? (y/n): [/bold yellow]")
             :: asks w
        /\ calls w' = Call (ImproveRequest insight feedback transcript) :: calls w
        /\ (forall replacement,
              A.refinement (replies w) = Some replacement -> r = Ok replacement)
        /\ (A.refinement (replies w) = None ->
            renders ("[red]Error in improve_insights: "
                     ++ describe (A.failure (replies w)) ++ "[/red]") = true ->
            renders ("[red]Error during iteration: "
                     ++ describe (A.failure (replies w)) ++ "[/red]") = true ->
            r = Ok insight))
  /\ (forall (insight : B.Insight) (transcript name approval feedback : string)
             (rest : list string) (w : World (request B.Insight) B.completion B.Insight),
        no_insights insight = false ->
        lower approval <> "y" ->
        stdin w = approval :: feedback :: rest ->
        exists r w',
          B._handle_human_review insight transcript name w = (r, w')
          /\ stdin w' = rest
          /\ asks w'
             = Ask EmptyString
               :: Ask (nl ++ "[bold yellow]Approve these insights? (y/n): [/bold yellow]")
               :: asks w
          /\ calls w' = Call (ImproveRequest insight feedback transcript) :: calls w
          /\ (forall replacement,
                B.refinement (replies w) = Some replacement -> r = Ok replacement)
          /\ (B.refinement (replies w) = None ->
              renders ("[red]Error in improve_insights: "
                       ++ describe (B.failure (replies w)) ++ "[/red]") = true ->
              renders ("[red]Error during iteration: "
                       ++ describe (B.failure (replies w)) ++ "[/red]") = true ->
              r = Ok insight)).
Proof.
  split; intros insight transcript name approval feedback rest w Hne Hn Hin.
  - unfold A._handle_human_review.
    erewrite human_review_rejected; [|eassumption..].
    match goal with |- context [_handle_iteration _ _ _ _ _ _ ?w1] =>
      destruct (A_handle_iteration_frame insight feedback transcript name w1)
        as (r & w' & E & Hs & _ & Ha & Hc & Hsome & Hnone)
    end.
    exists r, w'. split; [exact E|]. split; [exact Hs|]. split; [exact Ha|].
    split; [exact Hc|]. split.
    + intros replacement Hr. now apply Hsome.
    + intros Hr. now apply Hnone.
  - unfold B._handle_human_review.
    erewrite human_review_rejected; [|eassumption..].
    match goal with |- context [_handle_iteration _ _ _ _ _ _ ?w1] =>
      destruct (B_handle_iteration_frame insight feedback transcript name w1)
        as (r & w' & E & Hs & _ & Ha & Hc & Hsome & Hnone)
    end.
    exists r, w'. split; [exact E|]. split; [exact Hs|]. split; [exact Ha|].
    split; [exact Hc|]. split.
    + intros replacement Hr. now apply Hsome.
    + intros Hr. now apply Hnone.
Qed.

(** ** Persistence of the final insight *)

(** C3, as amended.  In variant A, with a transcript that is not blank, a
    first analysis that succeeds and the review enabled: whichever way the
    review ends (approval, acceptance of the empty insight, manual entry),
    the flow returns, and the last thing it did was to write the markdown
    of the insight it returns to the stage file [2_final_output.md].  That
    insight is the analysed one after approval or acceptance, and after
    manual entry the one made of the lines typed: one item per line, in
    the sequence the line was typed for.  Variant B's flow never enters the
    review and writes no file. *)
Theorem final_insight_is_persisted_in_A :
  (forall (e : review_end) (name text : string) (analysed : A.Insight)
          (rs : list A.structured)
          (w : World (request A.Insight) A.structured A.Insight),
      is_empty (strip text) = false ->
      replies w = A.Structured analysed :: rs ->
      ends_in e analysed (stdin w) ->
      exists final w' earlier,
        A.process_transcript false name text w = (Ok final, w')
        /\ trace w'
           = Say "[green] Final output saved to:[/green] [bold blue]"
             :: Save ("output/" ++ name) "2_final_output.md" (to_markdown final)
             :: earlier
        /\ (e <> EndManual -> final = analysed)
        /\ (forall (groups : Category -> list string) (rest : list string),
              stdin w = ("2" :: typed groups ++ rest)%list ->
              (forall c, nonempty_lines (groups c) = true) ->
              forall c,
                getattr final c
                = map (fun line => mkItem line "Manually entered" "Manual Entry"
                                          A.PROPOSED)
                      (groups c)))
  /\ (forall (name text : string) (w : World (request B.Insight) B.completion B.Insight),
        saves (snd (B.process_transcript name text w)) = saves w
        /\ asks (snd (B.process_transcript name text w)) = asks w).
Proof.
  split.
  - intros e name text analysed rs w Hne Hrs Hend.
    rewrite (A_process_transcript_eq false name text w Hne Hrs). cbn [negb].
    unfold A._handle_human_review.
    destruct e; cbn [ends_in] in Hend.
    + destruct Hend as (Hsome & approval & rest & Hin & Hy).
      erewrite human_review_approved; [|eassumption..].
      eexists _, _, _. split; [reflexivity|]. split; [reflexivity|].
      split; [reflexivity|].
      intros groups rest' Hin'. rewrite Hin in Hin'. injection Hin' as -> _.
      discriminate Hy.
    + destruct Hend as (Hnone & choice & rest & Hin & H1 & H2).
      erewrite human_review_accept_empty; [|eassumption..].
      eexists _, _, _. split; [reflexivity|]. split; [reflexivity|].
      split; [reflexivity|].
      intros groups rest' Hin'. rewrite Hin in Hin'. injection Hin' as -> _.
      now contradiction H2.
    + destruct Hend as (Hnone & groups & rest & Hin & Hgroups).
      erewrite human_review_manual; [|eassumption..].
      match goal with |- context [_handle_manual_entry ?wd ?w1] =>
        destruct (manual_entry_returns wd groups rest w1 Hgroups eq_refl)
          as (m & w' & E & _)
      end.
      rewrite E. eexists _, _, _. split; [reflexivity|]. split; [reflexivity|].
      split; [intros Habs; now contradiction Habs|].
      intros groups' rest' Hin' Hgroups'. rewrite Hin in Hin'. injection Hin' as Hin'.
      match type of E with _handle_manual_entry ?wd ?w1 = _ =>
        destruct (manual_entry_returns wd groups' rest' w1 Hgroups' Hin')
          as (m' & w'' & E' & _ & _ & Hget)
      end.
      rewrite E in E'. injection E' as <- _. exact Hget.
  - intros name text w.
    destruct (B_process_transcript_frame name text w)
      as (r & w' & E & _ & _ & Ha & Hs & _).
    rewrite E. auto.
Qed.

(** ** Dictionaries *)

Lemma dict_get_set_same (k : string) (v : json) (d : dict) :
  dict_get k (dict_set k v d) = Some v.
Proof.
  induction d as [|[k' v'] d IH]; simpl.
  - now rewrite String.eqb_refl.
  - destruct (String.eqb k k') eqn:E; simpl; now rewrite E.
Qed.

Lemma dict_get_set_other (k k' : string) (v : json) (d : dict) :
  k <> k' -> dict_get k (dict_set k' v d) = dict_get k d.
Proof.
  intros Hneq. apply String.eqb_neq in Hneq.
  induction d as [|[k0 v0] d IH]; simpl.
  - now rewrite Hneq.
  - destruct (String.eqb k' k0) eqn:E; simpl.
    + apply String.eqb_eq in E. subst k0. now rewrite Hneq.
    + now rewrite IH.
Qed.

Lemma dict_set_set (k : string) (v v0 : json) (d : dict) :
  dict_set k v (dict_set k v0 d) = dict_set k v d.
Proof.
  induction d as [|[k' v'] d IH]; simpl.
  - now rewrite String.eqb_refl.
  - destruct (String.eqb k k') eqn:E; simpl; rewrite E; [reflexivity | now rewrite IH].
Qed.

Lemma field_name_inj (c c' : Category) : field_name c = field_name c' -> c = c'.
Proof. destruct c, c'; intros E; (reflexivity || discriminate E). Qed.

(** ** Default sub-tags: the code against the wording of the specification *)

(** The default of a category in the code is the text of the default
    sub-tag. *)
Lemma default_tag_value (c : Category) :
  B.SubCategory_value (B.default_tag c) = B.default_subcategory c.
Proof. now destruct c. Qed.

Lemma fill_subcategory_some (c : Category) (item item' : json) :
  B.fill_subcategory c item = Some item' -> item' = B.with_default_subtag c item.
Proof.
  destruct item; simpl; try discriminate.
  - destruct (contains _ _); [now intros [= <-] | discriminate].
  - destruct (existsb _ _); [now intros [= <-] | discriminate].
  - rewrite default_tag_value. destruct (dict_has _ _); now intros [= <-].
Qed.

Lemma fill_subcategory_none (c : Category) (item : json) :
  B.fill_subcategory c item = None ->
  B.with_default_subtag c item = item
  /\ validate_item (SubCategory := B.SubCategory) item = None.
Proof.
  destruct item; simpl; auto.
  destruct (dict_has _ _); discriminate.
Qed.

Lemma traverse_fill_some (c : Category) (items l : list json) :
  traverse (B.fill_subcategory c) items = Some l ->
  l = map (B.with_default_subtag c) items.
Proof.
  revert l. induction items as [|item items IH]; simpl; intros l.
  - now intros [= <-].
  - destruct (B.fill_subcategory c item) as [item'|] eqn:E; [|discriminate].
    destruct (traverse _ items) as [l'|]; [|discriminate].
    intros [= <-]. now rewrite (fill_subcategory_some _ _ E), (IH l').
Qed.

Lemma traverse_fill_none (c : Category) (items : list json) :
  traverse (B.fill_subcategory c) items = None ->
  traverse (validate_item (SubCategory := B.SubCategory))
           (map (B.with_default_subtag c) items) = None.
Proof.
  induction items as [|item items IH]; simpl; [discriminate|].
  destruct (B.fill_subcategory c item) as [item'|] eqn:E.
  - destruct (traverse _ items); [discriminate|]. intros _.
    rewrite IH by reflexivity. now destruct (validate_item _).
  - intros _. destruct (fill_subcategory_none _ _ E) as [-> ->]. reflexivity.
Qed.

Lemma fill_category_some (c : Category) (v v' : json) :
  B.fill_category c v = Some v' -> v' = B.with_default_subtags c v.
Proof.
  destruct v; simpl; try discriminate.
  - destruct (is_empty s); [now intros [= <-] | discriminate].
  - destruct (traverse _ items) as [l|] eqn:E; [|discriminate].
    simpl. intros [= <-]. now rewrite (traverse_fill_some _ _ E).
  - destruct (forallb _ _); [now intros [= <-] | discriminate].
Qed.

Lemma fill_category_none (c : Category) (v : json) :
  B.fill_category c v = None ->
  validate_items (SubCategory := B.SubCategory) (B.with_default_subtags c v) = None.
Proof.
  destruct v; simpl; auto.
  destruct (traverse _ items) eqn:E; [discriminate|].
  intros _. now apply traverse_fill_none.
Qed.

Lemma dict_has_get (k : string) (d : dict) :
  dict_has k d = match dict_get k d with Some _ => true | None => false end.
Proof. reflexivity. Qed.

Lemma add_default_some (d : dict) (c : Category) (d' : dict) :
  B.add_default d c = Some d' -> d' = B.substitute_in d c.
Proof.
  unfold B.add_default, B.substitute_in. rewrite dict_has_get.
  destruct (dict_get (field_name c) d) as [v|] eqn:Hget.
  - rewrite Hget. destruct (B.fill_category c v) as [v'|] eqn:E; [|discriminate].
    intros [= <-]. now rewrite (fill_category_some _ _ E).
  - rewrite dict_get_set_same. simpl. intros [= <-]. apply dict_set_set.
Qed.

Lemma add_default_none (d : dict) (c : Category) :
  B.add_default d c = None ->
  validate_field (SubCategory := B.SubCategory) (B.substitute_in d c) c = None.
Proof.
  unfold B.add_default, B.substitute_in, validate_field. rewrite dict_has_get.
  rewrite dict_get_set_same.
  destruct (dict_get (field_name c) d) as [v|] eqn:Hget.
  - rewrite Hget. destruct (B.fill_category c v) eqn:E; [discriminate|].
    intros _. now apply fill_category_none.
  - rewrite dict_get_set_same. simpl. discriminate.
Qed.

Lemma get_substitute_other (d : dict) (c c' : Category) :
  c <> c' ->
  dict_get (field_name c) (B.substitute_in d c') = dict_get (field_name c) d.
Proof.
  intros Hneq. unfold B.substitute_in. apply dict_get_set_other.
  intros E. now apply Hneq, field_name_inj.
Qed.

Lemma get_fold_notin (cs : list Category) (d : dict) (c : Category) :
  ~ In c cs ->
  dict_get (field_name c) (fold_left B.substitute_in cs d) = dict_get (field_name c) d.
Proof.
  revert d. induction cs as [|c0 cs IH]; intros d Hnotin; [reflexivity|].
  simpl. rewrite IH by (intros Hin; apply Hnotin; now right).
  apply get_substitute_other. intros ->. apply Hnotin. now left.
Qed.

Lemma add_defaults_cons (c : Category) (cs : list Category) (d : dict) :
  B.add_defaults (c :: cs) d
  = match B.add_default d c with
    | Some d' => B.add_defaults cs d'
    | None => None
    end.
Proof. reflexivity. Qed.

Lemma add_defaults_agree (cs : list Category) :
  NoDup cs ->
  forall d,
    match B.add_defaults cs d with
    | Some d' => d' = fold_left B.substitute_in cs d
    | None =>
        exists c, In c cs
                  /\ validate_field (SubCategory := B.SubCategory)
                                    (fold_left B.substitute_in cs d) c = None
    end.
Proof.
  induction 1 as [|c cs Hnotin Hnodup IH]; intros d; [reflexivity|].
  rewrite add_defaults_cons. cbn [fold_left].
  destruct (B.add_default d c) as [d1|] eqn:E.
  - apply add_default_some in E. subst d1.
    specialize (IH (B.substitute_in d c)).
    destruct (B.add_defaults cs (B.substitute_in d c)); [exact IH|].
    destruct IH as (c' & Hin & Hbad). exists c'. split; [now right | exact Hbad].
  - exists c. split; [now left|].
    unfold validate_field. rewrite get_fold_notin by assumption.
    exact (add_default_none _ _ E).
Qed.

Lemma validate_field_none (d : dict) (c : Category) :
  validate_field (SubCategory := B.SubCategory) d c = None ->
  validate (SubCategory := B.SubCategory) (JObj d) = None.
Proof.
  intros Hbad. unfold validate.
  destruct c; rewrite Hbad;
    repeat match goal with
           | |- context [match validate_field ?d0 ?c0 with _ => _ end] =>
               destruct (validate_field d0 c0)
           end; reflexivity.
Qed.

Lemma model_fields_NoDup : NoDup model_fields.
Proof.
  unfold model_fields.
  repeat (constructor; [simpl; intuition discriminate|]). constructor.
Qed.

Lemma validate_after_add_defaults (d : dict) :
  match B.add_defaults model_fields d with
  | Some d' => validate (SubCategory := B.SubCategory) (JObj d')
  | None => None
  end
  = validate (JObj (fold_left B.substitute_in model_fields d)).
Proof.
  pose proof (add_defaults_agree model_fields_NoDup d) as Hagree.
  destruct (B.add_defaults model_fields d) as [d'|].
  - now subst d'.
  - destruct Hagree as (c & _ & Hbad). symmetry. now apply validate_field_none with c.
Qed.

Lemma valid_item_has_subtag (c : Category) (item : json) (it : InsightItem B.SubCategory) :
  validate_item item = Some it -> B.with_default_subtag c item = item.
Proof.
  destruct item; simpl; try discriminate.
  rewrite dict_has_get.
  destruct (dict_get "point" fields) as [[]|]; try discriminate.
  destruct (dict_get "quote" fields) as [[]|]; try discriminate.
  destruct (dict_get "speaker" fields) as [[]|]; try discriminate.
  destruct (dict_get "subcategory" fields) as [[]|]; try discriminate.
  reflexivity.
Qed.

Lemma valid_items_unchanged (c : Category) (items : list json)
    (l : list (InsightItem B.SubCategory)) :
  traverse validate_item items = Some l ->
  map (B.with_default_subtag c) items = items.
Proof.
  revert l. induction items as [|item items IH]; simpl; intros l; [reflexivity|].
  destruct (validate_item item) as [it|] eqn:E; [|discriminate].
  destruct (traverse _ items) as [l'|]; [|discriminate].
  intros _. now rewrite (valid_item_has_subtag c _ E), (IH l').
Qed.

Lemma validate_field_substitute_same (d : dict) (c : Category)
    (l : list (InsightItem B.SubCategory)) :
  validate_field d c = Some l -> validate_field (B.substitute_in d c) c = Some l.
Proof.
  unfold validate_field, B.substitute_in. rewrite dict_get_set_same.
  destruct (dict_get (field_name c) d) as [v|]; [|trivial].
  destruct v; simpl; try discriminate.
  intros Hvalid. now rewrite (valid_items_unchanged c _ Hvalid).
Qed.

Lemma validate_field_fold (cs : list Category) (d : dict) (c : Category)
    (l : list (InsightItem B.SubCategory)) :
  validate_field d c = Some l ->
  validate_field (fold_left B.substitute_in cs d) c = Some l.
Proof.
  revert d. induction cs as [|c0 cs IH]; intros d Hvalid; [exact Hvalid|].
  simpl. apply IH.
  destruct (Category_eq_dec c c0) as [<- | Hneq].
  - now apply validate_field_substitute_same.
  - unfold validate_field in *. now rewrite get_substitute_other.
Qed.

Lemma validate_fold_valid (d : dict) (m : B.Insight) :
  validate (JObj d) = Some m ->
  validate (JObj (fold_left B.substitute_in model_fields d)) = Some m.
Proof.
  unfold validate.
  destruct (validate_field d Tasks) eqn:E1; [|discriminate].
  destruct (validate_field d Decisions) eqn:E2; [|discriminate].
  destruct (validate_field d Questions) eqn:E3; [|discriminate].
  destruct (validate_field d Attendees) eqn:E4; [|discriminate].
  destruct (validate_field d Deadlines) eqn:E5; [|discriminate].
  destruct (validate_field d FollowUps) eqn:E6; [|discriminate].
  destruct (validate_field d Risks) eqn:E7; [|discriminate].
  intros [= <-].
  rewrite (validate_field_fold model_fields _ _ E1), (validate_field_fold model_fields _ _ E2),
    (validate_field_fold model_fields _ _ E3), (validate_field_fold model_fields _ _ E4),
    (validate_field_fold model_fields _ _ E5), (validate_field_fold model_fields _ _ E6),
    (validate_field_fold model_fields _ _ E7).
  reflexivity.
Qed.

(** The code (substitute, then validate once) returns what the procedure
    of the specification (validate, substitute on failure, validate once
    more) returns. *)
(** The code (substitute, then validate once) yields what the procedure
    of the specification (validate, substitute on failure, validate once
    more) yields, and gives up when it gives up. *)
Lemma extraction_refines_spec (rs : list B.completion) :
  B.extraction rs = B.extraction_per_spec (hd_error rs).
Proof.
  destruct rs as [|[reason|reason|result] rs]; try reflexivity.
  cbn [B.extraction B.extraction_per_spec hd_error].
  unfold B.validate_retrying_once.
  destruct result; try reflexivity.
  rewrite validate_after_add_defaults. cbn [B.substitute_defaults].
  destruct (validate (JObj fields)) as [m|] eqn:E; [|reflexivity].
  now rewrite (validate_fold_valid _ E).
Qed.

(** ** A reply that cannot be used *)

(** X21.  Variant A: when the structured call yields no insight, the extractor
    raises, and so does the flow, before any file is written or any line
    read.  Variant B: the guarded block of the extractor yields what the
    procedure of the specification yields (validate; on failure give every
    item lacking a sub-tag the default of its category and every missing
    category the empty list, validate once more).  When that is an insight
    the extractor returns it and reports nothing; when the procedure gives
    up and rich renders the report of the exception, the extractor returns
    the empty insight.  The defaults are the seven written in the code. *)
Theorem extraction_raises_in_A_and_repairs_in_B :
  (forall (transcript : string) (w : World (request A.Insight) A.structured A.Insight),
      A.extraction (replies w) = None ->
      exists e w', A.analyze_transcript transcript w = (Raise e, w'))
  /\ (forall (auto_mode : bool) (name text : string)
             (w : World (request A.Insight) A.structured A.Insight),
        is_empty (strip text) = false ->
        A.extraction (replies w) = None ->
        exists e w',
          A.process_transcript auto_mode name text w = (Raise e, w')
          /\ saves w' = saves w /\ stdin w' = stdin w)
  /\ (forall rs : list B.completion,
        B.extraction rs = B.extraction_per_spec (hd_error rs))
  /\ (forall (transcript : string) (insight : B.Insight)
             (w : World (request B.Insight) B.completion B.Insight),
        B.extraction_per_spec (hd_error (replies w)) = Some insight ->
        B.analyze_transcript transcript w
        = (Ok insight,
           mkWorld (stdin w) (tl (replies w)) (Call (AnalyzeRequest transcript) :: trace w)))
  /\ (forall (transcript : string) (w : World (request B.Insight) B.completion B.Insight),
        B.extraction_per_spec (hd_error (replies w)) = None ->
        renders ("[red]Error in analyze_transcript: "
                 ++ describe (B.extraction_failure (replies w)) ++ "[/red]") = true ->
        B.analyze_transcript transcript w
        = (Ok (mkInsight [] [] [] [] [] [] []),
           mkWorld (stdin w) (tl (replies w))
             (Say ("[red]Error in analyze_transcript: "
                   ++ describe (B.extraction_failure (replies w)) ++ "[/red]")
              :: Call (AnalyzeRequest transcript) :: trace w)))
  /\ map B.default_subcategory model_fields
     = ["proposed"; "approved"; "asked"; "named"; "immediate"; "meetings"; "technical"]
  /\ map B.default_tag model_fields
     = [B.PROPOSED; B.APPROVED; B.ASKED; B.NAMED; B.IMMEDIATE; B.MEETINGS; B.TECHNICAL].
Proof.
  split; [|split; [|split; [|split; [|split; [|split; reflexivity]]]]].
  - intros transcript w Hnone. rewrite A_analyze_transcript_eq.
    unfold A.Insight in *. rewrite Hnone. eauto.
  - intros auto_mode name text w Hne Hnone.
    rewrite (A_process_transcript_failure auto_mode name text w Hne Hnone).
    eexists _, _. split; [reflexivity|].
    now rewrite reported_saves, reported_stdin.
  - exact extraction_refines_spec.
  - intros transcript insight w Hsome. rewrite <- extraction_refines_spec in Hsome.
    rewrite B_analyze_transcript_eq. unfold B.Insight in *. now rewrite Hsome.
  - intros transcript w Hnone R. rewrite <- extraction_refines_spec in Hnone.
    rewrite B_analyze_transcript_eq. unfold B.Insight in *. rewrite Hnone.
    rewrite (reported_rendered _ _ _ R). unfold error_report. now rewrite R.
Qed.

(** ** Sub-tags and the sequences that hold them *)

Lemma default_subcategory_member (c : Category) :
  member_of_value (B.default_subcategory c) = Some (B.default_tag c)
  /\ In (B.default_tag c) (B.SubCategory_tags c).
Proof. destruct c; split; simpl; auto. Qed.

Lemma default_subcategory_valid (c : Category) (d : dict) (p q s : string) :
  dict_has "subcategory" d = false ->
  dict_get "point" d = Some (JStr p) ->
  dict_get "quote" d = Some (JStr q) ->
  dict_get "speaker" d = Some (JStr s) ->
  exists item',
    B.fill_subcategory c (JObj d) = Some item'
    /\ validate_item item' = Some (mkItem p q s (B.default_tag c))
    /\ tag_valid_for c (mkItem p q s (B.default_tag c)) = true.
Proof.
  intros Hmissing Hp Hq Hs. eexists. cbn [B.fill_subcategory]. rewrite Hmissing.
  split; [reflexivity|]. split.
  - cbn [validate_item]. rewrite dict_get_set_same.
    rewrite !dict_get_set_other by discriminate. rewrite Hp, Hq, Hs.
    now rewrite (proj1 (default_subcategory_member c)).
  - now destruct c.
Qed.

Section ManualTags.

Context {SubCategory : Type} `{SubCategoryEnum SubCategory} {Rep : Type}.

Lemma manual_entry_all_proposed (wording : Wording) (groups : Category -> list string)
    (rest : list string)
    (w : World (request (MeetingInsight SubCategory)) Rep (MeetingInsight SubCategory)) :
  tag_eqb proposed proposed = true ->
  (forall c, nonempty_lines (groups c) = true) ->
  stdin w = (typed groups ++ rest)%list ->
  exists m w',
    _handle_manual_entry wording w = (Ok m, w')
    /\ all_tagged proposed m = true.
Proof.
  intros Hrefl Hne Hin.
  destruct (manual_entry_returns wording groups rest w Hne Hin) as (m & w' & E & _ & _ & Hget).
  exists m, w'. split; [exact E|].
  unfold all_tagged. apply forallb_forall. intros c _. rewrite Hget.
  apply forallb_forall. intros item Hitem.
  apply in_map_iff in Hitem as (line & <- & _). exact Hrefl.
Qed.

End ManualTags.

(** C8, as amended.  The repair of variant B gives an item that lacks its
    sub-tag the default of the sequence that holds it: "proposed" for the
    tasks, "approved" for the decisions, "asked" for the questions, "named"
    for the attendees, "immediate" for the deadlines, "meetings" for the
    follow-ups, "technical" for the risks.  Each default is the text of a
    sub-tag listed for its sequence, so the repaired item validates and
    carries a sub-tag of its sequence.  Manual entry, in both variants,
    gives every item the sub-tag "proposed", whatever the sequence;
    "proposed" is listed for the tasks. *)
Theorem repair_tags_by_category_manual_entry_tags_proposed :
  map B.default_subcategory model_fields
  = ["proposed"; "approved"; "asked"; "named"; "immediate"; "meetings"; "technical"]
  /\ (forall c : Category,
        exists tag,
          member_of_value (B.default_subcategory c) = Some tag
          /\ In tag (B.SubCategory_tags c))
  /\ (forall (c : Category) (d : dict) (p q s : string),
        dict_has "subcategory" d = false ->
        dict_get "point" d = Some (JStr p) ->
        dict_get "quote" d = Some (JStr q) ->
        dict_get "speaker" d = Some (JStr s) ->
        exists item' tag,
          B.fill_subcategory c (JObj d) = Some item'
          /\ validate_item item' = Some (mkItem p q s tag)
          /\ B.SubCategory_value tag = B.default_subcategory c
          /\ In tag (B.SubCategory_tags c)
          /\ tag_valid_for c (mkItem p q s tag) = true)
  /\ (forall (groups : Category -> list string) (rest : list string)
             (w : World (request A.Insight) A.structured A.Insight),
        (forall c, nonempty_lines (groups c) = true) ->
        stdin w = (typed groups ++ rest)%list ->
        exists m w',
          A._handle_manual_entry w = (Ok m, w')
          /\ all_tagged A.PROPOSED m = true)
  /\ (forall (groups : Category -> list string) (rest : list string)
             (w : World (request B.Insight) B.completion B.Insight),
        (forall c, nonempty_lines (groups c) = true) ->
        stdin w = (typed groups ++ rest)%list ->
        exists m w',
          B._handle_manual_entry w = (Ok m, w')
          /\ all_tagged B.PROPOSED m = true)
  /\ In A.PROPOSED (A.SubCategory_tags Tasks)
  /\ In B.PROPOSED (B.SubCategory_tags Tasks).
Proof.
  split; [reflexivity|].
  split; [intros c; exists (B.default_tag c); apply default_subcategory_member|].
  split; [|split; [|split; [|split; simpl; auto]]].
  - intros c d p q s Hmissing Hp Hq Hs.
    destruct (default_subcategory_valid c d Hmissing Hp Hq Hs) as (item' & E & Hv & Ht).
    exists item', (B.default_tag c).
    split; [exact E|]. split; [exact Hv|]. split; [apply default_tag_value|].
    split; [apply default_subcategory_member | exact Ht].
  - intros groups rest w Hne Hin.
    destruct (@manual_entry_all_proposed _ A.SubCategory_enum _ A.wording groups rest w
                eq_refl Hne Hin)
      as (m & w' & E & Hall).
    exists m, w'. split; [exact E | exact Hall].
  - intros groups rest w Hne Hin.
    destruct (@manual_entry_all_proposed _ B.SubCategory_enum _ B.wording groups rest w
                eq_refl Hne Hin)
      as (m & w' & E & Hall).
    exists m, w'. split; [exact E | exact Hall].
Qed.

(** ** The research loop *)

Section Steady.

Context {Req Rep Val : Type}.

#[local] Abbreviation Comp := (M Req Rep Val).

Lemma extends_refl (w : World Req Rep Val) : extends w w.
Proof. split; [now exists [] | reflexivity]. Qed.

Lemma extends_trans (w1 w2 w3 : World Req Rep Val) :
  extends w1 w2 -> extends w2 w3 -> extends w1 w3.
Proof.
  intros [(l1 & E1) L1] [(l2 & E2) L2]. split; [|lia].
  exists (l2 ++ l1)%list. now rewrite E2, E1, List.app_assoc.
Qed.

Lemma steady_ret {A} (a : A) : steady (ret a : Comp A).
Proof. intros w r w' [= _ <-]. apply extends_refl. Qed.

Lemma steady_raise {A} (e : exn) : steady (raise e : Comp A).
Proof. intros w r w' [= _ <-]. apply extends_refl. Qed.

Lemma steady_log (e : event Req Val) : steady (log e : Comp unit).
Proof. intros w r w' [= _ <-]. split; [now exists [e] | reflexivity]. Qed.

Lemma steady_say (text : string) : steady (say text : Comp unit).
Proof. apply steady_log. Qed.

Lemma steady_write_text (dir file content : string) :
  steady (write_text dir file content : Comp unit).
Proof. apply steady_log. Qed.

Lemma steady_print (text : string) : steady (print text : Comp unit).
Proof.
  intros w r w'. unfold print. destruct (renders text); intros [= _ <-].
  - split; [now exists [Say text] | reflexivity].
  - apply extends_refl.
Qed.

Lemma steady_write_file (dir file content : string) :
  steady (write_file dir file content : Comp unit).
Proof.
  intros w r w'. unfold write_file. destruct (writable dir file); intros [= _ <-].
  - split; [now exists [Save dir file content] | reflexivity].
  - apply extends_refl.
Qed.

Lemma steady_ask (prompt : string) : steady (ask prompt : Comp string).
Proof.
  intros w r w'. unfold ask. destruct (stdin w) as [|line rest] eqn:E; intros [= _ <-].
  - split; [now exists [Ask prompt] | simpl; lia].
  - split; [now exists [Ask prompt] | simpl; rewrite E; simpl; lia].
Qed.

Lemma steady_call (request : Req) : steady (call request : Comp Rep).
Proof.
  intros w r w'. unfold call. destruct (replies w); intros [= _ <-];
    (split; [now exists [Call request] | reflexivity]).
Qed.

Lemma steady_bind {A B} (m : Comp A) (k : A -> Comp B) :
  steady m -> (forall a, steady (k a)) -> steady (bind m k).
Proof.
  intros Hm Hk w r w'. unfold bind.
  destruct (m w) as [[a|e] w1] eqn:E.
  - intros Hrun. eapply extends_trans; [eapply Hm, E | eapply Hk, Hrun].
  - intros [= _ <-]. eapply Hm, E.
Qed.

Lemma steady_try_except {A} (body : Comp A) (handler : exn -> Comp A) :
  steady body -> (forall e, steady (handler e)) -> steady (try_except body handler).
Proof.
  intros Hb Hh w r w'. unfold try_except.
  destruct (body w) as [[a|e] w1] eqn:E.
  - intros [= _ <-]. eapply Hb, E.
  - intros Hrun. eapply extends_trans; [eapply Hb, E | eapply Hh, Hrun].
Qed.

End Steady.

Ltac steady_step :=
  first
    [ apply steady_ret | apply steady_raise | apply steady_say | apply steady_log
    | apply steady_write_text | apply steady_print | apply steady_write_file
    | apply steady_ask | apply steady_call
    | apply steady_bind; [|intros ?]
    | apply steady_try_except; [|intros ?]
    | match goal with
      | |- steady (if ?b then _ else _) => destruct b
      | |- steady (match ?x with _ => _ end) => destruct x
      | |- steady (let x := ?v in _) => cbv zeta
      end ].

Ltac steady := repeat steady_step.

Lemma steady_run_tools (deps : Research.SearchDataclass) (tcs : list Research.tool_call) :
  steady (Research.run_tools deps tcs).
Proof.
  induction tcs as [|tc tcs IH]; cbn [Research.run_tools]; [steady|].
  apply steady_bind; [|intros _; exact IH].
  unfold Research.get_search. steady.
Qed.

Lemma steady_agent_run (query : string) (deps : Research.SearchDataclass) :
  steady (Research.agent_run query deps).
Proof.
  unfold Research.agent_run.
  apply steady_bind; [steady|]. intros script.
  apply steady_bind; [apply steady_run_tools|]. intros _. steady.
Qed.

Lemma isspace_lower_not_q (c : ascii) :
  isspace c = true -> Ascii.eqb (lower_char c) "q"%char = false.
Proof.
  destruct c as [[] [] [] [] [] [] [] []]; vm_compute; intros E;
    (reflexivity || discriminate E).
Qed.

Lemma blank_is_not_quit (query : string) :
  blank query = true -> String.eqb (lower query) "q" = false.
Proof.
  destruct query as [|c query]; [reflexivity|].
  simpl. intros Hblank. apply andb_prop in Hblank as [Hc _].
  now rewrite (isspace_lower_not_q _ Hc).
Qed.

(** A turn on a blank query: the prompt, the message, and round again. *)
(** A turn on a blank query: the prompt, the message, and round again. *)
Lemma turn_on_blank_query (today query : string) (rest : list string)
    (w : World Research.remote Research.agent_script unit) :
  blank query = true ->
  stdin w = query :: rest ->
  Research.turn today w
  = (Ok true,
     mkWorld rest (replies w)
             (Say Research.invalid_query :: Ask Research.query_prompt :: trace w)).
Proof.
  intros Hblank Hin. unfold Research.turn, bind at 1. unfold ask. rewrite Hin.
  rewrite (blank_is_not_quit _ Hblank).
  apply strip_empty_iff_blank in Hblank. rewrite Hblank. reflexivity.
Qed.

(** Every turn shows the prompt first, and a turn that goes round again has
    read at least one line. *)
Lemma turn_progress (today : string) (w : World Research.remote Research.agent_script unit)
    (r : outcome bool) (w' : World Research.remote Research.agent_script unit) :
  Research.turn today w = (r, w') ->
  (exists later, trace w' = (later ++ Ask Research.query_prompt :: trace w)%list)
  /\ (r = Ok true -> List.length (stdin w') < List.length (stdin w)).
Proof.
  unfold Research.turn, bind at 1. unfold ask.
  destruct (stdin w) as [|query rest] eqn:Hin.
  - intros [= <- <-]. split; [now exists [] | discriminate].
  - match goal with |- ?k ?w1 = _ -> _ => assert (Hk : steady k) end.
    { repeat first [apply steady_agent_run | steady_step]. }
    intros Hrun. apply Hk in Hrun as [(later & E) L]. cbn [trace stdin] in *.
    split; [now exists later | intros _; simpl; lia].
Qed.

(** C10.  When the line typed at the query prompt, at any turn of the
    loop, is empty or made of whitespace only, the turn shows the prompt,
    reads the line, prints "Please enter a valid query." and nothing else:
    no agent run, no search, no reply of the model consumed.  The loop goes
    on from the world where only that line has been read, and the next turn
    begins by showing the query prompt again.  So it is for the first line
    typed to [main]. *)
Theorem blank_query_is_refused_and_asked_again
    (today query : string) (rest : list string)
    (w : World Research.remote Research.agent_script unit) :
  blank query = true ->
  stdin w = query :: rest ->
  let prompt :=
    nl ++ "[bold yellow]Enter your research query (or 'q' to quit): [/bold yellow]" in
  let refused :=
    mkWorld rest (replies w)
      (Say "[red]Please enter a valid query.[/red]" :: Ask prompt :: trace w) in
  Research.turn today w = (Ok true, refused)
  /\ (forall turns, Research.loop today (S turns) w = Research.loop today turns refused)
  /\ calls refused = calls w
  /\ replies refused = replies w
  /\ (forall r w',
        Research.turn today refused = (r, w') ->
        exists later, trace w' = (later ++ Ask prompt :: trace refused)%list)
  /\ Research.main today w
     = Research.loop today (S (List.length rest))
         (mkWorld rest (replies w)
            (Say "[red]Please enter a valid query.[/red]"
             :: Ask prompt
             :: Banner "[bold green]Research Assistant[/bold green]"
             :: trace w)).
Proof.
  intros Hblank Hin prompt refused.
  assert (Hturn : Research.turn today w = (Ok true, refused))
    by exact (turn_on_blank_query today w Hblank Hin).
  split; [exact Hturn|]. split; [|split; [reflexivity|split; [reflexivity|split]]].
  - intros turns. cbn [Research.loop]. now rewrite Hturn.
  - intros r w' Hrun. exact (proj1 (turn_progress _ _ Hrun)).
  - unfold Research.main, banner, log. cbn [record stdin].
    rewrite Hin. cbn [List.length Research.loop].
    erewrite turn_on_blank_query; [reflexivity | exact Hblank | exact Hin].
Qed.

(** ** The result of a research run *)

Lemma agent_run_result (query : string) (deps : Research.SearchDataclass)
    (w : World Research.remote Research.agent_script unit)
    (data : Research.ResearchResult)
    (w' : World Research.remote Research.agent_script unit) :
  Research.agent_run query deps w = (Ok data, w') ->
  exists script rs j,
    replies w = script :: rs
    /\ Research.answer script = Some j
    /\ Research.validate_result j = Some data.
Proof.
  unfold Research.agent_run, call, bind.
  destruct (replies w) as [|script rs]; [discriminate|].
  destruct (Research.run_tools deps (Research.tool_calls script) _) as [[[]|e] w1];
    [|discriminate].
  destruct (Research.answer script) as [j|] eqn:Ha; [|discriminate].
  destruct (Research.validate_result j) as [data'|] eqn:Hv; [|discriminate].
  intros [= <- _]. now exists script, rs, j.
Qed.

(** C9, as amended.  The result of a successful run comes from a
    structured answer in which [research_title] is present and is text, and
    an answer without that field is refused; the text itself is not
    constrained: an answer whose title is the empty text is accepted. *)
Theorem research_title_is_required_but_may_be_empty :
  (forall (query : string) (deps : Research.SearchDataclass)
          (w w' : World Research.remote Research.agent_script unit)
          (data : Research.ResearchResult),
      Research.agent_run query deps w = (Ok data, w') ->
      exists script rs d,
        replies w = script :: rs
        /\ Research.answer script = Some (JObj d)
        /\ dict_get "research_title" d = Some (JStr (Research.research_title data)))
  /\ (forall d : dict,
        dict_get "research_title" d = None ->
        Research.validate_result (JObj d) = None)
  /\ (forall main bullets : string,
        Research.validate_result
          (JObj [ ("research_title", JStr EmptyString);
                  ("research_main", JStr main);
                  ("research_bullets", JStr bullets) ])
        = Some (Research.mkResult EmptyString main bullets)).
Proof.
  repeat split.
  - intros query deps w w' data Hrun.
    destruct (agent_run_result _ _ _ Hrun) as (script & rs & j & Hrs & Ha & Hv).
    destruct j; try discriminate Hv. simpl in Hv.
    destruct (dict_get "research_title" fields) as [[]|] eqn:Ht; try discriminate Hv.
    destruct (dict_get "research_main" fields) as [[]|]; try discriminate Hv.
    destruct (dict_get "research_bullets" fields) as [[]|]; try discriminate Hv.
    injection Hv as <-. now exists script, rs, fields.
  - intros d Hmissing. simpl. now rewrite Hmissing.
Qed.
(* ================================================================= *)
(** * Further properties of the code *)

(** ** Words and whitespace *)

Lemma is_word_cons (c : ascii) (w : string) :
  is_word (String c w) = negb (isspace c) && nospace w.
Proof. reflexivity. Qed.

Lemma nospace_starts_word (w : string) :
  is_word w = true -> starts_word w = true.
Proof.
  destruct w as [|c w]; [discriminate|]. rewrite is_word_cons.
  intros Hw. apply andb_prop in Hw as [Hc _]. exact Hc.
Qed.

Lemma words_are_words (s : string) :
  Forall (fun w => is_word w = true) (words s).
Proof.
  induction s as [|c s IH]; cbn [words]; [constructor|].
  destruct (isspace c) eqn:Hc; [exact IH|].
  destruct (starts_word s).
  - destruct (words s) as [|w ws].
    + constructor; [|constructor]. rewrite is_word_cons, Hc. reflexivity.
    + inversion IH as [|? ? Hw Hws]; subst. constructor; [|exact Hws].
      rewrite is_word_cons, Hc. unfold is_word in Hw.
      now apply andb_prop in Hw as [_ ->].
  - constructor; [|exact IH]. rewrite is_word_cons, Hc. reflexivity.
Qed.

Lemma words_word_then_space (w rest : string) :
  is_word w = true -> words (w ++ " " ++ rest) = w :: words rest.
Proof.
  induction w as [|c w IH]; [discriminate|].
  rewrite is_word_cons. intros Hw. apply andb_prop in Hw as [Hc Hw].
  apply negb_true_iff in Hc.
  change ((String c w) ++ " " ++ rest) with (String c (w ++ " " ++ rest)).
  cbn [words]. rewrite Hc.
  destruct w as [|c' w].
  - reflexivity.
  - assert (Hword : is_word (String c' w) = true) by exact Hw.
    rewrite (IH Hword).
    change (starts_word (String c' w ++ " " ++ rest)) with (negb (isspace c')).
    simpl in Hw. apply andb_prop in Hw as [-> _]. reflexivity.
Qed.

Lemma words_word (w : string) : is_word w = true -> words w = [w].
Proof.
  induction w as [|c w IH]; [discriminate|].
  rewrite is_word_cons. intros Hw. apply andb_prop in Hw as [Hc Hw].
  apply negb_true_iff in Hc. cbn [words]. rewrite Hc.
  destruct w as [|c' w]; [reflexivity|].
  assert (Hword : is_word (String c' w) = true) by exact Hw.
  rewrite (IH Hword), (nospace_starts_word _ Hword). reflexivity.
Qed.

(** Splitting what was joined with single spaces gives the words back. *)
Lemma words_join (ws : list string) :
  Forall (fun w => is_word w = true) ws -> words (join " " ws) = ws.
Proof.
  induction ws as [|w ws IH]; intros Hws; [reflexivity|].
  inversion Hws as [|? ? Hw Hrest]; subst.
  destruct ws as [|w2 ws]; [now apply words_word|].
  rewrite join_cons, words_word_then_space by assumption.
  now rewrite IH.
Qed.

Lemma nochar_append (c : ascii) (a b : string) :
  nochar c (a ++ b) = nochar c a && nochar c b.
Proof.
  induction a as [|x a IH]; simpl; [reflexivity|]. now rewrite IH, andb_assoc.
Qed.

Lemma nospace_no_newline (w : string) : nospace w = true -> nochar "010"%char w = true.
Proof.
  induction w as [|c w IH]; simpl; [reflexivity|].
  intros Hw. apply andb_prop in Hw as [Hc Hw]. rewrite (IH Hw), andb_true_r.
  destruct (Ascii.eqb c "010"%char) eqn:E; [|reflexivity].
  apply Ascii.eqb_eq in E. subst c. discriminate Hc.
Qed.

Lemma join_words_no_newline (ws : list string) :
  Forall (fun w => is_word w = true) ws -> nochar "010"%char (join " " ws) = true.
Proof.
  induction ws as [|w ws IH]; intros Hws; [reflexivity|].
  inversion Hws as [|? ? Hw Hrest]; subst.
  unfold is_word in Hw. apply andb_prop in Hw as [_ Hw].
  destruct ws as [|w2 ws]; [now apply nospace_no_newline|].
  rewrite join_cons, !nochar_append, (nospace_no_newline _ Hw), (IH Hrest).
  reflexivity.
Qed.

Lemma split_on_absent (c : ascii) (s : string) :
  nochar c s = true -> split_on c s = [s].
Proof.
  induction s as [|x s IH]; simpl; [reflexivity|].
  intros H. apply andb_prop in H as [Hx Hs]. apply negb_true_iff in Hx.
  now rewrite Hx, (IH Hs).
Qed.

Lemma lstrip_starts_word (s : string) : starts_word s = true -> lstrip s = s.
Proof.
  destruct s as [|c s]; [discriminate|]. simpl.
  intros Hc. apply negb_true_iff in Hc. now rewrite Hc.
Qed.

Lemma rstrip_nospace (w : string) : nospace w = true -> rstrip w = w.
Proof.
  induction w as [|c w IH]; simpl; [reflexivity|].
  intros Hw. apply andb_prop in Hw as [Hc Hw]. apply negb_true_iff in Hc.
  rewrite (IH Hw), Hc. now destruct w.
Qed.

Lemma rstrip_append (a b : string) :
  rstrip b <> EmptyString -> rstrip (a ++ b) = a ++ rstrip b.
Proof.
  intros Hb. induction a as [|c a IH]; [reflexivity|].
  change (String c a ++ b) with (String c (a ++ b)). cbn [rstrip]. rewrite IH.
  destruct (a ++ rstrip b) eqn:E; [|simpl; now rewrite E].
  destruct a; [now simpl in E | discriminate E].
Qed.

Lemma join_words_not_empty (w : string) (ws : list string) :
  is_word w = true -> join " " (w :: ws) <> EmptyString.
Proof.
  destruct w as [|c w]; [discriminate|]. intros _.
  destruct ws; simpl; discriminate.
Qed.

Lemma rstrip_join_words (ws : list string) :
  Forall (fun w => is_word w = true) ws -> rstrip (join " " ws) = join " " ws.
Proof.
  induction ws as [|w ws IH]; intros Hws; [reflexivity|].
  inversion Hws as [|? ? Hw Hrest]; subst.
  destruct ws as [|w2 ws].
  - unfold is_word in Hw. apply andb_prop in Hw as [_ Hw]. now apply rstrip_nospace.
  - rewrite join_cons.
    assert (Hne : rstrip (" " ++ join " " (w2 :: ws)) <> EmptyString).
    { inversion Hrest as [|? ? Hw2 _]; subst.
      rewrite rstrip_append; rewrite (IH Hrest).
      - discriminate.
      - now apply join_words_not_empty. }
    rewrite rstrip_append by exact Hne.
    rewrite rstrip_append; rewrite (IH Hrest); [reflexivity|].
    inversion Hrest; subst. now apply join_words_not_empty.
Qed.

Lemma strip_join_words (ws : list string) :
  Forall (fun w => is_word w = true) ws -> strip (join " " ws) = join " " ws.
Proof.
  intros Hws. unfold strip. destruct ws as [|w ws]; [reflexivity|].
  rewrite lstrip_starts_word; [now apply rstrip_join_words|].
  inversion Hws as [|? ? Hw _]; subst.
  destruct w as [|c w]; [discriminate|].
  rewrite is_word_cons in Hw. apply andb_prop in Hw as [Hc _].
  destruct ws; exact Hc.
Qed.

Lemma collapse_whitespace_idempotent (text : string) :
  B.collapse_whitespace (B.collapse_whitespace text) = B.collapse_whitespace text.
Proof.
  unfold B.collapse_whitespace. now rewrite words_join by apply words_are_words.
Qed.

(** ** Preprocessing of a transcript (variant B) *)

Lemma preprocess_unfolded (transcript : string) :
  B._preprocess_transcript transcript
  = if B.is_timestamp_line (B.collapse_whitespace transcript)
    then EmptyString
    else B.collapse_whitespace transcript.
Proof.
  unfold B._preprocess_transcript.
  pose proof (words_are_words transcript) as Hws.
  set (text := B.collapse_whitespace transcript).
  assert (Hsplit : split_on "010"%char text = [text]).
  { apply split_on_absent. now apply join_words_no_newline. }
  assert (Hstrip : strip text = text) by now apply strip_join_words.
  assert (Hidem : B.collapse_whitespace text = text)
    by apply collapse_whitespace_idempotent.
  rewrite Hsplit. cbn [flat_map]. rewrite app_nil_r. unfold B.format_line.
  destruct (B.is_timestamp_line text); [reflexivity|].
  rewrite Hstrip.
  destruct (String.prefix "Speaker" text || contains "Today" text);
    cbn [join String.concat]; [|exact Hidem].
  unfold B.collapse_whitespace at 1.
  change (words (nl ++ text)) with (words text). exact Hidem.
Qed.

(** X1.  [_preprocess_transcript] returns the transcript with every run
    of whitespace collapsed to one space, unless that text is shorter than
    20 characters and contains "am", "pm" or ":" in any letter case, in
    which case it returns the empty text.  Collapsing removes every line
    break first, so the loop sees a single line, and the line break put
    before a speaker line is collapsed away again. *)
Theorem preprocess_collapses_or_erases (transcript : string) :
  let text := B.collapse_whitespace transcript in
  let marked :=
    contains "am" (lower text) || contains "pm" (lower text)
    || contains ":" (lower text) in
  (marked = true -> String.length text < 20 ->
   B._preprocess_transcript transcript = EmptyString)
  /\ (marked = false \/ 20 <= String.length text ->
      B._preprocess_transcript transcript = text
      /\ nochar "010"%char (B._preprocess_transcript transcript) = true).
Proof.
  intros text marked. rewrite preprocess_unfolded. fold text.
  assert (Htest : B.is_timestamp_line text
                  = marked && (String.length text <? 20)%nat).
  { unfold B.is_timestamp_line, marked. cbn [existsb]. now rewrite orb_false_r, orb_assoc. }
  rewrite Htest. split.
  - intros -> Hshort. apply Nat.ltb_lt in Hshort. now rewrite Hshort.
  - intros Hkeep.
    assert (E : marked && (String.length text <? 20)%nat = false).
    { destruct Hkeep as [-> | Hlong]; [reflexivity|].
      apply Nat.ltb_ge in Hlong. rewrite Hlong. apply andb_false_r. }
    rewrite E. split; [reflexivity|].
    apply join_words_no_newline, words_are_words.
Qed.



(** X2.  Preprocessing twice is preprocessing once, and what it returns has
    no whitespace to collapse: words separated by single spaces, nothing
    before the first or after the last. *)
Theorem preprocess_is_idempotent (transcript : string) :
  B._preprocess_transcript (B._preprocess_transcript transcript)
  = B._preprocess_transcript transcript
  /\ B.collapse_whitespace (B._preprocess_transcript transcript)
     = B._preprocess_transcript transcript
  /\ strip (B._preprocess_transcript transcript) = B._preprocess_transcript transcript.
Proof.
  rewrite (preprocess_unfolded (B._preprocess_transcript transcript)).
  rewrite !preprocess_unfolded.
  destruct (B.is_timestamp_line (B.collapse_whitespace transcript)) eqn:E.
  - split; [reflexivity | split; reflexivity].
  - rewrite collapse_whitespace_idempotent, E.
    split; [reflexivity | split; [reflexivity|]].
    apply strip_join_words, words_are_words.
Qed.


(** ** Manual entry and the end of the input *)

Section ManualEntryInput.

Context {SubCategory : Type} `{SubCategoryEnum SubCategory} {Rep : Type}.

#[local] Abbreviation Item := (InsightItem SubCategory).
#[local] Abbreviation Insight := (MeetingInsight SubCategory).
#[local] Abbreviation State := (World (request Insight) Rep Insight).

Variable wording : Wording.

Lemma read_items_outcome (lines : list string)
    (tr : list (event (request Insight) Insight)) (items : list Item) :
  match read_items lines tr items with
  | (Ok _, rest, _) => S (empty_line_count rest) = empty_line_count lines
  | (Raise e, rest, _) => e = EOFError /\ rest = [] /\ empty_line_count lines = 0
  end.
Proof.
  revert tr items. induction lines as [|line lines IH]; intros tr items.
  - simpl. auto.
  - cbn [read_items]. unfold empty_line_count. cbn [filter].
    destruct (is_empty line); [reflexivity|]. apply IH.
Qed.

Lemma enter_fields_outcome (fields : list Category) :
  forall (insight : Insight) (w : State),
    match enter_fields wording fields insight w with
    | (Ok _, w') =>
        List.length fields + empty_line_count (stdin w') = empty_line_count (stdin w)
    | (Raise e, w') =>
        e = EOFError /\ stdin w' = []
        /\ empty_line_count (stdin w) < List.length fields
    end.
Proof.
  induction fields as [|c fields IH]; intros insight w; [reflexivity|].
  cbn [enter_fields]. unfold bind at 1. unfold say, log. unfold bind at 1.
  unfold enter_items. cbn [record stdin trace replies].
  pose proof (read_items_outcome (stdin w) (Say (manual_field wording (field_name c)) :: trace w) [])
    as Hread.
  destruct (read_items _ _ _) as [[[items|e] rest] tr].
  - match goal with |- context [enter_fields _ _ ?i ?w1] => specialize (IH i w1) end.
    destruct (enter_fields _ _ _ _) as [[m|e] w'']; cbn [stdin List.length] in *.
    + lia.
    + destruct IH as (-> & -> & Hlt). repeat split. lia.
  - destruct Hread as (-> & -> & Hzero). cbn [stdin List.length]. repeat split. lia.
Qed.

(** X3.  Manual entry returns an insight exactly when at least seven empty
    lines are typed, one to close each category.  With fewer, it reads
    every line that is left and raises [EOFError]: what was typed is lost. *)
Theorem manual_entry_needs_seven_empty_lines (w : State) :
  (7 <= empty_line_count (stdin w) ->
   exists m w',
     _handle_manual_entry wording w = (Ok m, w')
     /\ 7 + empty_line_count (stdin w') = empty_line_count (stdin w))
  /\ (empty_line_count (stdin w) < 7 ->
      exists w',
        _handle_manual_entry wording w = (Raise EOFError, w')
        /\ stdin w' = []).
Proof.
  unfold _handle_manual_entry, bind, say, log.
  match goal with |- context [enter_fields _ _ ?i ?w1] =>
    pose proof (enter_fields_outcome model_fields i w1) as Hout
  end.
  destruct (enter_fields _ _ _ _) as [[m|e] w']; cbn [record stdin List.length model_fields] in *.
  - split; intros Hcount; [now exists m, w' | lia].
  - destruct Hout as (-> & Hrest & Hlt). split; intros Hcount; [lia | now exists w'].
Qed.

End ManualEntryInput.

(** ** The flow of variant A as a whole *)

Section EmptyMenu.

Context {SubCategory : Type} `{SubCategoryEnum SubCategory} {Rep : Type}.

#[local] Abbreviation Insight := (MeetingInsight SubCategory).
#[local] Abbreviation Comp := (M (request Insight) Rep Insight).
#[local] Abbreviation State := (World (request Insight) Rep Insight).

Variable wording : Wording.
Variable improve_insights : Insight -> string -> string -> Comp Insight.

Lemma human_review_empty_feedback (insight : Insight) (transcript name feedback : string)
    (rest : list string) (w : State) :
  no_insights insight = true ->
  stdin w = "1" :: feedback :: rest ->
  _handle_human_review wording improve_insights insight transcript name w
  = _handle_iteration wording improve_insights insight feedback transcript name
      (mkWorld rest (replies w)
         (Ask EmptyString :: Say (empty_feedback wording)
          :: trace (chosen wording insight (feedback :: rest) w))).
Proof.
  intros He Hin.
  unfold _handle_human_review, _handle_empty_insights, ask. run. cbn.
  rewrite He. cbn. rewrite Hin. reflexivity.
Qed.

Lemma human_review_end_of_input (insight : Insight) (transcript name : string) (w : State) :
  stdin w = [] ->
  exists w',
    _handle_human_review wording improve_insights insight transcript name w
    = (Raise EOFError, w')
    /\ saves w' = saves w /\ calls w' = calls w.
Proof.
  intros Hin.
  unfold _handle_human_review, _handle_empty_insights, ask. run. cbn.
  destruct (no_insights insight); cbn; rewrite Hin; eexists; (split; [reflexivity|]); auto.
Qed.

Lemma no_insights_empty (insight : Insight) :
  no_insights insight = true -> insight = empty_insight.
Proof.
  destruct insight as [t d q a dl f r]. unfold no_insights. cbn.
  destruct t, d, q, a, dl, f, r; try discriminate. reflexivity.
Qed.

End EmptyMenu.

(** What an event adds to the calls, the file writes and the prompts. *)
Lemma saves_record {Req Rep Val : Type} (e : event Req Val) (w : World Req Rep Val) :
  saves (record e w) = if is_save e then e :: saves w else saves w.
Proof. reflexivity. Qed.

Lemma calls_record {Req Rep Val : Type} (e : event Req Val) (w : World Req Rep Val) :
  calls (record e w) = if is_call e then e :: calls w else calls w.
Proof. reflexivity. Qed.

Lemma asks_record {Req Rep Val : Type} (e : event Req Val) (w : World Req Rep Val) :
  asks (record e w) = if is_ask e then e :: asks w else asks w.
Proof. reflexivity. Qed.

(** X4.  With [auto_mode] on, variant A never prompts and reads no line.
    It calls the completion service once, on the stripped transcript.  When
    the call yields an insight, that insight is returned and written twice,
    as [1_analysis.md] and as [2_final_output.md], with the same content;
    when it raises, the flow raises and nothing is written. *)
Theorem auto_mode_never_prompts (name text : string)
    (w : World (request A.Insight) A.structured A.Insight) :
  is_empty (strip text) = false ->
  exists r w',
    A.process_transcript true name text w = (r, w')
    /\ stdin w' = stdin w
    /\ asks w' = asks w
    /\ calls w' = Call (AnalyzeRequest (strip text)) :: calls w
    /\ match A.extraction (replies w) with
       | Some analysed =>
           r = Ok analysed
           /\ saves w'
              = Save ("output/" ++ name) "2_final_output.md" (to_markdown analysed)
                :: Save ("output/" ++ name) "1_analysis.md" (to_markdown analysed)
                :: saves w
       | None => (exists e, r = Raise e) /\ saves w' = saves w
       end.
Proof.
  intros Hne.
  destruct (A.extraction (replies w)) as [analysed|] eqn:Hx.
  - assert (Hrs : exists rs, replies w = A.Structured analysed :: rs).
    { unfold A.extraction, A.refinement, A.Insight in *.
      destruct (replies w) as [|[insight|e] rs]; try discriminate.
      injection Hx as ->. now exists rs. }
    destruct Hrs as (rs & Hrs).
    rewrite (A_process_transcript_eq true name text w Hne Hrs). cbn [negb].
    eexists _, _. split; [reflexivity|]. repeat split.
  - rewrite (A_process_transcript_failure true name text w Hne Hx).
    eexists _, _. split; [reflexivity|].
    rewrite reported_stdin, reported_asks, reported_calls, reported_saves.
    repeat split. eauto.
Qed.

(** X5.  In variant A, when a non-empty first analysis is rejected and
    feedback is given, the flow makes two calls (analysis, then refinement)
    and reads exactly the two lines.  If the refiner yields a replacement,
    three files are written, in this order: [1_analysis.md] with the first
    analysis, [3_iteration.md] and [2_final_output.md] both with the
    replacement, which is returned.  If the refiner raises, the flow either
    returns the first analysis, having written it as [1_analysis.md] and as
    [2_final_output.md], or raises [MarkupError], having written
    [1_analysis.md] only; it returns whenever rich renders the two reports
    of the exception. *)
Theorem rejection_writes_iteration_and_final (name text approval feedback : string)
    (analysed : A.Insight) (rs : list A.structured) (rest : list string)
    (w : World (request A.Insight) A.structured A.Insight) :
  is_empty (strip text) = false ->
  replies w = A.Structured analysed :: rs ->
  no_insights analysed = false ->
  lower approval <> "y" ->
  stdin w = approval :: feedback :: rest ->
  let dir := "output/" ++ name in
  exists r w',
    A.process_transcript false name text w = (r, w')
    /\ stdin w' = rest
    /\ calls w' = Call (ImproveRequest analysed feedback (strip text))
                  :: Call (AnalyzeRequest (strip text)) :: calls w
    /\ (forall replacement,
          A.refinement rs = Some replacement ->
          r = Ok replacement
          /\ saves w'
             = Save dir "2_final_output.md" (to_markdown replacement)
               :: Save dir "3_iteration.md" (to_markdown replacement)
               :: Save dir "1_analysis.md" (to_markdown analysed) :: saves w)
    /\ (A.refinement rs = None ->
        (r = Ok analysed
         /\ saves w'
            = Save dir "2_final_output.md" (to_markdown analysed)
              :: Save dir "1_analysis.md" (to_markdown analysed) :: saves w
         \/ (exists markup, r = Raise (MarkupError markup))
            /\ saves w' = Save dir "1_analysis.md" (to_markdown analysed) :: saves w)
        /\ (renders ("[red]Error in improve_insights: "
                     ++ describe (A.failure rs) ++ "[/red]") = true ->
            renders ("[red]Error during iteration: "
                     ++ describe (A.failure rs) ++ "[/red]") = true ->
            r = Ok analysed)).
Proof.
  intros Hne Hrs Hsome Hn Hin dir. subst dir.
  rewrite (A_process_transcript_eq false name text w Hne Hrs). cbn [negb].
  unfold A._handle_human_review.
  erewrite human_review_rejected; [|exact Hsome | cbn [stdin]; exact Hin | exact Hn].
  match goal with |- context [_handle_iteration _ _ _ _ _ _ ?w1] =>
    destruct (A_handle_iteration_frame analysed feedback (strip text) name w1)
      as (r & w2 & E & Hs & _ & _ & Hc & Hyes & Hno)
  end.
  unfold A._handle_iteration in E. rewrite E. clear E.
  cbn [stdin replies] in Hs, Hyes, Hno. unfold A.Insight in *.
  destruct (A.refinement rs) as [replacement|] eqn:Hr.
  - destruct (Hyes replacement eq_refl) as (-> & Hsaves).
    eexists _, _. split; [reflexivity|]. split; [exact Hs|]. split; [exact Hc|].
    split; [|discriminate]. intros ? [= <-]. split; [reflexivity|].
    rewrite !saves_record. cbn [is_save]. rewrite Hsaves. reflexivity.
  - destruct (Hno eq_refl) as (Hsaves & Hcases & Hok).
    destruct Hcases as [-> | (markup & ->)].
    + eexists _, _. split; [reflexivity|]. split; [exact Hs|]. split; [exact Hc|].
      split; [discriminate|]. intros _. split; [|intros; reflexivity].
      left. split; [reflexivity|].
      rewrite !saves_record. cbn [is_save]. rewrite Hsaves. reflexivity.
    + eexists _, _. split; [reflexivity|]. split; [exact Hs|]. split; [exact Hc|].
      split; [discriminate|]. intros _. split; [|exact Hok].
      right. split; [now exists markup|]. rewrite Hsaves. reflexivity.
Qed.

(** X6.  In variant A, when the input ends before the review gets an
    answer, the flow raises [EOFError]: the first analysis has been written
    as [1_analysis.md], no [2_final_output.md] is written, and no further
    call is made. *)
Theorem end_of_input_in_review_loses_final_output (name text : string)
    (analysed : A.Insight) (rs : list A.structured)
    (w : World (request A.Insight) A.structured A.Insight) :
  is_empty (strip text) = false ->
  replies w = A.Structured analysed :: rs ->
  stdin w = [] ->
  exists w',
    A.process_transcript false name text w = (Raise EOFError, w')
    /\ saves w'
       = Save ("output/" ++ name) "1_analysis.md" (to_markdown analysed) :: saves w
    /\ calls w' = Call (AnalyzeRequest (strip text)) :: calls w.
Proof.
  intros Hne Hrs Hin.
  rewrite (A_process_transcript_eq false name text w Hne Hrs). cbn [negb].
  unfold A._handle_human_review.
  match goal with |- context [_handle_human_review ?wd ?imp ?i ?t ?n ?w1] =>
    destruct (human_review_end_of_input wd imp i t n w1 Hin) as (w' & E & Hsaves & Hcalls)
  end.
  rewrite E. exists w'. split; [reflexivity|]. split; assumption.
Qed.

(** X7.  In both variants, when nothing was extracted and the human picks
    "1" and gives feedback, the refiner is called once, on the empty
    insight, and exactly the two lines are read.  The replacement is
    returned when the refiner produces one; when it raises, the empty
    insight is returned provided rich renders the two reports of the
    exception, and [MarkupError] is raised otherwise. *)
Theorem empty_menu_feedback_refines_the_empty_insight :
  (forall (insight : A.Insight) (transcript name feedback : string) (rest : list string)
          (w : World (request A.Insight) A.structured A.Insight),
      no_insights insight = true ->
      stdin w = "1" :: feedback :: rest ->
      exists r w',
        A._handle_human_review insight transcript name w = (r, w')
        /\ stdin w' = rest
        /\ calls w'
           = Call (ImproveRequest (mkInsight [] [] [] [] [] [] []) feedback transcript)
             :: calls w
        /\ (forall replacement,
              A.refinement (replies w) = Some replacement -> r = Ok replacement)
        /\ (A.refinement (replies w) = None ->
            (r = Ok (mkInsight [] [] [] [] [] [] [])
             \/ exists markup, r = Raise (MarkupError markup))
            /\ (renders ("[red]Error in improve_insights: "
                         ++ describe (A.failure (replies w)) ++ "[/red]") = true ->
                renders ("[red]Error during iteration: "
                         ++ describe (A.failure (replies w)) ++ "[/red]") = true ->
                r = Ok (mkInsight [] [] [] [] [] [] []))))
  /\ (forall (insight : B.Insight) (transcript name feedback : string) (rest : list string)
             (w : World (request B.Insight) B.completion B.Insight),
        no_insights insight = true ->
        stdin w = "1" :: feedback :: rest ->
        exists r w',
          B._handle_human_review insight transcript name w = (r, w')
          /\ stdin w' = rest
          /\ calls w'
             = Call (ImproveRequest (mkInsight [] [] [] [] [] [] []) feedback transcript)
               :: calls w
          /\ (forall replacement,
                B.refinement (replies w) = Some replacement -> r = Ok replacement)
          /\ (B.refinement (replies w) = None ->
              (r = Ok (mkInsight [] [] [] [] [] [] [])
               \/ exists markup, r = Raise (MarkupError markup))
              /\ (renders ("[red]Error in improve_insights: "
                           ++ describe (B.failure (replies w)) ++ "[/red]") = true ->
                  renders ("[red]Error during iteration: "
                           ++ describe (B.failure (replies w)) ++ "[/red]") = true ->
                  r = Ok (mkInsight [] [] [] [] [] [] [])))).
Proof.
  split; intros insight transcript name feedback rest w He Hin;
    pose proof (no_insights_empty _ He) as ->.
  - unfold A._handle_human_review.
    erewrite human_review_empty_feedback; [|eassumption..].
    match goal with |- context [_handle_iteration _ _ _ _ _ _ ?w1] =>
      destruct (A_handle_iteration_frame empty_insight feedback transcript name w1)
        as (r & w' & E & Hs & _ & _ & Hc & Hyes & Hno)
    end.
    exists r, w'. split; [exact E|]. split; [exact Hs|]. split; [exact Hc|]. split.
    + intros replacement Hr. now apply Hyes.
    + intros Hr. destruct (Hno Hr) as (_ & Hcases & Hok). now split.
  - unfold B._handle_human_review.
    erewrite human_review_empty_feedback; [|eassumption..].
    match goal with |- context [_handle_iteration _ _ _ _ _ _ ?w1] =>
      destruct (B_handle_iteration_frame empty_insight feedback transcript name w1)
        as (r & w' & E & Hs & _ & _ & Hc & Hyes & Hno)
    end.
    exists r, w'. split; [exact E|]. split; [exact Hs|]. split; [exact Hc|]. split.
    + intros replacement Hr. now apply Hyes.
    + intros Hr. destruct (Hno Hr) as (_ & Hcases & Hok). now split.
Qed.

(** ** [main] of the two analyzers *)

Section Output.

Context {Req Rep Val : Type}.

Lemma output_only_frame (later tr : list (event Req Val)) :
  Forall output_only later ->
  filter is_ask (later ++ tr) = filter is_ask tr
  /\ filter is_call (later ++ tr) = filter is_call tr
  /\ filter is_save (later ++ tr) = filter is_save tr.
Proof.
  induction 1 as [|e later (Ha & Hc & Hs) _ IH]; [auto|].
  cbn [app filter]. now rewrite Ha, Hc, Hs.
Qed.

End Output.


(** X8.  [main] of variant A looks at the first transcript found only.
    When that transcript is blank, it reports the empty transcript and then
    reports success, with no call, no prompt and no file.  When the first
    analysis raises, the exception leaves [main]: no success is reported
    and nothing is written; the exception is the one of the analysis, and
    its report the last thing shown, when rich renders that report. *)
Theorem main_A_on_blank_or_failing_first_transcript
    (first : transcript_file) (others : list transcript_file)
    (w : World (request A.Insight) A.structured A.Insight) :
  let announced :=
    record (Say (nl ++ "[bold blue]Processing: " ++ file_name first ++ "[/bold blue]"))
      (record (Banner "[bold green]Meeting Transcript Processor[/bold green]") w) in
  (blank (file_text first) = true ->
   A.main (first :: others) w
   = (Ok tt,
      record (Say processed_message)
        (record (Say "[red]Error: Transcript is empty![/red]") announced)))
  /\ (blank (file_text first) = false ->
      A.extraction (replies w) = None ->
      exists e w' later,
        A.main (first :: others) w = (Raise e, w')
        /\ trace w' = (later ++ trace w)%list
        /\ ~ In (Say (nl ++ "[bold green] Transcript processed successfully![/bold green]"))
                later
        /\ saves w' = saves w
        /\ stdin w' = stdin w
        /\ (renders ("[red]Error in analyze_transcript: "
                     ++ describe (A.failure (replies w)) ++ "[/red]") = true ->
            e = A.failure (replies w)
            /\ exists earlier,
                 trace w'
                 = Say ("[red]Error in analyze_transcript: "
                        ++ describe (A.failure (replies w)) ++ "[/red]") :: earlier)).
Proof.
  intros announced. split.
  - intros Hblank. apply strip_empty_iff_blank in Hblank.
    unfold A.main, A.process_transcript. rewrite Hblank. reflexivity.
  - intros Hblank Hnone.
    assert (Hne : is_empty (strip (file_text first)) = false).
    { destruct (is_empty (strip (file_text first))) eqn:E; [|reflexivity].
      apply strip_empty_iff_blank in E. congruence. }
    unfold A.main.
    unfold bind at 1. unfold banner, log. unfold bind at 1. unfold say at 1, log.
    unfold bind at 1.
    match goal with |- context [A.process_transcript false ?n ?t ?w1] =>
      rewrite (A_process_transcript_failure false n t w1 Hne Hnone)
    end.
    cbn [record stdin replies trace].
    unfold reraised, reported, error_report.
    destruct (renders ("[red]Error in analyze_transcript: "
                       ++ describe (A.failure (replies w)) ++ "[/red]")) eqn:R.
    + eexists _, _,
        [Say _; Call _; Say _; Banner _; Say _; Banner _].
      split; [reflexivity|]. split; [reflexivity|]. split.
      { cbn [In]. intros [H|[H|[H|[H|[H|[H|[]]]]]]]; discriminate H. }
      split; [reflexivity|]. split; [reflexivity|].
      intros _. split; [reflexivity | eexists; reflexivity].
    + eexists _, _, [Call _; Say _; Banner _; Say _; Banner _].
      split; [reflexivity|]. split; [reflexivity|]. split.
      { cbn [In]. intros [H|[H|[H|[H|[H|[]]]]]]; discriminate H. }
      split; [reflexivity|]. split; [reflexivity|].
      intros Habs. discriminate Habs.
Qed.

Section Selection.

Variable int : string -> option Z.

#[local] Abbreviation State := (World (request B.Insight) B.completion B.Insight).

Lemma in_range_iff (n : Z) (transcripts : list transcript_file) :
  B.in_range (n - 1) transcripts
  = ((1 <=? n) && (n <=? Z.of_nat (List.length transcripts)))%Z.
Proof.
  unfold B.in_range.
  destruct (1 <=? n)%Z eqn:E1, (n <=? Z.of_nat (List.length transcripts))%Z eqn:E2,
    (0 <=? n - 1)%Z eqn:E3, (n - 1 <? Z.of_nat (List.length transcripts))%Z eqn:E4;
    try reflexivity; exfalso;
    rewrite ?Z.leb_le, ?Z.leb_gt, ?Z.ltb_lt, ?Z.ltb_ge in *; lia.
Qed.

Lemma select_refused (transcripts : list transcript_file) (refused : list string) :
  forallb (B.refused_selection int transcripts) refused = true ->
  forall (rest : list string) (tr : list (event (request B.Insight) B.Insight)),
    exists later,
      B.select int transcripts (refused ++ rest) tr
      = B.select int transcripts rest (later ++ tr)
      /\ List.length later = 2 * List.length refused
      /\ List.length (filter is_ask later) = List.length refused
      /\ filter is_call later = [] /\ filter is_save later = [].
Proof.
  induction refused as [|line refused IH]; intros Hall rest tr.
  - exists []. auto.
  - cbn [forallb] in Hall. apply andb_prop in Hall as [Hline Hall].
    unfold B.refused_selection in Hline. apply andb_prop in Hline as [Hq Hbad].
    apply negb_true_iff in Hq.
    cbn [app B.select]. rewrite Hq.
    destruct (int line) as [n|].
    + rewrite in_range_iff. apply negb_true_iff in Hbad. rewrite Hbad.
      destruct (IH Hall rest
                  (Say "[red]Invalid selection. Please try again.[/red]"
                   :: Ask B.selection_prompt :: tr))
        as (later & E & Hlen & Hasks & Hcalls & Hsaves).
      exists (later ++ [Say "[red]Invalid selection. Please try again.[/red]";
                        Ask B.selection_prompt])%list.
      split; [rewrite E, <- List.app_assoc; reflexivity|].
      rewrite !filter_app, !length_app, Hcalls, Hsaves, Hlen, Hasks.
      cbn. repeat split; lia.
    + destruct (IH Hall rest
                  (Say "[red]Please enter a valid number.[/red]"
                   :: Ask B.selection_prompt :: tr))
        as (later & E & Hlen & Hasks & Hcalls & Hsaves).
      exists (later ++ [Say "[red]Please enter a valid number.[/red]";
                        Ask B.selection_prompt])%list.
      split; [rewrite E, <- List.app_assoc; reflexivity|].
      rewrite !filter_app, !length_app, Hcalls, Hsaves, Hlen, Hasks.
      cbn. repeat split; lia.
Qed.

Lemma selection_frame_aux
    (transcripts : list transcript_file) (refused : list string) (line : string)
    (rest : list string) (w : State) :
  forallb (B.refused_selection int transcripts) refused = true ->
  stdin w = (refused ++ line :: rest)%list ->
  (lower line = "q" ->
   exists w',
     B.select_transcript int transcripts w = (Ok None, w')
     /\ stdin w' = rest /\ calls w' = calls w /\ saves w' = saves w
     /\ List.length (asks w') = List.length (asks w) + List.length refused + 1)
  /\ (forall n,
        lower line <> "q" ->
        int line = Some n ->
        (1 <= n <= Z.of_nat (List.length transcripts))%Z ->
        exists chosen w',
          B.select_transcript int transcripts w = (Ok (Some chosen), w')
          /\ nth_error transcripts (Z.to_nat (n - 1)) = Some chosen
          /\ stdin w' = rest /\ calls w' = calls w /\ saves w' = saves w
          /\ List.length (asks w') = List.length (asks w) + List.length refused + 1).
Proof.
  intros Hall Hin.
  destruct (select_refused transcripts refused Hall (line :: rest) (trace w))
    as (later & E & _ & Hasks & Hcalls & Hsaves).
  unfold B.select_transcript. rewrite Hin, E. split.
  - intros Hq. cbn [B.select]. rewrite Hq. cbn [String.eqb Ascii.eqb Bool.eqb].
    eexists. split; [reflexivity|].
    unfold calls, saves, asks. cbn [stdin trace filter is_call is_save is_ask].
    rewrite !filter_app, Hcalls, Hsaves. cbn [List.length app].
    rewrite length_app, Hasks. repeat split. lia.
  - intros n Hq Hint Hn. cbn [B.select].
    apply String.eqb_neq in Hq. rewrite Hq, Hint. cbv zeta.
    rewrite in_range_iff.
    assert (Hok : ((1 <=? n) && (n <=? Z.of_nat (List.length transcripts)))%Z = true).
    { apply andb_true_intro. split; apply Z.leb_le; lia. }
    rewrite Hok.
    assert (Hlt : Z.to_nat (n - 1) < List.length transcripts) by lia.
    eexists _, _. split; [reflexivity|].
    split; [now apply nth_error_nth'|].
    unfold calls, saves, asks. cbn [stdin trace filter is_call is_save is_ask].
    rewrite !filter_app, Hcalls, Hsaves. cbn [List.length app].
    rewrite length_app, Hasks. repeat split. lia.
Qed.

(** X9.  The selection loop of variant B refuses every line that is not
    "q" and is not a number between 1 and the number of transcripts (zero,
    negative numbers and texts that are no number included), showing the
    prompt again each time.  The first line that is such a number [n]
    selects the [n]-th transcript; the first line that is "q" in any letter
    case ends the loop with no transcript.  No line beyond it is read, and
    the loop makes no call and writes no file. *)
Theorem selection_takes_the_first_valid_line
    (transcripts : list transcript_file) (refused : list string) (line : string)
    (rest : list string) (w : State) :
  forallb (B.refused_selection int transcripts) refused = true ->
  stdin w = (refused ++ line :: rest)%list ->
  (lower line = "q" ->
   exists w',
     B.select_transcript int transcripts w = (Ok None, w')
     /\ stdin w' = rest /\ calls w' = calls w /\ saves w' = saves w
     /\ List.length (asks w') = List.length (asks w) + List.length refused + 1)
  /\ (forall n,
        lower line <> "q" ->
        int line = Some n ->
        (1 <= n <= Z.of_nat (List.length transcripts))%Z ->
        exists chosen w',
          B.select_transcript int transcripts w = (Ok (Some chosen), w')
          /\ nth_error transcripts (Z.to_nat (n - 1)) = Some chosen
          /\ stdin w' = rest /\ calls w' = calls w /\ saves w' = saves w
          /\ List.length (asks w') = List.length (asks w) + List.length refused + 1).
Proof.
  intros Hall Hin.
  destruct (selection_frame_aux transcripts refused line rest w Hall Hin) as [Hquit Hpick].
  split.
  - intros Hq. destruct (Hquit Hq) as (w' & Hrun). now exists w'.
  - intros n Hq Hint Hn. destruct (Hpick n Hq Hint Hn) as (chosen & w' & Hrun).
    now exists chosen, w'.
Qed.

Lemma select_transcript_replies (transcripts : list transcript_file) (w : State)
    (r : outcome (option transcript_file)) (w' : State) :
  B.select_transcript int transcripts w = (r, w') -> replies w' = replies w.
Proof.
  unfold B.select_transcript.
  destruct (B.select int transcripts (stdin w) (trace w)) as [[r0 rest] tr].
  now intros [= _ <-].
Qed.

Lemma list_transcripts_output (transcripts : list transcript_file) :
  forall (i : nat) (w : State),
    exists later,
      B.list_transcripts i transcripts w
      = (Ok tt, mkWorld (stdin w) (replies w) (later ++ trace w))
      /\ Forall output_only later.
Proof.
  induction transcripts as [|t ts IH]; intros i w.
  - exists []. split; [now destruct w | constructor].
  - cbn [B.list_transcripts]. unfold bind, say, log.
    destruct (IH (S i) (record (Say (of_nat i ++ ". " ++ file_name t)) w))
      as (later & E & Hout).
    exists (later ++ [Say (of_nat i ++ ". " ++ file_name t)])%list.
    rewrite E. cbn [record stdin replies trace]. rewrite <- List.app_assoc.
    split; [reflexivity|].
    apply Forall_app. split; [exact Hout|]. constructor; [|constructor].
    repeat split.
Qed.

Lemma main_B_eq (found : list transcript_file) (w : State) :
  found <> [] ->
  exists later,
    Forall output_only later
    /\ B.main int found w
       = match B.select_transcript int found
                 (mkWorld (stdin w) (replies w) (later ++ trace w)) with
         | (Ok None, w') => (Ok tt, w')
         | (Ok (Some chosen), w') =>
             match B.process_transcript (file_stem chosen) (file_text chosen)
                     (record (Say (nl ++ "[bold blue]Processing: " ++ file_name chosen
                                   ++ "[/bold blue]")) w') with
             | (Ok _, w'') => (Ok tt, record (Say processed_message) w'')
             | (Raise e, w'') => (Raise e, w'')
             end
         | (Raise e, w') => (Raise e, w')
         end.
Proof.
  intros Hfound. destruct found as [|f found']; [contradiction|].
  unfold B.main, bind, banner, say, log.
  match goal with |- context [B.list_transcripts 1 ?l ?w0] =>
    destruct (list_transcripts_output l 1 w0) as (later & E & Hout)
  end.
  rewrite E. cbn [record stdin replies trace].
  exists (later ++ [Say (nl ++ "[bold cyan]Available transcripts:[/bold cyan]");
                    Banner "[bold green]Meeting Transcript Processor[/bold green]"])%list.
  split.
  - apply Forall_app. split; [exact Hout|].
    repeat (constructor; [repeat split|]). constructor.
  - rewrite <- List.app_assoc. cbn [app].
    destruct (B.select_transcript int (f :: found') _) as [[[chosen|]|e] w']; reflexivity.
Qed.

(** X10.  [main] of variant B, once a transcript is picked, sends its text
    as read (not preprocessed) to the completion service, exactly once; it
    writes no file and reads no further line, so the insight extracted is
    neither shown for review nor saved.  It ends by reporting success, or
    with [MarkupError]; it reports success whenever the service's reply
    yields an insight or rich renders the report of the exception.  When
    "q" is typed instead, [main] returns having made no call. *)
Theorem main_B_analyzes_once_and_keeps_nothing
    (found : list transcript_file) (refused : list string) (line : string)
    (rest : list string) (w : State) :
  found <> [] ->
  forallb (B.refused_selection int found) refused = true ->
  stdin w = (refused ++ line :: rest)%list ->
  (lower line = "q" ->
   exists w',
     B.main int found w = (Ok tt, w')
     /\ stdin w' = rest /\ calls w' = calls w /\ saves w' = saves w)
  /\ (forall n,
        lower line <> "q" ->
        int line = Some n ->
        (1 <= n <= Z.of_nat (List.length found))%Z ->
        exists chosen r w',
          nth_error found (Z.to_nat (n - 1)) = Some chosen
          /\ B.main int found w = (r, w')
          /\ stdin w' = rest
          /\ calls w' = Call (AnalyzeRequest (file_text chosen)) :: calls w
          /\ saves w' = saves w
          /\ (r = Ok tt \/ exists markup, r = Raise (MarkupError markup))
          /\ (r = Ok tt ->
              exists earlier,
                trace w'
                = Say (nl ++ "[bold green] Transcript processed successfully![/bold green]")
                  :: earlier)
          /\ (B.extraction (replies w) <> None
              \/ renders ("[red]Error in analyze_transcript: "
                          ++ describe (B.extraction_failure (replies w)) ++ "[/red]")
                 = true ->
              r = Ok tt)).
Proof.
  intros Hfound Hall Hin.
  destruct (main_B_eq w Hfound) as (later & Hout & Hmain). rewrite Hmain.
  destruct (output_only_frame (trace w) Hout) as (Hfa & Hfc & Hfs).
  set (w2 := mkWorld (stdin w) (replies w) (later ++ trace w)) in *.
  assert (Hc2 : calls w2 = calls w) by exact Hfc.
  assert (Hs2 : saves w2 = saves w) by exact Hfs.
  destruct (selection_frame_aux found refused line rest w2 Hall Hin) as [Hquit Hpick].
  split.
  - intros Hq. destruct (Hquit Hq) as (w' & E & Hs & Hc & Hsv & _).
    rewrite E. exists w'. split; [reflexivity|]. split; [exact Hs|]. split; congruence.
  - intros n Hq Hint Hn.
    destruct (Hpick n Hq Hint Hn) as (chosen & w' & E & Hnth & Hs & Hc & Hsv & _).
    pose proof (select_transcript_replies _ _ E) as Hrep. cbn [replies w2] in Hrep.
    rewrite E. exists chosen.
    match goal with |- context [B.process_transcript ?nm ?tx ?w3] =>
      destruct (B_process_transcript_frame nm tx w3)
        as (r & w4 & E4 & Hs4 & _ & _ & Hsv4 & Hc4 & Hyes & Hno)
    end.
    rewrite E4. cbn [stdin replies record trace] in Hs4, Hyes, Hno.
    rewrite saves_record in Hsv4. rewrite calls_record in Hc4.
    cbn [is_save is_call] in Hsv4, Hc4.
    rewrite Hrep in Hyes, Hno. unfold B.Insight in *.
    destruct (B.extraction (replies w)) as [insight|] eqn:Hx.
    + destruct (Hyes insight eq_refl) as (-> & _).
      eexists _, _. split; [exact Hnth|]. split; [reflexivity|].
      split; [cbn [record stdin]; congruence|].
      split; [rewrite calls_record; cbn [is_call]; congruence|].
      split; [rewrite saves_record; cbn [is_save]; congruence|].
      split; [now left|]. split; [intros _; eexists; reflexivity|]. reflexivity.
    + destruct (Hno eq_refl) as ([-> | (markup & ->)] & Hok).
      * eexists _, _. split; [exact Hnth|]. split; [reflexivity|].
        split; [cbn [record stdin]; congruence|].
        split; [rewrite calls_record; cbn [is_call]; congruence|].
        split; [rewrite saves_record; cbn [is_save]; congruence|].
        split; [now left|]. split; [intros _; eexists; reflexivity|]. reflexivity.
      * eexists _, _. split; [exact Hnth|]. split; [reflexivity|].
        split; [congruence|]. split; [congruence|]. split; [congruence|].
        split; [right; now exists markup|]. split; [discriminate|].
        intros [Habs | R]; [now contradiction Habs|].
        destruct (Hok R) as (Habs & _). discriminate Habs.
Qed.

End Selection.

(** ** The repair of a reply (variant B) *)

Lemma traverse_none_in {A B : Type} (f : A -> option B) (l : list A) (x : A) :
  In x l -> f x = None -> traverse f l = None.
Proof.
  induction l as [|y l IH]; intros Hin Hx; [destruct Hin|].
  simpl. destruct Hin as [-> | Hin].
  - now rewrite Hx.
  - rewrite (IH Hin Hx). now destruct (f y).
Qed.

Lemma get_fold_in (cs : list Category) :
  NoDup cs ->
  forall (d : dict) (c : Category),
    In c cs ->
    dict_get (field_name c) (fold_left B.substitute_in cs d)
    = Some (B.with_default_subtags c
              match dict_get (field_name c) d with
              | Some v => v
              | None => JArr []
              end).
Proof.
  induction 1 as [|c0 cs Hnotin Hnodup IH]; intros d c Hin; [destruct Hin|].
  cbn [fold_left]. destruct Hin as [-> | Hin].
  - rewrite get_fold_notin by assumption.
    unfold B.substitute_in. apply dict_get_set_same.
  - rewrite (IH _ _ Hin). rewrite get_substitute_other; [reflexivity|].
    intros ->. contradiction.
Qed.

Lemma get_fold_other_key (k : string) (cs : list Category) (d : dict) :
  (forall c, k <> field_name c) ->
  dict_get k (fold_left B.substitute_in cs d) = dict_get k d.
Proof.
  intros Hk. revert d. induction cs as [|c cs IH]; intros d; [reflexivity|].
  cbn [fold_left]. rewrite IH. unfold B.substitute_in.
  apply dict_get_set_other, Hk.
Qed.

Lemma in_model_fields (c : Category) : In c model_fields.
Proof. destruct c; simpl; auto 8. Qed.

Lemma get_after_add_defaults (d d' : dict) (c : Category) :
  B.add_defaults model_fields d = Some d' ->
  dict_get (field_name c) d'
  = Some (B.with_default_subtags c
            match dict_get (field_name c) d with
            | Some v => v
            | None => JArr []
            end).
Proof.
  intros Hrepair. pose proof (add_defaults_agree model_fields_NoDup d) as Hagree.
  rewrite Hrepair in Hagree. subst d'.
  apply get_fold_in; [apply model_fields_NoDup | apply in_model_fields].
Qed.


(** X11.  One item whose sub-tag is not a member of the enumeration makes
    variant B discard the whole reply, the valid items included: the repair
    leaves a sub-tag that is present as it is, and the guarded block raises.
    The extractor then returns the empty insight, after the report of the
    exception, when rich renders that report; it raises [MarkupError]
    otherwise. *)
Theorem unknown_subtag_discards_the_reply
    (d : dict) (c : Category) (items : list json) (fields : dict) (tag transcript : string)
    (rs : list B.completion) (w : World (request B.Insight) B.completion B.Insight) :
  dict_get (field_name c) d = Some (JArr items) ->
  In (JObj fields) items ->
  dict_get "subcategory" fields = Some (JStr tag) ->
  member_of_value (SubCategory := B.SubCategory) tag = None ->
  replies w = B.Content (JObj d) :: rs ->
  let report :=
    "[red]Error in analyze_transcript: "
    ++ describe (B.extraction_failure (replies w)) ++ "[/red]" in
  B.extraction (replies w) = None
  /\ B.analyze_transcript transcript w
     = if renders report
       then (Ok (mkInsight [] [] [] [] [] [] []),
             mkWorld (stdin w) rs
               (Say report :: Call (AnalyzeRequest transcript) :: trace w))
       else (Raise (MarkupError report),
             mkWorld (stdin w) rs (Call (AnalyzeRequest transcript) :: trace w)).
Proof.
  intros Hget Hin Htag Hmember Hrs report.
  assert (Hnone : B.extraction (replies w) = None).
  { rewrite Hrs. cbn [B.extraction].
    rewrite validate_after_add_defaults.
    apply validate_field_none with c.
    unfold validate_field.
    rewrite get_fold_in by (apply model_fields_NoDup || apply in_model_fields).
    rewrite Hget. cbn [B.with_default_subtags validate_items].
    apply traverse_none_in with (x := JObj fields).
    - apply in_map_iff. exists (JObj fields). split; [|exact Hin].
      cbn [B.with_default_subtag]. rewrite dict_has_get, Htag. reflexivity.
    - cbn [validate_item]. rewrite Htag, Hmember.
      destruct (dict_get "point" fields) as [[]|]; try reflexivity;
        destruct (dict_get "quote" fields) as [[]|]; try reflexivity;
        destruct (dict_get "speaker" fields) as [[]|]; reflexivity. }
  split; [exact Hnone|].
  rewrite B_analyze_transcript_eq. unfold B.Insight in *. rewrite Hnone.
  unfold reported, error_report. fold report. rewrite Hrs. cbn [tl].
  destruct (renders report); reflexivity.
Qed.

(** X12.  When the repair of variant B succeeds, the repaired object has
    all seven category keys (a category that was missing holds the empty
    list), every other key holds what it held, every object found in a
    category's list has a [subcategory] key, and an object that already had
    one is left exactly as it was, at the same place. *)
Theorem repair_completes_and_preserves (d d' : dict) :
  B.add_defaults model_fields d = Some d' ->
  (forall c, dict_has (field_name c) d' = true)
  /\ (forall c, dict_get (field_name c) d = None ->
                dict_get (field_name c) d' = Some (JArr []))
  /\ (forall k, (forall c, k <> field_name c) -> dict_get k d' = dict_get k d)
  /\ (forall c items fields,
        dict_get (field_name c) d' = Some (JArr items) ->
        In (JObj fields) items ->
        dict_has "subcategory" fields = true)
  /\ (forall c items,
        dict_get (field_name c) d = Some (JArr items) ->
        exists items',
          dict_get (field_name c) d' = Some (JArr items')
          /\ List.length items' = List.length items
          /\ forall i fields,
               nth_error items i = Some (JObj fields) ->
               dict_has "subcategory" fields = true ->
               nth_error items' i = Some (JObj fields)).
Proof.
  intros Hrepair.
  pose proof (fun c => @get_after_add_defaults d d' c Hrepair) as Hget.
  repeat split.
  - intros c. now rewrite dict_has_get, Hget.
  - intros c Hmissing. now rewrite Hget, Hmissing.
  - intros k Hk. pose proof (add_defaults_agree model_fields_NoDup d) as Hagree.
    rewrite Hrepair in Hagree. subst d'. now apply get_fold_other_key.
  - intros c items fields Hitems Hin. rewrite Hget in Hitems.
    destruct (dict_get (field_name c) d) as [v|].
    + destruct v; try discriminate Hitems. cbn in Hitems.
      injection Hitems as <-. apply in_map_iff in Hin as (item & Hitem & _).
      destruct item; try discriminate Hitem. cbn in Hitem.
      destruct (dict_has "subcategory" fields0) eqn:Hhas.
      * now injection Hitem as <-.
      * injection Hitem as <-. now rewrite dict_has_get, dict_get_set_same.
    + cbn in Hitems. injection Hitems as <-. destruct Hin.
  - intros c items Hitems. rewrite Hget, Hitems. cbn.
    eexists. split; [reflexivity|]. split; [apply length_map|].
    intros i fields Hnth Hhas. rewrite nth_error_map, Hnth. cbn. now rewrite Hhas.
Qed.


(** ** The file a research result is saved to *)

Lemma length_lower (s : string) : String.length (lower s) = String.length s.
Proof. induction s as [|c s IH]; simpl; [reflexivity | now rewrite IH]. Qed.

Lemma length_replace_char (a b : ascii) (s : string) :
  String.length (replace_char a b s) = String.length s.
Proof. induction s as [|c s IH]; simpl; [reflexivity | now rewrite IH]. Qed.

Lemma length_take (n : nat) (s : string) :
  String.length (take n s) = Nat.min n (String.length s).
Proof.
  revert s. induction n as [|n IH]; intros s; [reflexivity|].
  destruct s as [|c s]; simpl; [reflexivity | now rewrite IH].
Qed.

Lemma length_append (a b : string) :
  String.length (a ++ b) = String.length a + String.length b.
Proof. induction a as [|c a IH]; simpl; [reflexivity | now rewrite IH]. Qed.

Lemma nochar_replace_char (a b : ascii) (s : string) :
  a <> b -> nochar a (replace_char a b s) = true.
Proof.
  intros Hab. induction s as [|c s IH]; simpl; [reflexivity|]. rewrite IH, andb_true_r.
  destruct (Ascii.eqb c a) eqn:E.
  - apply negb_true_iff, Ascii.eqb_neq. congruence.
  - now rewrite E.
Qed.

Lemma nochar_take (a : ascii) (n : nat) (s : string) :
  nochar a s = true -> nochar a (take n s) = true.
Proof.
  revert s. induction n as [|n IH]; intros s; [reflexivity|].
  destruct s as [|c s]; simpl; [reflexivity|].
  intros H. apply andb_prop in H as [-> Hs]. now rewrite IH.
Qed.

Lemma lower_char_idempotent (c : ascii) : lower_char (lower_char c) = lower_char c.
Proof. destruct c as [[] [] [] [] [] [] [] []]; reflexivity. Qed.

Lemma lower_char_space (c : ascii) :
  Ascii.eqb (lower_char c) " "%char = Ascii.eqb c " "%char.
Proof. destruct c as [[] [] [] [] [] [] [] []]; reflexivity. Qed.

Lemma lower_idempotent (s : string) : lower (lower s) = lower s.
Proof.
  induction s as [|c s IH]; simpl; [reflexivity|].
  now rewrite IH, lower_char_idempotent.
Qed.

Lemma lower_replace_space (s : string) :
  lower (replace_char " "%char "_"%char s) = replace_char " "%char "_"%char (lower s).
Proof.
  induction s as [|c s IH]; simpl; [reflexivity|]. rewrite IH, lower_char_space.
  now destruct (Ascii.eqb c " "%char).
Qed.

Lemma lower_take (n : nat) (s : string) : lower (take n s) = take n (lower s).
Proof.
  revert s. induction n as [|n IH]; intros s; [reflexivity|].
  destruct s as [|c s]; simpl; [reflexivity | now rewrite IH].
Qed.

Lemma lower_append (a b : string) : lower (a ++ b) = lower a ++ lower b.
Proof. induction a as [|c a IH]; simpl; [reflexivity | now rewrite IH]. Qed.

Lemma replace_char_append (x y : ascii) (a b : string) :
  replace_char x y (a ++ b) = replace_char x y a ++ replace_char x y b.
Proof. induction a as [|c a IH]; simpl; [reflexivity | now rewrite IH]. Qed.

Lemma replace_char_idempotent (x y : ascii) (s : string) :
  x <> y -> replace_char x y (replace_char x y s) = replace_char x y s.
Proof.
  intros Hxy. induction s as [|c s IH]; simpl; [reflexivity|]. rewrite IH.
  destruct (Ascii.eqb c x) eqn:E; [|now rewrite E].
  assert (Hyx : Ascii.eqb y x = false) by (apply Ascii.eqb_neq; congruence).
  now rewrite Hyx.
Qed.

Lemma take_append_long (n : nat) (a b : string) :
  n <= String.length a -> take n (a ++ b) = take n a.
Proof.
  revert a. induction n as [|n IH]; intros a Hlen; [reflexivity|].
  destruct a as [|c a]; simpl in *; [lia|]. rewrite IH by lia. reflexivity.
Qed.

(** X13.  The name of the file a result is saved to is at most 50
    characters of the title followed by ".md": never longer than 53
    characters, without any space, and unchanged by lower-casing. *)
Theorem research_filename_is_bounded (title : string) :
  exists stem,
    Research.filename_of title = stem ++ ".md"
    /\ String.length stem = Nat.min 50 (String.length title)
    /\ String.length (Research.filename_of title) <= 53
    /\ nochar " "%char (Research.filename_of title) = true
    /\ lower (Research.filename_of title) = Research.filename_of title.
Proof.
  unfold Research.filename_of. eexists. split; [reflexivity|].
  rewrite length_append, length_take, length_replace_char, length_lower.
  change (String.length ".md") with 3.
  split; [reflexivity|]. split; [lia|]. split.
  - rewrite nochar_append, nochar_take; [reflexivity|].
    apply nochar_replace_char. discriminate.
  - rewrite lower_append, lower_take, lower_replace_space, lower_idempotent.
    reflexivity.
Qed.

(** X14.  Two titles are saved to the same file, the later result
    overwriting the earlier one, when they differ only in letter case, only
    in spaces against underscores, or only beyond their first 50
    characters. *)
Theorem research_filename_collisions (title : string) :
  Research.filename_of (lower title) = Research.filename_of title
  /\ Research.filename_of (replace_char " "%char "_"%char title)
     = Research.filename_of title
  /\ (forall more,
        50 <= String.length title ->
        Research.filename_of (title ++ more) = Research.filename_of title).
Proof.
  unfold Research.filename_of. repeat split.
  - now rewrite lower_idempotent.
  - rewrite lower_replace_space, replace_char_idempotent by discriminate. reflexivity.
  - intros more Hlen.
    rewrite lower_append, replace_char_append, take_append_long; [reflexivity|].
    now rewrite length_replace_char, length_lower.
Qed.
(** ** What the research loop calls, asks and writes *)

Section Grows.

Context {Req Rep Val : Type}.

Variable lines : list string.
Variable P : event Req Val -> Prop.

#[local] Abbreviation Comp := (M Req Rep Val).

Lemma grows_ret {A} (a : A) : grows lines P (ret a : Comp A).
Proof. intros w r w' Hw [= _ <-]. split; [exact Hw | now exists []]. Qed.

Lemma grows_raise {A} (e : exn) : grows lines P (raise e : Comp A).
Proof. intros w r w' Hw [= _ <-]. split; [exact Hw | now exists []]. Qed.

Lemma grows_log (e : event Req Val) : P e -> grows lines P (log e : Comp unit).
Proof.
  intros He w r w' Hw [= _ <-]. split; [exact Hw|].
  exists [e]. split; [reflexivity | now constructor].
Qed.

Lemma grows_print (text : string) : P (Say text) -> grows lines P (print text : Comp unit).
Proof.
  intros He w r w' Hw. unfold print. destruct (renders text); intros [= _ <-].
  - split; [exact Hw|]. exists [Say text]. split; [reflexivity | now constructor].
  - split; [exact Hw | now exists []].
Qed.

Lemma grows_write_file (dir file content : string) :
  P (Save dir file content) -> grows lines P (write_file dir file content : Comp unit).
Proof.
  intros He w r w' Hw. unfold write_file. destruct (writable dir file); intros [= _ <-].
  - split; [exact Hw|]. exists [Save dir file content].
    split; [reflexivity | now constructor].
  - split; [exact Hw | now exists []].
Qed.

Lemma grows_call (request : Req) :
  P (Call request) -> grows lines P (call request : Comp Rep).
Proof.
  intros He w r w' Hw. unfold call.
  destruct (replies w); intros [= _ <-]; (split; [exact Hw|]); exists [Call request];
    (split; [reflexivity | now constructor]).
Qed.

Lemma grows_bind {A B} (m : Comp A) (k : A -> Comp B) :
  grows lines P m -> (forall a, grows lines P (k a)) -> grows lines P (bind m k).
Proof.
  intros Hm Hk w r w' Hw. unfold bind.
  destruct (m w) as [[a|e] w1] eqn:E.
  - intros Hrun. destruct (Hm _ _ _ Hw E) as (Hw1 & l1 & E1 & H1).
    destruct (Hk _ _ _ _ Hw1 Hrun) as (Hw2 & l2 & E2 & H2).
    split; [exact Hw2|].
    exists (l2 ++ l1)%list. split; [now rewrite E2, E1, List.app_assoc|].
    now apply Forall_app.
  - intros [= _ <-]. eapply Hm; eassumption.
Qed.

(** The line a prompt reads is one of [lines]. *)
Lemma grows_ask {B} (prompt : string) (k : string -> Comp B) :
  P (Ask prompt) ->
  (forall line, In line lines -> grows lines P (k line)) ->
  grows lines P (bind (ask prompt) k).
Proof.
  intros He Hk w r w' Hw. unfold bind, ask.
  destruct (stdin w) as [|line rest] eqn:Hin.
  - intros [= _ <-]. split; [intros x []|].
    exists [Ask prompt]. split; [reflexivity | now constructor].
  - intros Hrun.
    assert (Hline : In line lines) by (apply Hw; now left).
    assert (Hrest : incl rest lines) by (intros x Hx; apply Hw; now right).
    destruct (Hk line Hline (mkWorld rest (replies w) (Ask prompt :: trace w)) r w'
                 Hrest Hrun) as (Hw2 & l2 & E2 & H2).
    split; [exact Hw2|].
    exists (l2 ++ [Ask prompt])%list. cbn [trace] in E2.
    split; [now rewrite E2, <- List.app_assoc|].
    apply Forall_app. split; [exact H2 | now constructor].
Qed.

Lemma grows_try_except {A} (body : Comp A) (handler : exn -> Comp A) :
  grows lines P body -> (forall e, grows lines P (handler e)) ->
  grows lines P (try_except body handler).
Proof.
  intros Hb Hh w r w' Hw. unfold try_except.
  destruct (body w) as [[a|e] w1] eqn:E.
  - intros [= _ <-]. eapply Hb; eassumption.
  - intros Hrun. destruct (Hb _ _ _ Hw E) as (Hw1 & l1 & E1 & H1).
    destruct (Hh _ _ _ _ Hw1 Hrun) as (Hw2 & l2 & E2 & H2).
    split; [exact Hw2|].
    exists (l2 ++ l1)%list. split; [now rewrite E2, E1, List.app_assoc|].
    now apply Forall_app.
Qed.

End Grows.

Lemma run_tools_expected (today : string) (lines : list string)
    (deps : Research.SearchDataclass) (tcs : list Research.tool_call) :
  Research.max_results deps = 3 ->
  grows lines (Research.expected_event today lines) (Research.run_tools deps tcs).
Proof.
  intros Hmax. induction tcs as [|tc tcs IH]; cbn [Research.run_tools].
  - apply grows_ret.
  - apply grows_bind; [|intros _; exact IH]. unfold Research.get_search.
    apply grows_bind; [apply grows_log; exact I|]. intros _.
    apply grows_bind; [apply grows_log; exact Hmax|]. intros _.
    destruct (Research.context tc); [apply grows_ret | apply grows_raise].
Qed.

Lemma agent_run_expected (today query : string) (lines : list string) :
  In query lines ->
  blank query = false ->
  lower query <> "q" ->
  grows lines (Research.expected_event today lines)
        (Research.agent_run query (Research.mkDeps 3 today)).
Proof.
  intros Htyped Hblank Hquit. unfold Research.agent_run.
  apply grows_bind; [apply grows_call; now repeat split|]. intros script.
  apply grows_bind; [now apply run_tools_expected|]. intros _.
  destruct (Research.answer script) as [j|]; [|apply grows_raise].
  destruct (Research.validate_result j); [apply grows_ret | apply grows_raise].
Qed.

Ltac grows_output :=
  repeat first
    [ apply grows_ret | apply grows_raise
    | apply grows_log; exact I
    | apply grows_print; exact I
    | apply grows_write_file; exact I
    | apply grows_ask; [exact I | intros ? _]
    | apply grows_bind; [|intros ?]
    | match goal with
      | |- grows _ _ (if ?b then _ else _) => destruct b
      | |- grows _ _ (let x := ?v in _) => cbv zeta
      end ].

Lemma turn_expected (today : string) (lines : list string) :
  grows lines (Research.expected_event today lines) (Research.turn today).
Proof.
  unfold Research.turn. apply grows_ask; [exact I|]. intros query Htyped.
  destruct (String.eqb (lower query) "q") eqn:Hq; [unfold say; grows_output|].
  destruct (is_empty (strip query)) eqn:Hb; [unfold say; grows_output|].
  assert (Hblank : blank query = false).
  { destruct (blank query) eqn:E; [|reflexivity].
    apply strip_empty_iff_blank in E. congruence. }
  apply String.eqb_neq in Hq.
  apply grows_try_except; [|intros e; unfold say; grows_output].
  cbv zeta. apply grows_bind; [apply grows_print; exact I|]. intros _.
  apply grows_bind; [now apply agent_run_expected|]. intros data.
  unfold say. grows_output.
Qed.

Lemma loop_expected (today : string) (lines : list string) (turns : nat) :
  forall (w : World Research.remote Research.agent_script unit) r w',
    incl (stdin w) lines ->
    Research.loop today turns w = Some (r, w') ->
    exists later,
      trace w' = (later ++ trace w)%list
      /\ Forall (Research.expected_event today lines) later.
Proof.
  induction turns as [|turns IH]; intros w r w' Hw; [discriminate|].
  cbn [Research.loop].
  destruct (Research.turn today w) as [[[|]|e] w1] eqn:E;
    destruct (turn_expected today (lines := lines) w Hw E) as (Hw1 & l1 & E1 & H1).
  - intros Hloop. destruct (IH _ _ _ Hw1 Hloop) as (l2 & E2 & H2).
    exists (l2 ++ l1)%list. split; [now rewrite E2, E1, List.app_assoc|].
    now apply Forall_app.
  - intros [= _ <-]. now exists l1.
  - intros [= _ <-]. now exists l1.
Qed.

(** X15.  Whatever is typed and whatever the services answer, every remote
    call made in a turn of the loop of the research assistant, and so every
    call made by a run of [main] that has come to an end, is either an agent
    run on a line that was typed and is neither blank nor the quit command,
    with the day's date and three results per search as dependencies, or a
    search asking for three results. *)
Theorem research_calls_are_expected (today : string)
    (w : World Research.remote Research.agent_script unit) :
  (exists r w' later,
      Research.turn today w = (r, w')
      /\ trace w' = (later ++ trace w)%list
      /\ Forall (Research.expected_event today (stdin w)) later)
  /\ (forall r w',
        Research.main today w = Some (r, w') ->
        exists later,
          trace w' = (later ++ trace w)%list
          /\ Forall (Research.expected_event today (stdin w)) later).
Proof.
  split.
  - destruct (Research.turn today w) as [r w'] eqn:E.
    destruct (turn_expected today (lines := stdin w) w (incl_refl _) E)
      as (_ & later & Htrace & Hexp).
    now exists r, w', later.
  - intros r w'. unfold Research.main, banner, log. intros Hloop.
    destruct (@loop_expected today (stdin w) _
                (record (Banner "[bold green]Research Assistant[/bold green]") w) r w'
                (incl_refl _) Hloop)
      as (later & Htrace & Hexp).
    exists (later ++ [Banner "[bold green]Research Assistant[/bold green]"])%list.
    split.
    + rewrite Htrace, <- List.app_assoc. reflexivity.
    + apply Forall_app. split; [exact Hexp|]. constructor; [exact I | constructor].
Qed.

Lemma search_error_none (tcs : list Research.tool_call) :
  forallb (fun tc => match Research.context tc with
                     | Some _ => true
                     | None => false
                     end) tcs
  = match Research.search_error tcs with None => true | Some _ => false end.
Proof.
  induction tcs as [|tc tcs IH]; [reflexivity|].
  cbn [forallb Research.search_error]. now destruct (Research.context tc).
Qed.

Lemma run_tools_outcome (deps : Research.SearchDataclass) (tcs : list Research.tool_call) :
  forall w : World Research.remote Research.agent_script unit,
    exists w',
      Research.run_tools deps tcs w
      = (match Research.search_error tcs with
         | None => Ok tt
         | Some e => Raise e
         end, w')
      /\ stdin w' = stdin w /\ replies w' = replies w
      /\ saves w' = saves w /\ asks w' = asks w.
Proof.
  induction tcs as [|tc tcs IH]; intros w.
  - exists w. repeat split.
  - cbn [Research.run_tools Research.search_error].
    unfold Research.get_search, bind, say, log.
    destruct (Research.context tc) as [results|].
    + cbn [ret].
      match goal with |- context [Research.run_tools deps tcs ?w1] =>
        destruct (IH w1) as (w' & E & Hs & Hr & Hsv & Ha)
      end.
      exists w'. rewrite E. repeat split; assumption.
    + cbn [raise]. eexists. split; [reflexivity|]. repeat split.
Qed.

Lemma agent_run_outcome (query : string) (deps : Research.SearchDataclass)
    (w : World Research.remote Research.agent_script unit) :
  exists r w',
    Research.agent_run query deps w = (r, w')
    /\ stdin w' = stdin w /\ replies w' = tl (replies w)
    /\ saves w' = saves w /\ asks w' = asks w
    /\ r = match Research.next_result (replies w) with
           | Some data => Ok data
           | None => Raise (Research.next_failure (replies w))
           end.
Proof.
  unfold Research.agent_run, call, bind, Research.next_result, Research.run_result,
    Research.next_failure, Research.run_failure.
  destruct (replies w) as [|script rs].
  - eexists _, _. split; [reflexivity|]. repeat split.
  - match goal with |- context [Research.run_tools deps _ ?w1] =>
      destruct (run_tools_outcome deps (Research.tool_calls script) w1)
        as (w' & E & Hs & Hr & Hsv & Ha)
    end.
    rewrite E, search_error_none.
    destruct (Research.search_error (Research.tool_calls script)).
    + eexists _, _. split; [reflexivity|]. repeat split; assumption.
    + destruct (Research.answer script) as [j|].
      * destruct (Research.validate_result j) as [data|];
          eexists _, _; (split; [reflexivity|]); repeat split; assumption.
      * eexists _, _. split; [reflexivity|]. repeat split; assumption.
Qed.

(** A turn on a query that is neither blank nor the quit command, up to
    the end of the run. *)
Lemma turn_run (today query : string) (rest : list string)
    (w : World Research.remote Research.agent_script unit) :
  blank query = false ->
  lower query <> "q" ->
  stdin w = query :: rest ->
  renders (nl ++ "[cyan]Researching: " ++ query ++ "[/cyan]") = true ->
  exists w2,
    Research.agent_run query (Research.mkDeps 3 today)
      (mkWorld rest (replies w)
         (Say (nl ++ "[cyan]Researching: " ++ query ++ "[/cyan]")
          :: Ask Research.query_prompt :: trace w))
    = (match Research.next_result (replies w) with
       | Some data => Ok data
       | None => Raise (Research.next_failure (replies w))
       end, w2)
    /\ stdin w2 = rest /\ replies w2 = tl (replies w)
    /\ saves w2 = saves w
    /\ (exists earlier,
          trace w2
          = (earlier ++ Say (nl ++ "[cyan]Researching: " ++ query ++ "[/cyan]")
               :: Ask Research.query_prompt :: trace w)%list).
Proof.
  intros Hblank Hquit Hin R.
  match goal with |- context [Research.agent_run ?q ?d ?w1] =>
    destruct (agent_run_outcome q d w1) as (r & w2 & E & Hs & Hr & Hsv & Ha & Hres);
    destruct (steady_agent_run q d w1 E) as [(earlier & Htrace) _]
  end.
  cbn [stdin replies trace] in *. subst r.
  exists w2. split; [exact E|]. split; [exact Hs|]. split; [exact Hr|].
  split; [exact Hsv|]. now exists earlier.
Qed.

(** ** One turn of the research loop *)

Section Steps.

Context {Req Rep Val : Type}.

#[local] Abbreviation Comp := (M Req Rep Val).

Lemma bind_eq {A B} (m : Comp A) (k : A -> Comp B) (w w1 : World Req Rep Val) (a : A) :
  m w = (Ok a, w1) -> bind m k w = k a w1.
Proof. intros E. unfold bind. now rewrite E. Qed.

Lemma bind_raise_eq {A B} (m : Comp A) (k : A -> Comp B) (w w1 : World Req Rep Val)
    (e : exn) :
  m w = (Raise e, w1) -> bind m k w = (Raise e, w1).
Proof. intros E. unfold bind. now rewrite E. Qed.

Lemma print_rendered (text : string) (w : World Req Rep Val) :
  renders text = true -> print text w = (Ok tt, record (Say text) w).
Proof. intros R. unfold print. now rewrite R. Qed.

Lemma print_refused (text : string) (w : World Req Rep Val) :
  renders text = false -> print text w = (Raise (MarkupError text), w).
Proof. intros R. unfold print. now rewrite R. Qed.

End Steps.

(** X16.  A turn whose run succeeds, and whose query, title, body and key
    points rich renders, shows the result and asks whether to save it.
    Unless the answer is "y" in any letter case nothing is written.  When it
    is "y", the file can be written and rich renders its path, one file is
    written, in [research_output], named after the title and holding the
    markdown of the result.  In both cases the loop goes on exactly when the
    answer to the last prompt is "y", and three lines are read.  When the
    answer is "y" and the file cannot be written (as for a title that
    holds a slash when [research_output] has no such subdirectory), nothing
    is written, the error is reported when rich renders it, and the third
    line answers whether to try again. *)
Theorem successful_turn_saves_on_request
    (today query save again : string) (rest : list string)
    (data : Research.ResearchResult)
    (w : World Research.remote Research.agent_script unit) :
  blank query = false ->
  lower query <> "q" ->
  Research.next_result (replies w) = Some data ->
  stdin w = query :: save :: again :: rest ->
  renders (nl ++ "[cyan]Researching: " ++ query ++ "[/cyan]") = true ->
  renders ("[bold blue]# " ++ Research.research_title data ++ "[/bold blue]") = true ->
  renders (nl ++ Research.research_main data) = true ->
  renders (Research.research_bullets data) = true ->
  let file := Research.filename_of (Research.research_title data) in
  (lower save <> "y" ->
   exists w',
     Research.turn today w = (Ok (String.eqb (lower again) "y"), w')
     /\ stdin w' = rest
     /\ replies w' = tl (replies w)
     /\ saves w' = saves w)
  /\ (lower save = "y" ->
      writable "research_output" file = true ->
      renders ("[green]Results saved to: " ++ joined "research_output" file ++ "[/green]")
      = true ->
      exists w',
        Research.turn today w = (Ok (String.eqb (lower again) "y"), w')
        /\ stdin w' = rest
        /\ replies w' = tl (replies w)
        /\ saves w' = Save "research_output" file (Research.markdown_of data) :: saves w)
  /\ (lower save = "y" ->
      writable "research_output" file = false ->
      renders ("[red]Error during research: "
               ++ describe (OSError "research_output" file) ++ "[/red]") = true ->
      exists w' earlier,
        Research.turn today w = (Ok (String.eqb (lower again) "y"), w')
        /\ stdin w' = rest
        /\ saves w' = saves w
        /\ trace w'
           = Ask EmptyString
             :: Say "[yellow]Would you like to try again? (y/n): [/yellow]"
             :: Say ("[red]Error during research: "
                     ++ describe (OSError "research_output" file) ++ "[/red]")
             :: earlier).
Proof.
  intros Hblank Hquit Hnext Hin R1 R2 R3 R4 file.
  assert (Hne : is_empty (strip query) = false).
  { destruct (is_empty (strip query)) eqn:E; [|reflexivity].
    apply strip_empty_iff_blank in E. congruence. }
  destruct (turn_run today w Hblank Hquit Hin R1) as (w2 & E & Hs & Hr & Hsv & _).
  rewrite Hnext in E. apply String.eqb_neq in Hquit.
  unfold saves in Hsv.
  eassert (Hturn : Research.turn today w = _).
  { unfold Research.turn.
    erewrite bind_eq; [|unfold ask; rewrite Hin; reflexivity].
    rewrite Hquit, Hne. unfold try_except. cbv zeta.
    erewrite bind_eq; [|apply print_rendered, R1].
    erewrite bind_eq; [|exact E].
    erewrite bind_eq; [|reflexivity].
    erewrite bind_eq; [|apply print_rendered, R2].
    erewrite bind_eq; [|apply print_rendered, R3].
    erewrite bind_eq; [|reflexivity].
    erewrite bind_eq; [|apply print_rendered, R4].
    erewrite bind_eq; [|unfold ask; cbn [stdin record]; rewrite Hs; reflexivity].
    fold file. reflexivity. }
  split; [|split].
  - intros Hn. apply String.eqb_neq in Hn. rewrite Hturn, Hn.
    erewrite bind_eq; [|reflexivity].
    erewrite bind_eq; [|unfold ask; reflexivity].
    destruct (String.eqb (lower again) "y"); cbn [negb];
      unfold bind, say, log, ret; cbn [record stdin replies trace];
      eexists; (split; [reflexivity|]); (split; [reflexivity|]);
      (split; [exact Hr|]); exact Hsv.
  - intros Hy Hw R5. rewrite Hturn, Hy. cbn [String.eqb Ascii.eqb Bool.eqb].
    erewrite bind_eq;
      [|erewrite bind_eq; [apply print_rendered, R5|];
        unfold write_file; rewrite Hw; reflexivity].
    erewrite bind_eq; [|unfold ask; reflexivity].
    destruct (String.eqb (lower again) "y"); cbn [negb];
      unfold bind, say, log, ret; cbn [record stdin replies trace];
      eexists; (split; [reflexivity|]); (split; [reflexivity|]);
      (split; [exact Hr|]); exact (f_equal (cons _) Hsv).
  - intros Hy Hw R5. rewrite Hturn, Hy. cbn [String.eqb Ascii.eqb Bool.eqb].
    erewrite bind_raise_eq;
      [|erewrite bind_raise_eq; [reflexivity|];
        unfold write_file; rewrite Hw; reflexivity].
    erewrite bind_eq; [|apply print_rendered; exact R5].
    erewrite bind_eq; [|reflexivity].
    erewrite bind_eq; [|unfold ask; reflexivity].
    destruct (String.eqb (lower again) "y"); cbn [negb];
      unfold ret; cbn [record stdin replies trace];
      eexists _, _; (split; [reflexivity|]); (split; [reflexivity|]);
      (split; [|reflexivity]); exact Hsv.
Qed.

(** X17.  A turn whose run raises (no service, a failing search, no answer
    or an answer that does not fit the schema) writes no file.  When rich
    renders the report of the exception, the turn reports it and asks
    whether to try again; the loop goes on exactly when the answer is "y" in
    any letter case, and two lines are read.  When rich does not render the
    report, the turn raises [MarkupError] and the second line is not read.
    When rich does not render the query itself, the run is not made: the
    exception caught is the [MarkupError] of the query, and the turn goes on
    in the same two ways. *)
Theorem failed_turn_saves_nothing_and_asks
    (today query again : string) (rest : list string)
    (w : World Research.remote Research.agent_script unit) :
  blank query = false ->
  lower query <> "q" ->
  stdin w = query :: again :: rest ->
  let researching := nl ++ "[cyan]Researching: " ++ query ++ "[/cyan]" in
  let prompt :=
    nl ++ "[bold yellow]Enter your research query (or 'q' to quit): [/bold yellow]" in
  (renders researching = true ->
   Research.next_result (replies w) = None ->
   let report :=
     "[red]Error during research: "
     ++ describe (Research.next_failure (replies w)) ++ "[/red]" in
   (renders report = true ->
    exists w' earlier,
      Research.turn today w = (Ok (String.eqb (lower again) "y"), w')
      /\ stdin w' = rest
      /\ saves w' = saves w
      /\ trace w'
         = Ask EmptyString
           :: Say "[yellow]Would you like to try again? (y/n): [/yellow]"
           :: Say report
           :: earlier)
   /\ (renders report = false ->
       exists w',
         Research.turn today w = (Raise (MarkupError report), w')
         /\ stdin w' = again :: rest
         /\ saves w' = saves w))
  /\ (renders researching = false ->
      let report :=
        "[red]Error during research: " ++ describe (MarkupError researching) ++ "[/red]" in
      Research.turn today w
      = if renders report
        then (Ok (String.eqb (lower again) "y"),
              mkWorld rest (replies w)
                (Ask EmptyString
                 :: Say "[yellow]Would you like to try again? (y/n): [/yellow]"
                 :: Say report
                 :: Ask prompt :: trace w))
        else (Raise (MarkupError report),
              mkWorld (again :: rest) (replies w) (Ask prompt :: trace w))).
Proof.
  intros Hblank Hquit Hin researching prompt.
  assert (Hne : is_empty (strip query) = false).
  { destruct (is_empty (strip query)) eqn:E; [|reflexivity].
    apply strip_empty_iff_blank in E. congruence. }
  pose proof Hquit as Hquit'. apply String.eqb_neq in Hquit'.
  split.
  - intros R1 Hnext report.
    destruct (turn_run today w Hblank Hquit Hin R1) as (w2 & E & Hs & Hr & Hsv & _).
    rewrite Hnext in E. unfold saves in Hsv.
    eassert (Hturn : Research.turn today w = _).
    { unfold Research.turn.
      erewrite bind_eq; [|unfold ask; rewrite Hin; reflexivity].
      rewrite Hquit', Hne. unfold try_except. cbv zeta.
      erewrite bind_eq; [|apply print_rendered, R1].
      erewrite bind_raise_eq; [|exact E].
      unfold error_report. fold report. reflexivity. }
    split.
    + intros R. rewrite Hturn.
      erewrite bind_eq; [|apply print_rendered, R].
      erewrite bind_eq; [|reflexivity].
      erewrite bind_eq; [|unfold ask; cbn [stdin record]; rewrite Hs; reflexivity].
      destruct (String.eqb (lower again) "y"); cbn [negb];
        unfold ret; cbn [record stdin replies trace];
        eexists _, _; (split; [reflexivity|]); (split; [reflexivity|]);
        (split; [|reflexivity]); exact Hsv.
    + intros R. rewrite Hturn.
      erewrite bind_raise_eq; [|apply print_refused, R].
      eexists. split; [reflexivity|]. split; [exact Hs|]. exact Hsv.
  - intros R1 report.
    unfold Research.turn.
    erewrite bind_eq; [|unfold ask; rewrite Hin; reflexivity].
    rewrite Hquit', Hne. unfold try_except. cbv zeta.
    erewrite bind_raise_eq; [|apply print_refused, R1].
    unfold error_report. fold researching. fold report.
    destruct (renders report) eqn:R.
    + erewrite bind_eq; [|apply print_rendered, R].
      erewrite bind_eq; [|reflexivity].
      erewrite bind_eq; [|unfold ask; reflexivity].
      now destruct (String.eqb (lower again) "y").
    + erewrite bind_raise_eq; [|apply print_refused, R]. reflexivity.
Qed.

(** X18.  Typing "q" or "Q" at the query prompt ends [main] at once: it
    says goodbye and returns, having read that line only and made no call. *)
Theorem quit_ends_the_research_loop (today query : string) (rest : list string)
    (w : World Research.remote Research.agent_script unit) :
  lower query = "q" ->
  stdin w = query :: rest ->
  Research.main today w
  = Some (Ok tt,
          mkWorld rest (replies w)
            (Say "[green]Goodbye![/green]"
             :: Ask Research.query_prompt
             :: Banner "[bold green]Research Assistant[/bold green]"
             :: trace w)).
Proof.
  intros Hq Hin. unfold Research.main, banner, log. cbn [record stdin].
  rewrite Hin. cbn [List.length Research.loop].
  unfold Research.turn. unfold bind at 1. unfold ask. cbn [record stdin replies trace].
  rewrite Hin, Hq. reflexivity.
Qed.

(** ** Refinement replies are not repaired (variant B) *)

Lemma untagged_item_is_invalid (fields : dict) :
  dict_has "subcategory" fields = false ->
  validate_item (SubCategory := B.SubCategory) (JObj fields) = None.
Proof.
  rewrite dict_has_get. intros Hmissing. cbn [validate_item].
  destruct (dict_get "subcategory" fields); [discriminate|].
  destruct (dict_get "point" fields) as [[]|]; try reflexivity;
    destruct (dict_get "quote" fields) as [[]|]; try reflexivity;
    destruct (dict_get "speaker" fields) as [[]|]; reflexivity.
Qed.

(** X19.  The refiner of variant B validates the reply as it comes,
    without the repair the first analysis applies: a refinement reply in
    which some item lacks its sub-tag is refused as a whole, with a
    validation error.  The iteration step then writes no file; it returns
    the previous insight when rich renders the two reports of that error,
    and raises [MarkupError] otherwise. *)
Theorem refinement_reply_is_not_repaired
    (d : dict) (c : Category) (items : list json) (fields : dict)
    (previous : B.Insight) (feedback transcript name : string)
    (rs : list B.completion) (w : World (request B.Insight) B.completion B.Insight) :
  dict_get (field_name c) d = Some (JArr items) ->
  In (JObj fields) items ->
  dict_has "subcategory" fields = false ->
  replies w = B.Content (JObj d) :: rs ->
  B.refinement (replies w) = None
  /\ exists r w',
       B._handle_iteration previous feedback transcript name w = (r, w')
       /\ replies w' = rs
       /\ saves w' = saves w
       /\ calls w' = Call (ImproveRequest previous feedback transcript) :: calls w
       /\ (r = Ok previous \/ exists markup, r = Raise (MarkupError markup))
       /\ (renders ("[red]Error in improve_insights: "
                    ++ describe (ValidationError (JObj d)) ++ "[/red]") = true ->
           renders ("[red]Error during iteration: "
                    ++ describe (ValidationError (JObj d)) ++ "[/red]") = true ->
           r = Ok previous).
Proof.
  intros Hget Hin Hmissing Hrs.
  assert (Hinvalid : validate (SubCategory := B.SubCategory) (JObj d) = None).
  { apply validate_field_none with c. unfold validate_field. rewrite Hget.
    cbn [validate_items]. apply traverse_none_in with (x := JObj fields); [exact Hin|].
    now apply untagged_item_is_invalid. }
  assert (Hnone : B.refinement (replies w) = None) by (rewrite Hrs; exact Hinvalid).
  split; [exact Hnone|].
  destruct (B_handle_iteration_frame previous feedback transcript name w)
    as (r & w' & E & _ & Hr & _ & Hc & _ & Hno).
  destruct (Hno Hnone) as (Hsv & Hcases & Hok).
  rewrite Hrs in Hr, Hok. cbn [tl B.failure] in Hr, Hok.
  exists r, w'. split; [exact E|]. split; [exact Hr|]. split; [exact Hsv|].
  split; [exact Hc|]. split; [exact Hcases | exact Hok].
Qed.

End Properties.

(* ================================================================= *)
(** * The properties on the stand-up scenario

    The examples run on Python 3.11, with the stand-ins of [Sample] for
    rich, for the texts of the exceptions and for the file system. *)

Section Examples.

#[local] Existing Instance Sample.python_3_11.

(** ** The claims *)

Lemma blank_transcript_short_circuits_in_A_witness :
  blank (" " ++ nl) = true
  /\ A.process_transcript false "standup" (" " ++ nl)
       (Sample.world_A ["y"] [A.Structured Sample.standup])
     = (Ok empty_insight,
        record (Say "[red]Error: Transcript is empty![/red]")
               (Sample.world_A ["y"] [A.Structured Sample.standup])).
Proof.
  split; [reflexivity|].
  apply (proj1 blank_transcript_short_circuits_in_A false "standup" (" " ++ nl)
               (Sample.world_A ["y"] [A.Structured Sample.standup])).
  reflexivity.
Defined.

(** C1, as stated, fails in variant B: the empty transcript is sent to the
    completion service, and the insight returned is what the service
    answered, here one task. *)
Lemma blank_transcript_reaches_backend_in_B :
  blank EmptyString = true
  /\ B.process_transcript "standup" EmptyString
       (Sample.world_B [] [B.Content Sample.reply_json])
     = (Ok Sample.standup_B,
        mkWorld [] [] [Call (AnalyzeRequest EmptyString)])
  /\ tasks Sample.standup_B <> [].
Proof.
  split; [reflexivity|]. split; [vm_compute; reflexivity | discriminate].
Qed.

(** C2 fails on the code.  The iteration step means to return the insight
    it was given when the refiner raises, but both handlers on the way
    print the text of the exception as markup.  Here the refiner is
    answered with a task whose sub-tag is the marker [/INST].  Validation
    refuses the reply with an error that quotes the marker; printing that
    error raises [MarkupError] in the handler of [improve_insights], and
    printing the text of that [MarkupError], which quotes the marker
    again, raises in the handler of [_handle_iteration].  The exception
    leaves the iteration step: the previous insight is not returned.  So it
    is in variant A when the structured call is refused with that
    error. *)
Lemma refinement_failure_can_lose_previous :
  B.refinement [B.Content Sample.stray_tag_json] = None
  /\ (exists markup w',
        B._handle_iteration Sample.standup_B "add Bob as attendee" Sample.transcript
          "standup" (Sample.world_B [] [B.Content Sample.stray_tag_json])
        = (Raise (MarkupError markup), w')
        /\ trace w'
           = [ Call (ImproveRequest Sample.standup_B "add Bob as attendee"
                                    Sample.transcript);
               Banner "[bold red]Iteration Based on Feedback[/bold red]" ])
  /\ A.refinement [A.Refused (ValidationError Sample.stray_tag_json)] = None
  /\ (exists markup w',
        A._handle_iteration Sample.standup "add Bob as attendee" Sample.transcript
          "standup"
          (Sample.world_A [] [A.Refused (ValidationError Sample.stray_tag_json)])
        = (Raise (MarkupError markup), w')).
Proof.
  split; [reflexivity|]. split; [|split; [reflexivity|]].
  - eexists _, _. split; vm_compute; reflexivity.
  - eexists _, _. vm_compute. reflexivity.
Qed.

Lemma final_insight_is_persisted_in_A_witness :
  exists final w' earlier,
    A.process_transcript false "standup" Sample.transcript
      (Sample.world_A ("2" :: typed Sample.groups) [A.Structured empty_insight])
    = (Ok final, w')
    /\ trace w'
       = Say "[green] Final output saved to:[/green] [bold blue]"
         :: Save "output/standup" "2_final_output.md" (to_markdown final)
         :: earlier
    /\ tasks final
       = [ mkItem "Finish API" "Manually entered" "Manual Entry" A.PROPOSED;
           mkItem "Write tests" "Manually entered" "Manual Entry" A.PROPOSED ]
    /\ decisions final
       = [ mkItem "Use Postgres" "Manually entered" "Manual Entry" A.PROPOSED ].
Proof.
  destruct (proj1 final_insight_is_persisted_in_A EndManual "standup" Sample.transcript
                  empty_insight []
                  (Sample.world_A ("2" :: typed Sample.groups)
                                  [A.Structured empty_insight]))
    as (final & w' & earlier & E & Ht & _ & Hg).
  - reflexivity.
  - reflexivity.
  - split; [reflexivity|]. exists Sample.groups, []. split.
    + cbn [stdin Sample.world_A]. now rewrite app_nil_r.
    + intros c. now destruct c.
  - exists final, w', earlier. split; [exact E|]. split; [exact Ht|].
    assert (Hin : stdin (Sample.world_A ("2" :: typed Sample.groups)
                                        [A.Structured empty_insight])
                  = ("2" :: typed Sample.groups ++ [])%list)
      by (cbn [stdin Sample.world_A]; now rewrite app_nil_r).
    assert (Hne : forall c, nonempty_lines (Sample.groups c) = true)
      by (intros c; now destruct c).
    split.
    + exact (Hg Sample.groups [] Hin Hne Tasks).
    + exact (Hg Sample.groups [] Hin Hne Decisions).
Defined.

(** C3, as stated, fails in variant B: its flow returns the insight it
    extracted without writing any file, and its review handler, reached
    directly, ends on approval without writing one either. *)
Lemma final_insight_is_not_persisted_in_B :
  let flow := B.process_transcript "standup" Sample.transcript
                (Sample.world_B ["y"] [B.Content Sample.reply_json]) in
  let review := B._handle_human_review Sample.standup_B Sample.transcript "standup"
                  (Sample.world_B ["y"] []) in
  fst flow = Ok Sample.standup_B
  /\ saves (snd flow) = []
  /\ stdin (snd flow) = ["y"]
  /\ fst review = Ok Sample.standup_B
  /\ stdin (snd review) = []
  /\ saves (snd review) = [].
Proof. cbv zeta. repeat split; vm_compute; reflexivity. Qed.

Lemma rejection_refines_once_then_returns_witness :
  exists r w',
    A._handle_human_review Sample.standup Sample.transcript "standup"
      (Sample.world_A ["n"; "add Bob as attendee"; "y"]
                      [A.Structured Sample.standup_with_bob])
    = (r, w')
    /\ stdin w' = ["y"]
    /\ asks w'
       = [ Ask EmptyString;
           Ask (nl ++ "[bold yellow]Approve these insights? (y/n): [/bold yellow]") ]
    /\ calls w' = [Call (ImproveRequest Sample.standup "add Bob as attendee"
                                        Sample.transcript)]
    /\ r = Ok Sample.standup_with_bob.
Proof.
  destruct (proj1 rejection_refines_once_then_returns Sample.standup Sample.transcript
                  "standup" "n" "add Bob as attendee" ["y"]
                  (Sample.world_A ["n"; "add Bob as attendee"; "y"]
                                  [A.Structured Sample.standup_with_bob]))
    as (r & w' & E & Hs & Ha & Hc & Hyes & _);
    [reflexivity | discriminate | reflexivity |].
  exists r, w'. split; [exact E|]. split; [exact Hs|]. split; [exact Ha|].
  split; [exact Hc|]. exact (Hyes Sample.standup_with_bob eq_refl).
Defined.

(** C4, as stated, fails: after "n" and the feedback the refiner produces a
    replacement, and the review returns it at once.  Approval was asked a
    single time, before the refinement, and the "y" typed next is never
    read. *)
Lemma refined_insight_is_not_reviewed_again :
  let w := Sample.world_A ["n"; "add Bob as attendee"; "y"]
                          [A.Structured Sample.standup_with_bob] in
  let run := A._handle_human_review Sample.standup Sample.transcript "standup" w in
  fst run = Ok Sample.standup_with_bob
  /\ stdin (snd run) = ["y"]
  /\ filter (fun e => match e with
                      | Ask prompt => String.eqb prompt approve_prompt
                      | _ => false
                      end) (trace (snd run))
     = [Ask approve_prompt]
  /\ exists earlier,
       trace (snd run)
       = (Say (iteration_saved A.wording)
          :: Save "output/standup" "3_iteration.md" (to_markdown Sample.standup_with_bob)
          :: Say "[green]Improvement complete.[/green]"
          :: Call (ImproveRequest Sample.standup "add Bob as attendee" Sample.transcript)
          :: earlier)%list.
Proof.
  cbv zeta. repeat split; try (vm_compute; reflexivity).
  eexists. vm_compute. reflexivity.
Qed.

Lemma to_markdown_renders_every_item_witness :
  (exists body,
      section_text (runtime := Sample.python_3_11) "Tasks" (tasks Sample.standup)
      = "## " ++ "Tasks" ++ nl ++ body
      /\ Substring (item_block (runtime := Sample.python_3_11) Sample.finish_api) body
      /\ Substring "Finish API" (item_block (runtime := Sample.python_3_11) Sample.finish_api)
      /\ Substring "I will finish the API by Friday."
                   (item_block (runtime := Sample.python_3_11) Sample.finish_api)
      /\ Substring "Alice" (item_block (runtime := Sample.python_3_11) Sample.finish_api)
      /\ Substring "SubCategory.ASSIGNED"
                   (item_block (runtime := Sample.python_3_11) Sample.finish_api))
  /\ (exists body,
        section_text (runtime := Sample.python_3_10) "Tasks" (tasks Sample.standup)
        = "## " ++ "Tasks" ++ nl ++ body
        /\ Substring (item_block (runtime := Sample.python_3_10) Sample.finish_api) body
        /\ Substring "assigned"
                     (item_block (runtime := Sample.python_3_10) Sample.finish_api)).
Proof.
  split.
  - destruct (proj2 (to_markdown_renders_every_item (runtime := Sample.python_3_11)
                       Sample.standup)
                    "Tasks" (tasks Sample.standup) (or_introl eq_refl))
      as (body & Hsection & _ & Hitems).
    destruct (Hitems Sample.finish_api (or_introl eq_refl))
      as (Hblock & _ & Hpoint & Hquote & Hspeaker & Hname & _).
    exists body. split; [exact Hsection|]. split; [exact Hblock|].
    split; [exact Hpoint|]. split; [exact Hquote|]. split; [exact Hspeaker|].
    exact (Hname eq_refl).
  - destruct (proj2 (to_markdown_renders_every_item (runtime := Sample.python_3_10)
                       Sample.standup)
                    "Tasks" (tasks Sample.standup) (or_introl eq_refl))
      as (body & Hsection & _ & Hitems).
    destruct (Hitems Sample.finish_api (or_introl eq_refl))
      as (Hblock & _ & _ & _ & _ & _ & Hvalue).
    exists body. split; [exact Hsection|]. split; [exact Hblock|].
    exact (Hvalue eq_refl).
Defined.

(** C5, as stated, fails from Python 3.11 on: the task of the stand-up
    carries the sub-tag whose value is "assigned", and that text occurs
    nowhere in the markdown; what is rendered is the qualified name of the
    member. *)
Lemma subcategory_value_is_not_rendered_from_python_3_11 :
  In Sample.finish_api (tasks Sample.standup)
  /\ value (subcategory Sample.finish_api) = "assigned"
  /\ ~ Substring "assigned" (to_markdown (runtime := Sample.python_3_11) Sample.standup)
  /\ Substring "  - Category: SubCategory.ASSIGNED"
               (to_markdown (runtime := Sample.python_3_11) Sample.standup).
Proof.
  split; [now left|]. split; [reflexivity|]. split.
  - apply not_contains_not_Substring. vm_compute. reflexivity.
  - apply contains_Substring. vm_compute. reflexivity.
Qed.

Lemma manual_entry_one_item_per_line_witness :
  exists (m : A.Insight) w',
    A._handle_manual_entry (Sample.world_A (typed Sample.groups ++ ["y"]) [])
    = (Ok m, w')
    /\ stdin w' = ["y"]
    /\ forall c,
         getattr m c = map manual_item (Sample.groups c)
         /\ List.length (getattr m c) = List.length (Sample.groups c)
         /\ map point (getattr m c) = Sample.groups c
         /\ Forall (fun item => quote item = "Manually entered"
                                /\ speaker item = "Manual Entry")
                    (getattr m c).
Proof.
  apply (manual_entry_one_item_per_line A.wording Sample.groups ["y"]
           (Sample.world_A (typed Sample.groups ++ ["y"]) [])).
  - intros c. destruct c; reflexivity.
  - reflexivity.
Defined.

(** C7 fails on the code.  Variant B means to give up with the empty
    insight when the reply cannot be used even after the substitution, but
    its handler prints the text of the exception as markup.  Here the reply
    carries a task whose sub-tag is the marker [/INST]: the substitution
    leaves it, validation refuses it with an error that quotes it, and
    printing that error raises [MarkupError] in the handler.  The extractor
    raises, and so does the flow: the reply is fatal. *)
Lemma unusable_reply_can_be_fatal_in_B :
  B.extraction_per_spec (Some (B.Content Sample.stray_tag_json)) = None
  /\ (exists markup w',
        B.analyze_transcript Sample.transcript
          (Sample.world_B [] [B.Content Sample.stray_tag_json])
        = (Raise (MarkupError markup), w'))
  /\ (exists markup w',
        B.process_transcript "standup" Sample.transcript
          (Sample.world_B [] [B.Content Sample.stray_tag_json])
        = (Raise (MarkupError markup), w')
        /\ trace w' = [Call (AnalyzeRequest Sample.transcript)]).
Proof.
  split; [reflexivity|]. split.
  - eexists _, _. vm_compute. reflexivity.
  - eexists _, _. split; vm_compute; reflexivity.
Qed.

Lemma repair_tags_by_category_manual_entry_tags_proposed_witness :
  (exists m w',
      A._handle_manual_entry (Sample.world_A (typed Sample.groups) []) = (Ok m, w')
      /\ all_tagged A.PROPOSED m = true)
  /\ Forall (fun c =>
               exists item' tag,
                 B.fill_subcategory c
                   (JObj [ ("point", JStr "Use Postgres");
                           ("quote", JStr "Let us use Postgres.");
                           ("speaker", JStr "Bob") ])
                 = Some item'
                 /\ validate_item item'
                    = Some (mkItem "Use Postgres" "Let us use Postgres." "Bob" tag)
                 /\ B.SubCategory_value tag = B.default_subcategory c
                 /\ In tag (B.SubCategory_tags c)
                 /\ tag_valid_for c
                      (mkItem "Use Postgres" "Let us use Postgres." "Bob" tag) = true)
            model_fields.
Proof.
  split.
  - apply (proj1 (proj2 (proj2 (proj2 repair_tags_by_category_manual_entry_tags_proposed)))
                 Sample.groups [] (Sample.world_A (typed Sample.groups) [])).
    + intros c. destruct c; reflexivity.
    + reflexivity.
  - apply Forall_forall. intros c _.
    apply (proj1 (proj2 (proj2 repair_tags_by_category_manual_entry_tags_proposed)) c
                 [ ("point", JStr "Use Postgres");
                   ("quote", JStr "Let us use Postgres.");
                   ("speaker", JStr "Bob") ]);
      reflexivity.
Defined.

(** C8, as stated, fails.  A decision entered by hand is tagged
    "proposed", a sub-tag of the tasks; and a reply that tags a decision
    "blocked" passes the extraction of variant B unchanged. *)
Lemma manual_entry_and_extraction_break_the_tag_invariant :
  (exists m,
      fst (A._handle_manual_entry (Sample.world_A (typed Sample.groups) [])) = Ok m
      /\ decisions m = [manual_item "Use Postgres"]
      /\ well_tagged m = false)
  /\ (exists m,
        fst (B._handle_manual_entry (Sample.world_B (typed Sample.groups) [])) = Ok m
        /\ decisions m = [manual_item "Use Postgres"]
        /\ well_tagged m = false)
  /\ (exists m,
        fst (B.analyze_transcript Sample.transcript
               (Sample.world_B [] [B.Content Sample.mistagged_json])) = Ok m
        /\ decisions m = [mkItem "Use Postgres" "Let us use Postgres." "Bob" B.BLOCKED]
        /\ well_tagged m = false).
Proof.
  split; [|split]; eexists; (split; [vm_compute; reflexivity|]);
    split; vm_compute; reflexivity.
Qed.

Lemma research_title_is_required_but_may_be_empty_witness :
  exists script rs d,
    replies (Sample.world_R [] [Sample.cats_script]) = script :: rs
    /\ Research.answer script = Some (JObj d)
    /\ dict_get "research_title" d = Some (JStr EmptyString).
Proof.
  apply (proj1 research_title_is_required_but_may_be_empty "cats"
               (Research.mkDeps 3 "2024-05-01")
               (Sample.world_R [] [Sample.cats_script])
               (snd (Research.agent_run "cats" (Research.mkDeps 3 "2024-05-01")
                                        (Sample.world_R [] [Sample.cats_script])))
               (Research.mkResult EmptyString "Cats sleep most of the day." "- sleep")).
  reflexivity.
Defined.

(** C9, as stated, fails: a run whose structured answer has an empty title
    succeeds, and the empty title is what is shown. *)
Lemma research_run_succeeds_with_empty_title :
  let run := Research.main "2024-05-01"
               (Sample.world_R ["cats"; "n"; "n"] [Sample.cats_script]) in
  Research.validate_result Sample.untitled_json
  = Some (Research.mkResult EmptyString "Cats sleep most of the day." "- sleep")
  /\ exists wf,
       run = Some (Ok tt, wf)
       /\ In (Call (Research.Run "cats" (Research.mkDeps 3 "2024-05-01"))) (trace wf)
       /\ In (Say ("[bold blue]# " ++ EmptyString ++ "[/bold blue]")) (trace wf).
Proof.
  cbv zeta. split; [reflexivity|].
  eexists. split; [vm_compute; reflexivity|].
  split; vm_compute; tauto.
Qed.

Lemma blank_query_is_refused_and_asked_again_witness :
  let w := mkWorld ["   "; "q"] [Sample.cats_script]
             [ Say "[green]Results saved to: research_output/.md[/green]";
               Banner "[bold green]Research Assistant[/bold green]" ] in
  let refused :=
    mkWorld ["q"] [Sample.cats_script]
      [ Say "[red]Please enter a valid query.[/red]";
        Ask (nl ++ "[bold yellow]Enter your research query (or 'q' to quit): [/bold yellow]");
        Say "[green]Results saved to: research_output/.md[/green]";
        Banner "[bold green]Research Assistant[/bold green]" ] in
  Research.turn "2024-05-01" w = (Ok true, refused)
  /\ Research.loop "2024-05-01" 3 w = Research.loop "2024-05-01" 2 refused
  /\ calls refused = calls w.
Proof.
  cbv zeta.
  destruct (@blank_query_is_refused_and_asked_again _ "2024-05-01" "   " ["q"]
              (mkWorld ["   "; "q"] [Sample.cats_script]
                 [ Say "[green]Results saved to: research_output/.md[/green]";
                   Banner "[bold green]Research Assistant[/bold green]" ])
              eq_refl eq_refl)
    as (Hturn & Hloop & Hcalls & _).
  split; [exact Hturn|]. split; [exact (Hloop 2) | exact Hcalls].
Defined.

(** ** Further properties *)

Lemma preprocess_collapses_or_erases_witness :
  B._preprocess_transcript ("  10:30   AM " ++ nl) = EmptyString
  /\ B._preprocess_transcript ("Speaker 1:  we  ship on Friday" ++ nl ++ " Today")
     = "Speaker 1: we ship on Friday Today".
Proof.
  split.
  - apply (proj1 (preprocess_collapses_or_erases ("  10:30   AM " ++ nl)));
      [reflexivity | vm_compute; lia].
  - apply (proj2 (preprocess_collapses_or_erases
                    ("Speaker 1:  we  ship on Friday" ++ nl ++ " Today"))).
    right. vm_compute. lia.
Defined.


Lemma manual_entry_needs_seven_empty_lines_witness :
  (exists m w',
      A._handle_manual_entry (Sample.world_A (typed Sample.groups) []) = (Ok m, w')
      /\ 7 + empty_line_count (stdin w')
         = empty_line_count (stdin (Sample.world_A (typed Sample.groups) [])))
  /\ (exists w',
        A._handle_manual_entry (Sample.world_A ["Finish API"; EmptyString; "Use Postgres"] [])
        = (Raise EOFError, w')
        /\ stdin w' = []).
Proof.
  split.
  - apply (proj1 (manual_entry_needs_seven_empty_lines A.wording
                    (Sample.world_A (typed Sample.groups) []))).
    vm_compute. lia.
  - apply (proj2 (manual_entry_needs_seven_empty_lines A.wording
                    (Sample.world_A ["Finish API"; EmptyString; "Use Postgres"] []))).
    vm_compute. lia.
Defined.

Lemma auto_mode_never_prompts_witness :
  exists r w',
    A.process_transcript true "standup" Sample.transcript
      (Sample.world_A ["n"] [A.Structured Sample.standup]) = (r, w')
    /\ stdin w' = ["n"]
    /\ asks w' = []
    /\ calls w' = [Call (AnalyzeRequest Sample.transcript)]
    /\ r = Ok Sample.standup
    /\ saves w'
       = [ Save "output/standup" "2_final_output.md" (to_markdown Sample.standup);
           Save "output/standup" "1_analysis.md" (to_markdown Sample.standup) ].
Proof.
  destruct (@auto_mode_never_prompts _ "standup" Sample.transcript
              (Sample.world_A ["n"] [A.Structured Sample.standup]) eq_refl)
    as (r & w' & Hrun & Hin & Hasks & Hcalls & Hr & Hsaves).
  exists r, w'. repeat split; assumption.
Defined.

Lemma rejection_writes_iteration_and_final_witness :
  exists r w',
    A.process_transcript false "standup" Sample.transcript
      (Sample.world_A ["n"; "add Bob as attendee"]
         [A.Structured Sample.standup; A.Structured Sample.standup_with_bob])
    = (r, w')
    /\ stdin w' = []
    /\ calls w' = [ Call (ImproveRequest Sample.standup "add Bob as attendee"
                                         Sample.transcript);
                    Call (AnalyzeRequest Sample.transcript) ]
    /\ r = Ok Sample.standup_with_bob
    /\ saves w'
       = [ Save "output/standup" "2_final_output.md" (to_markdown Sample.standup_with_bob);
           Save "output/standup" "3_iteration.md" (to_markdown Sample.standup_with_bob);
           Save "output/standup" "1_analysis.md" (to_markdown Sample.standup) ].
Proof.
  destruct (@rejection_writes_iteration_and_final _ "standup" Sample.transcript "n"
              "add Bob as attendee" Sample.standup [A.Structured Sample.standup_with_bob] []
              (Sample.world_A ["n"; "add Bob as attendee"]
                 [A.Structured Sample.standup; A.Structured Sample.standup_with_bob]))
    as (r & w' & E & Hs & Hc & Hyes & _);
    [reflexivity | reflexivity | reflexivity | discriminate | reflexivity |].
  destruct (Hyes Sample.standup_with_bob eq_refl) as (Hr & Hsaves).
  exists r, w'. split; [exact E|]. split; [exact Hs|]. split; [exact Hc|].
  split; [exact Hr | exact Hsaves].
Defined.

Lemma end_of_input_in_review_loses_final_output_witness :
  exists w',
    A.process_transcript false "standup" Sample.transcript
      (Sample.world_A [] [A.Structured Sample.standup])
    = (Raise EOFError, w')
    /\ saves w'
       = [Save ("output/" ++ "standup") "1_analysis.md" (to_markdown Sample.standup)]
    /\ calls w' = [Call (AnalyzeRequest Sample.transcript)].
Proof.
  apply (@end_of_input_in_review_loses_final_output _ "standup" Sample.transcript
           Sample.standup [] (Sample.world_A [] [A.Structured Sample.standup]));
    reflexivity.
Defined.

Lemma empty_menu_feedback_refines_the_empty_insight_witness :
  exists r w',
    A._handle_human_review empty_insight Sample.transcript "standup"
      (Sample.world_A ["1"; "look for tasks"; "y"] [A.Structured Sample.standup])
    = (r, w')
    /\ stdin w' = ["y"]
    /\ calls w' = [Call (ImproveRequest empty_insight "look for tasks" Sample.transcript)]
    /\ r = Ok Sample.standup.
Proof.
  destruct (proj1 empty_menu_feedback_refines_the_empty_insight empty_insight
                  Sample.transcript "standup" "look for tasks" ["y"]
                  (Sample.world_A ["1"; "look for tasks"; "y"]
                                  [A.Structured Sample.standup]))
    as (r & w' & E & Hs & Hc & Hyes & _); [reflexivity | reflexivity |].
  exists r, w'. split; [exact E|]. split; [exact Hs|]. split; [exact Hc|].
  exact (Hyes Sample.standup eq_refl).
Defined.

Lemma main_A_on_blank_or_failing_first_transcript_witness :
  A.main [Sample.blank_file; Sample.standup_file]
    (Sample.world_A ["y"] [A.Structured Sample.standup])
  = (Ok tt,
     mkWorld ["y"] [A.Structured Sample.standup]
       [ Say processed_message;
         Say "[red]Error: Transcript is empty![/red]";
         Say (nl ++ "[bold blue]Processing: " ++ "blank.md" ++ "[/bold blue]");
         Banner "[bold green]Meeting Transcript Processor[/bold green]" ]).
Proof.
  apply (proj1 (main_A_on_blank_or_failing_first_transcript Sample.blank_file
                  [Sample.standup_file]
                  (Sample.world_A ["y"] [A.Structured Sample.standup]))).
  reflexivity.
Defined.

Lemma selection_takes_the_first_valid_line_witness :
  exists chosen w',
    B.select_transcript Sample.small_int [Sample.standup_file; Sample.blank_file]
      (Sample.world_B ["0"; "two"; "3"; "2"; "y"] [])
    = (Ok (Some chosen), w')
    /\ nth_error [Sample.standup_file; Sample.blank_file] (Z.to_nat (2 - 1)) = Some chosen
    /\ stdin w' = ["y"]
    /\ calls w' = calls (Sample.world_B ["0"; "two"; "3"; "2"; "y"] [])
    /\ saves w' = saves (Sample.world_B ["0"; "two"; "3"; "2"; "y"] [])
    /\ List.length (asks w')
       = List.length (asks (Sample.world_B ["0"; "two"; "3"; "2"; "y"] []))
         + List.length ["0"; "two"; "3"] + 1.
Proof.
  apply (proj2 (@selection_takes_the_first_valid_line Sample.small_int
                  [Sample.standup_file; Sample.blank_file] ["0"; "two"; "3"] "2" ["y"]
                  (Sample.world_B ["0"; "two"; "3"; "2"; "y"] []) eq_refl eq_refl) 2%Z);
    [discriminate | reflexivity | cbn; lia].
Defined.

Lemma main_B_analyzes_once_and_keeps_nothing_witness :
  exists chosen r w',
    nth_error [Sample.standup_file; Sample.blank_file] (Z.to_nat (1 - 1)) = Some chosen
    /\ B.main Sample.small_int [Sample.standup_file; Sample.blank_file]
         (Sample.world_B ["9"; "1"; "y"] [B.Unreachable "Connection refused."])
       = (r, w')
    /\ stdin w' = ["y"]
    /\ calls w' = [Call (AnalyzeRequest (file_text chosen))]
    /\ saves w' = []
    /\ r = Ok tt.
Proof.
  destruct (proj2 (@main_B_analyzes_once_and_keeps_nothing _ Sample.small_int
                     [Sample.standup_file; Sample.blank_file] ["9"] "1" ["y"]
                     (Sample.world_B ["9"; "1"; "y"] [B.Unreachable "Connection refused."])
                     ltac:(discriminate) eq_refl eq_refl)
                  1%Z ltac:(discriminate) eq_refl ltac:(cbn; lia))
    as (chosen & r & w' & Hnth & E & Hs & Hc & Hsv & _ & _ & Hok).
  exists chosen, r, w'. split; [exact Hnth|]. split; [exact E|]. split; [exact Hs|].
  split; [exact Hc|]. split; [exact Hsv|]. apply Hok. right. reflexivity.
Defined.

Lemma unknown_subtag_discards_the_reply_witness :
  exists report,
    B.analyze_transcript Sample.transcript
      (Sample.world_B []
         [B.Content (JObj [ ("tasks", JArr [Sample.task_json]);
                            ("decisions",
                             JArr [JObj [ ("point", JStr "Use Postgres");
                                          ("quote", JStr "Let us use Postgres.");
                                          ("speaker", JStr "Bob");
                                          ("subcategory", JStr "agreed") ]]) ])])
    = (Ok empty_insight,
       mkWorld [] [] [ Say report; Call (AnalyzeRequest Sample.transcript) ]).
Proof.
  eexists.
  exact (proj2 (@unknown_subtag_discards_the_reply _
           [ ("tasks", JArr [Sample.task_json]);
             ("decisions",
              JArr [JObj [ ("point", JStr "Use Postgres");
                           ("quote", JStr "Let us use Postgres.");
                           ("speaker", JStr "Bob");
                           ("subcategory", JStr "agreed") ]]) ]
           Decisions
           [JObj [ ("point", JStr "Use Postgres");
                   ("quote", JStr "Let us use Postgres.");
                   ("speaker", JStr "Bob");
                   ("subcategory", JStr "agreed") ]]
           [ ("point", JStr "Use Postgres");
             ("quote", JStr "Let us use Postgres.");
             ("speaker", JStr "Bob");
             ("subcategory", JStr "agreed") ]
           "agreed" Sample.transcript []
           (Sample.world_B []
              [B.Content (JObj [ ("tasks", JArr [Sample.task_json]);
                                 ("decisions",
                                  JArr [JObj [ ("point", JStr "Use Postgres");
                                               ("quote", JStr "Let us use Postgres.");
                                               ("speaker", JStr "Bob");
                                               ("subcategory", JStr "agreed") ]]) ])])
           eq_refl (or_introl eq_refl) eq_refl eq_refl eq_refl)).
Defined.

Lemma repair_completes_and_preserves_witness :
  dict_has "tasks"
    (match B.add_defaults model_fields [ ("decisions", JArr [Sample.task_json]);
                                         ("note", JStr "draft") ] with
     | Some d' => d'
     | None => []
     end) = true.
Proof.
  apply (proj1 (@repair_completes_and_preserves
                  [ ("decisions", JArr [Sample.task_json]); ("note", JStr "draft") ]
                  _ eq_refl) Tasks).
Defined.


Lemma research_filename_collisions_witness :
  Research.filename_of
    ("A survey of sleep in domestic cats and other small mammals" ++ ", part two")
  = Research.filename_of "A survey of sleep in domestic cats and other small mammals".
Proof.
  apply (proj2 (proj2 (research_filename_collisions
                         "A survey of sleep in domestic cats and other small mammals"))).
  vm_compute. lia.
Defined.

Lemma research_calls_are_expected_witness :
  exists r w' later,
    Research.main "2024-05-01" (Sample.world_R ["cats"; "n"; "n"] [Sample.cats_script])
    = Some (r, w')
    /\ trace w'
       = (later ++ trace (Sample.world_R ["cats"; "n"; "n"] [Sample.cats_script]))%list
    /\ Forall (Research.expected_event "2024-05-01" ["cats"; "n"; "n"]) later.
Proof.
  destruct (Research.main "2024-05-01"
              (Sample.world_R ["cats"; "n"; "n"] [Sample.cats_script]))
    as [[r w']|] eqn:E; [|vm_compute in E; discriminate E].
  destruct (proj2 (@research_calls_are_expected _ "2024-05-01"
                     (Sample.world_R ["cats"; "n"; "n"] [Sample.cats_script]))
                  r w' E)
    as (later & Htrace & Hexp).
  exists r, w', later. split; [reflexivity|]. split; [exact Htrace | exact Hexp].
Defined.

Lemma successful_turn_saves_on_request_witness :
  (exists w',
      Research.turn "2024-05-01"
        (Sample.world_R ["cats"; "Y"; "n"; "q"] [Sample.cats_script])
      = (Ok false, w')
      /\ stdin w' = ["q"]
      /\ replies w' = []
      /\ saves w'
         = [ Save "research_output" ".md"
               (Research.markdown_of
                  (Research.mkResult EmptyString "Cats sleep most of the day."
                                     "- sleep")) ])
  /\ (exists w' earlier,
        Research.turn "2024-05-01"
          (Sample.world_R ["trends"; "y"; "n"; "q"] [Sample.trends_script])
        = (Ok false, w')
        /\ stdin w' = ["q"]
        /\ saves w' = []
        /\ trace w'
           = Ask EmptyString
             :: Say "[yellow]Would you like to try again? (y/n): [/yellow]"
             :: Say ("[red]Error during research: "
                     ++ "[Errno 2] No such file or directory: "
                     ++ "'research_output/ai/ml_trends.md'" ++ "[/red]")
             :: earlier).
Proof.
  split.
  - apply (proj1 (proj2
             (@successful_turn_saves_on_request _ "2024-05-01" "cats" "Y" "n" ["q"]
                (Research.mkResult EmptyString "Cats sleep most of the day." "- sleep")
                (Sample.world_R ["cats"; "Y"; "n"; "q"] [Sample.cats_script])
                eq_refl ltac:(discriminate) eq_refl eq_refl
                eq_refl eq_refl eq_refl eq_refl)));
      reflexivity.
  - apply (proj2 (proj2
             (@successful_turn_saves_on_request _ "2024-05-01" "trends" "y" "n" ["q"]
                (Research.mkResult "AI/ML trends" "Models grow." "- growth")
                (Sample.world_R ["trends"; "y"; "n"; "q"] [Sample.trends_script])
                eq_refl ltac:(discriminate) eq_refl eq_refl
                eq_refl eq_refl eq_refl eq_refl)));
      reflexivity.
Defined.

Lemma failed_turn_saves_nothing_and_asks_witness :
  (exists w' earlier,
      Research.turn "2024-05-01"
        (Sample.world_R ["cats"; "y"; "q"] [Sample.offline_script])
      = (Ok true, w')
      /\ stdin w' = ["q"]
      /\ saves w' = []
      /\ trace w'
         = Ask EmptyString
           :: Say "[yellow]Would you like to try again? (y/n): [/yellow]"
           :: Say "[red]Error during research: Search is unavailable.[/red]"
           :: earlier)
  /\ (exists markup,
        Research.turn "2024-05-01"
          (Sample.world_R ["what does [/INST] mean"; "y"; "q"] [Sample.cats_script])
        = (Raise (MarkupError markup),
           mkWorld ["y"; "q"] [Sample.cats_script]
             [Ask (nl ++ "[bold yellow]Enter your research query (or 'q' to quit): "
                      ++ "[/bold yellow]")])).
Proof.
  split.
  - apply (proj1 (proj1
             (@failed_turn_saves_nothing_and_asks _ "2024-05-01" "cats" "y" ["q"]
                (Sample.world_R ["cats"; "y"; "q"] [Sample.offline_script])
                eq_refl ltac:(discriminate) eq_refl)
             eq_refl eq_refl)).
    reflexivity.
  - eexists.
    exact (proj2
             (@failed_turn_saves_nothing_and_asks _ "2024-05-01"
                "what does [/INST] mean" "y" ["q"]
                (Sample.world_R ["what does [/INST] mean"; "y"; "q"] [Sample.cats_script])
                eq_refl ltac:(discriminate) eq_refl)
             eq_refl).
Defined.

Lemma quit_ends_the_research_loop_witness :
  Research.main "2024-05-01" (Sample.world_R ["Q"; "cats"] [Sample.cats_script])
  = Some (Ok tt,
          mkWorld ["cats"] [Sample.cats_script]
            [ Say "[green]Goodbye![/green]";
              Ask Research.query_prompt;
              Banner "[bold green]Research Assistant[/bold green]" ]).
Proof.
  apply (@quit_ends_the_research_loop _ "2024-05-01" "Q" ["cats"]
           (Sample.world_R ["Q"; "cats"] [Sample.cats_script]));
    reflexivity.
Defined.

Lemma refinement_reply_is_not_repaired_witness :
  (exists r w',
      B._handle_iteration Sample.standup_B "add decisions" Sample.transcript "standup"
        (Sample.world_B [] [B.Content Sample.untagged_json])
      = (r, w')
      /\ replies w' = []
      /\ saves w' = []
      /\ calls w'
         = [Call (ImproveRequest Sample.standup_B "add decisions" Sample.transcript)]
      /\ r = Ok Sample.standup_B)
  /\ B.extraction [B.Content Sample.untagged_json]
     = Some (mkInsight [] [mkItem "Use Postgres" "Let us use Postgres." "Bob" B.APPROVED]
                       [] [] [] [] []).
Proof.
  split; [|reflexivity].
  destruct (proj2 (@refinement_reply_is_not_repaired _
              [ ("decisions",
                 JArr [ JObj [ ("point", JStr "Use Postgres");
                               ("quote", JStr "Let us use Postgres.");
                               ("speaker", JStr "Bob") ] ]) ]
              Decisions
              [ JObj [ ("point", JStr "Use Postgres");
                       ("quote", JStr "Let us use Postgres.");
                       ("speaker", JStr "Bob") ] ]
              [ ("point", JStr "Use Postgres");
                ("quote", JStr "Let us use Postgres.");
                ("speaker", JStr "Bob") ]
              Sample.standup_B "add decisions" Sample.transcript "standup" []
              (Sample.world_B [] [B.Content Sample.untagged_json])
              eq_refl (or_introl eq_refl) eq_refl eq_refl))
    as (r & w' & E & Hr & Hsv & Hc & _ & Hok).
  exists r, w'. split; [exact E|]. split; [exact Hr|]. split; [exact Hsv|].
  split; [exact Hc|]. apply Hok; reflexivity.
Defined.

Lemma refinement_failure_keeps_previous_when_reported_witness :
  exists r w',
    A._handle_iteration Sample.standup "add Bob as attendee" Sample.transcript "standup"
      (Sample.world_A ["y"] [A.Refused (BackendError "Service unavailable.")])
    = (r, w')
    /\ saves w' = []
    /\ stdin w' = ["y"]
    /\ r = Ok Sample.standup.
Proof.
  destruct (proj1 refinement_failure_keeps_previous_when_reported Sample.standup
                  "add Bob as attendee" Sample.transcript "standup"
                  (Sample.world_A ["y"] [A.Refused (BackendError "Service unavailable.")])
                  eq_refl)
    as (r & w' & E & Hsv & Hs & _ & Hok).
  exists r, w'. split; [exact E|]. split; [exact Hsv|]. split; [exact Hs|].
  apply Hok; reflexivity.
Defined.

Lemma extraction_raises_in_A_and_repairs_in_B_witness :
  (exists e w',
      A.process_transcript false "standup" Sample.transcript
        (Sample.world_A ["y"] [A.Refused (BackendError "Service unavailable.")])
      = (Raise e, w')
      /\ saves w' = []
      /\ stdin w' = ["y"])
  /\ B.analyze_transcript Sample.transcript
       (Sample.world_B [] [B.Content Sample.untagged_json])
     = (Ok (mkInsight [] [mkItem "Use Postgres" "Let us use Postgres." "Bob" B.APPROVED]
                      [] [] [] [] []),
        mkWorld [] [] [Call (AnalyzeRequest Sample.transcript)]).
Proof.
  split.
  - apply (proj1 (proj2 extraction_raises_in_A_and_repairs_in_B) false "standup"
                 Sample.transcript
                 (Sample.world_A ["y"] [A.Refused (BackendError "Service unavailable.")]));
      reflexivity.
  - apply (proj1 (proj2 (proj2 (proj2 extraction_raises_in_A_and_repairs_in_B)))
                 Sample.transcript
                 (mkInsight [] [mkItem "Use Postgres" "Let us use Postgres." "Bob"
                                       B.APPROVED]
                            [] [] [] [] [])
                 (Sample.world_B [] [B.Content Sample.untagged_json])).
    reflexivity.
Defined.

End Examples.
